(** * Pharmaceutical sales analysis: time-series and forecasting core

    A shallow embedding of [src/src/time_series_analysis.py]
    ([TimeSeriesAnalysis]) and [src/src/tsa_forecasting.py]
    ([TSAForecasting]).

    Python methods are functions in a state-and-exception monad over the
    object they are called on: an [outcome] is either a normal return value
    or a raised exception, and [try_except] is Python's [try ... except].
    A method that falls off its end, or executes a bare [return], returns
    [None]; such methods have an [option] result.

    The repository code is mostly calls into pandas, statsmodels and Prophet.
    Those library operations are modelled by their documented behaviour, each
    one in a definition of its own that carries the library function's name.
    The [Sales] column is numeric and non-null (the preprocessing step
    delivers it so).  The code is generic in the arithmetic of column values
    (class [Arith]), with an instance for exact rationals ([Qc]) and the
    binary64 instance that Python floats really have; properties that need
    the laws of arithmetic are stated for the exact instance. *)

From Stdlib Require Import ZArith QArith Qcanon Floats Lia.
From stdpp Require Import base numbers list sorting gmap strings pretty.

Local Open Scope Z_scope.
Set Warnings "-clear-no-such-hyp".

(** ** Exceptions and outcomes *)

Module Py.

(** The exception classes that occur.  The last four are the names the
    specification's error taxonomy uses; no class of that name is defined
    anywhere in the repository and no code path constructs one. *)
Inductive exn_class :=
| Exception            (* raised directly by Prophet: raise Exception(...) *)
| ValueError
| KeyError
| IndexError
| TypeError
| AttributeError
| RuntimeError
| FileNotFoundError
| PlotlyError
| InsufficientDataError
| ModelNotFitError
| ForecastNotAvailableError
| EmptyHorizonError.

#[global] Instance exn_class_eq_dec : EqDecision exn_class.
Proof. solve_decision. Defined.

Record exn := mk_exn { exn_cls : exn_class; exn_msg : string }.

#[global] Instance exn_eq_dec : EqDecision exn.
Proof. solve_decision. Defined.

(** [isinstance(e, c)] for the classes above.  Every class derives from
    [Exception]; there is no other subclass relation among them that a
    handler of the two modelled files relies on. *)
Definition isinstance (e : exn) (c : exn_class) : bool :=
  match c with
  | Exception => true
  | _ => bool_decide (exn_cls e = c)
  end.

Inductive outcome (A : Type) :=
| Normal (a : A)
| Raised (e : exn).
Arguments Normal {A} a.
Arguments Raised {A} e.

(** A computation on an object of type [S]. *)
Definition M (S A : Type) : Type := S → outcome A * S.

Definition ret {S A} (a : A) : M S A := λ s, (Normal a, s).
Definition raise {S A} (c : exn_class) (msg : string) : M S A :=
  λ s, (Raised (mk_exn c msg), s).
Definition bind {S A B} (m : M S A) (k : A → M S B) : M S B :=
  λ s, match m s with
       | (Normal a, s') => k a s'
       | (Raised e, s') => (Raised e, s')
       end.
Definition get {S} : M S S := λ s, (Normal s, s).
Definition modify {S} (f : S → S) : M S unit := λ s, (Normal tt, f s).
Definition lift {S A} (o : outcome A) : M S A := λ s, (o, s).

(** One [except C as e: handler] clause. *)
Record handler (S A : Type) :=
  mk_handler { h_class : exn_class; h_body : exn → M S A }.
Arguments mk_handler {S A} h_class h_body.
Arguments h_class {S A} h.
Arguments h_body {S A} h.

(** [try: body except ...]: the first clause whose class matches runs; an
    exception no clause matches propagates. *)
Definition try_except {S A} (body : M S A) (hs : list (handler S A)) : M S A :=
  λ s, match body s with
       | (Normal a, s') => (Normal a, s')
       | (Raised e, s') =>
           match List.find (λ h, isinstance e (h_class h)) hs with
           | Some h => h_body h e s'
           | None => (Raised e, s')
           end
       end.

End Py.
Import Py.

Declare Scope py_scope.
Delimit Scope py_scope with py.
Notation "'let*' x := m 'in' k" := (Py.bind m (λ x, k))
  (at level 10, x pattern, m at level 100, k at level 200) : py_scope.
Notation "m ;;; k" := (Py.bind m (λ _, k))
  (at level 100, right associativity) : py_scope.

(** Python sequence slicing [l[a:b]] with integer bounds: a negative bound
    counts from the end, and both bounds are clipped to the sequence. *)
Definition py_clip (len i : Z) : Z :=
  if i <? 0 then Z.max (i + len) 0 else Z.min i len.

Definition py_slice {A} (a b : Z) (l : list A) : list A :=
  let len := Z.of_nat (length l) in
  let a' := py_clip len a in
  let b' := py_clip len b in
  take (Z.to_nat (b' - a')) (drop (Z.to_nat a') l).

(** ** Calendar dates *)

Record date := mk_date { year : Z; month : Z; day : Z }.

#[global] Instance date_eq_dec : EqDecision date.
Proof. solve_decision. Defined.

Definition date_lt (a b : date) : Prop :=
  year a < year b ∨
  (year a = year b ∧ (month a < month b ∨ (month a = month b ∧ day a < day b))).

Definition date_le (a b : date) : Prop := date_lt a b ∨ a = b.

#[global] Instance date_lt_dec : RelDecision date_lt.
Proof. intros a b. unfold date_lt. apply _. Defined.
#[global] Instance date_le_dec : RelDecision date_le.
Proof. intros a b. unfold date_le. apply _. Defined.

Definition is_leap (y : Z) : bool :=
  ((y mod 4 =? 0) && negb (y mod 100 =? 0)) || (y mod 400 =? 0).

Definition days_in_month (y m : Z) : Z :=
  if m =? 2 then (if is_leap y then 29 else 28)
  else if (m =? 4) || (m =? 6) || (m =? 9) || (m =? 11) then 30
  else 31.

Definition valid_date (d : date) : Prop :=
  1 ≤ month d ≤ 12 ∧ 1 ≤ day d ≤ days_in_month (year d) (month d).

(** Months counted from year 0: the calendar month a date falls in. *)
Definition month_index (d : date) : Z := year d * 12 + (month d - 1).

(** The last day of the month with the given index. *)
Definition month_end (k : Z) : date :=
  let y := k / 12 in
  let m := k mod 12 + 1 in
  mk_date y m (days_in_month y m).

(** ** Arithmetic of column values *)

Class Arith (V : Type) := {
  vzero : V;
  vadd : V → V → V;
  vsub : V → V → V;
  vmul : V → V → V;
  vdiv : V → V → V;
  vofZ : Z → V;
  vltb : V → V → bool;
}.

(** Exact rationals. *)
#[global] Instance Arith_Qc : Arith Qc := {|
  vzero := 0%Qc;
  vadd := Qcplus;
  vsub := Qcminus;
  vmul := Qcmult;
  vdiv := Qcdiv;
  vofZ := Qc_of_Z;
  vltb := λ x y, bool_decide (x < y)%Qc;
|}.

(** IEEE 754 binary64, the arithmetic of Python's [float] and of numpy's
    [float64]. *)
Definition float_of_Z (z : Z) : float :=
  match z with
  | Z0 => 0%float
  | Zpos p => PrimFloat.of_uint63 (Uint63.of_Z (Zpos p))
  | Zneg p => PrimFloat.opp (PrimFloat.of_uint63 (Uint63.of_Z (Zpos p)))
  end.

#[global] Instance Arith_float : Arith float := {|
  vzero := 0%float;
  vadd := PrimFloat.add;
  vsub := PrimFloat.sub;
  vmul := PrimFloat.mul;
  vdiv := PrimFloat.div;
  vofZ := float_of_Z;
  vltb := PrimFloat.ltb;
|}.

(** [Series.sum()]: accumulation from zero in row order. *)
Definition vsum {V} `{Arith V} (l : list V) : V := foldl vadd vzero l.

(** ** pandas: grouping, sorting, rolling windows *)

Section groupby.
Context {K R : Type} `{EqDecision K} (key : R → K).

(** Groups in order of first appearance, members in row order. *)
Fixpoint add_to_group (r : R) (gs : list (K * list R)) : list (K * list R) :=
  match gs with
  | [] => [(key r, [r])]
  | (k, members) :: gs' =>
      if decide (key r = k) then (k, members ++ [r]) :: gs'
      else (k, members) :: add_to_group r gs'
  end.

Definition factorize (rows : list R) : list (K * list R) :=
  foldl (λ gs r, add_to_group r gs) [] rows.
End groupby.

(** [df.groupby('Date')]: one group per distinct date, ascending by date
    (pandas sorts the group keys). *)
Definition groupby_date {R} (Date : R → date) (rows : list R)
  : list (date * list R) :=
  merge_sort (λ g1 g2, date_le g1.1 g2.1) (factorize Date rows).

(** [df.sort_values(by = 'Date')]. *)
Definition sort_values_date {R} (Date : R → date) (rows : list R) : list R :=
  merge_sort (λ r1 r2, date_le (Date r1) (Date r2)) rows.

Section pandas.
Context {V : Type} `{Arith V}.

(** Mean of a non-empty selection. *)
Definition vavg (l : list V) : V := vdiv (vsum l) (vofZ (Z.of_nat (length l))).

(** [Series.mean()]: NaN (here [None]) for an empty selection. *)
Definition vmean (l : list V) : option V :=
  match l with
  | [] => None
  | _ => Some (vavg l)
  end.

(** [df.groupby('Date')['Sales'].sum().reset_index()] and the same with
    [mean()], on (Date, Sales) rows. *)
Definition groupby_sum (rows : list (date * V)) : list (date * V) :=
  (λ g, (g.1, vsum (g.2.*2))) <$> groupby_date fst rows.

Definition groupby_mean (rows : list (date * V)) : list (date * V) :=
  (λ g, (g.1, vavg (g.2.*2))) <$> groupby_date fst rows.

(** [calc_mean] of pandas' window aggregations: the mean of the [nobs]
    observations in the window once there are at least [minp] of them. *)
Definition calc_mean (minp nobs : nat) (sum_x : V) : option V :=
  if decide (minp ≤ nobs ∧ 0 < nobs)%nat
  then Some (vdiv sum_x (vofZ (Z.of_nat nobs)))
  else None.

(** [roll_mean] of pandas for a fixed trailing window of [W ≥ 1] rows: a
    running sum from which the observation leaving the window is removed
    before the new one is added.  [i] is the position of the head of
    [rest] in [values]. *)
Fixpoint roll_mean (W : nat) (values : list V) (i nobs : nat) (sum_x : V)
    (rest : list V) : list (option V) :=
  match rest with
  | [] => []
  | x :: rest' =>
      let '(nobs1, sum1) :=
        match (if decide (W ≤ i)%nat then values !! (i - W)%nat else None) with
        | Some old => (pred nobs, vsub sum_x old)
        | None => (nobs, sum_x)
        end in
      let nobs2 := S nobs1 in
      let sum2 := vadd sum1 x in
      calc_mean W nobs2 sum2 :: roll_mean W values (S i) nobs2 sum2 rest'
  end.

(** [series.rolling(window = W).mean()], with [min_periods] defaulting to
    the window size.  A negative window is refused; an empty window has no
    mean. *)
Definition rolling_mean (W : Z) (values : list V) : outcome (list (option V)) :=
  if W <? 0 then
    Raised (mk_exn ValueError "window must be an integer 0 or greater")
  else if W =? 0 then Normal ((λ _, None) <$> values)
  else Normal (roll_mean (Z.to_nat W) values 0 0 vzero values).

End pandas.

(** ** statsmodels: classical seasonal decomposition

    [statsmodels.tsa.seasonal.seasonal_decompose] is library code: it is
    imported by time_series_analysis.py and is not under src/.  Its input
    checks are modelled after the library; the decomposition proper is the
    algorithm of section 4.2 of the specification, which is the library's
    (centred moving-average trend, per-position seasonal means,
    normalisation, tiling, residual). *)

Section statsmodels.
Context {V : Type} `{Arith V}.

Record DecomposeResult := mk_DecomposeResult {
  observed : list V;
  trend : list (option V);       (* None: NaN at the series boundaries *)
  seasonal : list (option V);
  resid : list (option V);
}.

Definition vhalf : V := vdiv (vofZ 1) (vofZ 2).

(** The trend filter: for an even period the weights at both ends are
    halved, so that the window is centred on an observation. *)
Definition decompose_filter (period : nat) : list V :=
  (λ c, vdiv c (vofZ (Z.of_nat period))) <$>
    (if Nat.even period
     then [vhalf] ++ replicate (period - 1) (vofZ 1) ++ [vhalf]
     else replicate period (vofZ 1)).

(** [convolution_filter(x, filt, nsides = 2)]: the valid part of the
    convolution, padded with NaN at head and tail. *)
Definition convolution_filter (x filt : list V) : list (option V) :=
  let L := length filt in
  let trim_head := (Nat.div2 (S L) - 1)%nat in
  let trim_tail := (Nat.div2 (S L) - L mod 2)%nat in
  imap (λ i _,
          if decide (trim_head ≤ i ∧ i + trim_tail < length x)%nat
          then Some (vsum (zip_with vmul filt
                             (reverse (take L (drop (i - trim_head) x)))))
          else None) x.

(** The slice [l[i::p]]. *)
Definition stride {A} (i p : nat) (l : list A) : list A :=
  omap (λ k, l !! (i + k * p)%nat) (seq 0 (length l)).

Definition nanmean (l : list (option V)) : option V := vmean (omap id l).

(** [np.mean]: NaN as soon as one entry is NaN. *)
Definition np_mean (l : list (option V)) : option V :=
  vs ← mapM id l; vmean vs.

Definition seasonal_mean (x : list (option V)) (period : nat)
  : list (option V) :=
  (λ i, nanmean (stride i period x)) <$> seq 0 period.

Definition lift2 (f : V → V → V) (a b : option V) : option V :=
  a' ← a; b' ← b; Some (f a' b').

(** Modelled from the spec: the seasonal indices computed inside
    statsmodels' [seasonal_decompose], which is not under src/.  Section 4.2,
    step 3: the index of a position in the period is the average of the
    detrended values that fall on that position, and the indices are then
    normalised so that their mean is 1 (multiplicative model; the additive
    model centres them instead). *)
Definition seasonal_indices (mult : bool) (detrended : list (option V))
    (period : nat) : list (option V) :=
  let period_averages := seasonal_mean detrended period in
  let m := np_mean period_averages in
  (λ a, lift2 (if mult then vdiv else vsub) a m) <$> period_averages.

(** The input checks of [seasonal_decompose], as the library makes them: the
    multiplicative model refuses values that are not positive, and the
    series must cover two full periods.  Both failures are [ValueError]s. *)
Definition check_decompose_input (x : list V) (mult : bool) (period : nat)
  : option exn :=
  let nobs := length x in
  if mult && existsb (λ v, negb (vltb vzero v)) x then
    Some (mk_exn ValueError
      "Multiplicative seasonality is not appropriate for zero and negative values")
  else if (nobs <? 2 * period)%nat then
    Some (mk_exn ValueError
      ("x must have 2 complete cycles requires " +:+ pretty (2 * period)%nat
       +:+ " observations. x only has " +:+ pretty nobs
       +:+ " observation(s)"))
  else None.

(** Modelled from the spec: the decomposition proper of statsmodels'
    [seasonal_decompose], which is not under src/.  Section 4.2, steps 1 to
    5: trend, detrended series, seasonal indices, their tiling over the
    series, residual. *)
Definition decompose (x : list V) (mult : bool) (period : nat)
  : DecomposeResult :=
  let nobs := length x in
  let filt := decompose_filter period in
  let trend := convolution_filter x filt in
  let detrended :=
    zip_with (λ v t, (if mult then vdiv else vsub) v <$> t) x trend in
  let period_averages := seasonal_indices mult detrended period in
  let seasonal :=
    take nobs (mjoin (replicate (nobs / period + 1)%nat period_averages)) in
  let resid :=
    if mult
    then zip_with (λ vs t, lift2 vdiv (lift2 vdiv (Some vs.1) vs.2) t)
           (zip x seasonal) trend
    else zip_with (λ d s, lift2 vsub d s) detrended seasonal in
  mk_DecomposeResult x trend seasonal resid.

(** [seasonal_decompose(x, model, period)].  The model is multiplicative as
    soon as its name starts with an m. *)
Definition seasonal_decompose (x : list V) (model : string) (period : nat)
  : outcome DecomposeResult :=
  let mult := String.prefix "m" model in
  match check_decompose_input x mult period with
  | Some e => Raised e
  | None => Normal (decompose x mult period)
  end.

End statsmodels.

Arguments DecomposeResult V : clear implicits.

(** ** The cleaned dataset *)

(** The columns of the cleaned dataset that the modelled methods read. *)
Record sale (V : Type) := mk_sale { Country : string; Date : date; Sales : V }.
Arguments mk_sale {V} Country Date Sales.
Arguments Country {V} s.
Arguments Date {V} s.
Arguments Sales {V} s.

(** ** TimeSeriesAnalysis (time_series_analysis.py) *)

Module time_series_analysis.
Section TimeSeriesAnalysis.
Context {V : Type} `{Arith V}.

Record TimeSeriesAnalysis := mk_TimeSeriesAnalysis {
  input_data : list (sale V);
  log : list string;          (* records written by self.log.error *)
}.

Definition log_error (msg : string) (e : exn) : M TimeSeriesAnalysis unit :=
  modify (λ s, mk_TimeSeriesAnalysis (input_data s)
                 (log s ++ [msg +:+ exn_msg e])).

(** The four stacked line plots of [decompose_revenue]: subplot title and
    plotted values, over the positional index of the aggregated frame. *)
Record Figure := mk_Figure {
  title_text : string;
  traces : list (string * list (option V));
}.

Definition decompose_revenue_body : M TimeSeriesAnalysis (option Figure) :=
  (let* self := get in
   let data := sort_values_date Date (input_data self) in
   let data := groupby_sum ((λ r, (Date r, Sales r)) <$> data) in
   let* result := lift (seasonal_decompose (data.*2) "multiplication" 12) in
   ret (Some (mk_Figure
     "Multiplicative Decomposition of Monthly Revenue (Period = 12)"
     [ ("Original Series", Some <$> data.*2);
       ("Trend", trend result);
       ("Seasonal", seasonal result);
       ("Residual", resid result) ])))%py.

(** Only plotly's own errors are handled. *)
Definition decompose_revenue : M TimeSeriesAnalysis (option Figure) :=
  try_except decompose_revenue_body
    [ mk_handler PlotlyError
        (λ e, (log_error "Couldn't plot data: " e ;;; ret None)%py) ].

(** One row of a per-country result frame: the [Date] index, the
    aggregated [Sales] and the [Moving_Average] column. *)
Record ma_row := mk_ma_row {
  ma_date : date;
  ma_sales : V;
  ma_moving_average : option V;
}.

(** The body of the [for country in unique_countries] loop. *)
Definition country_moving_average (window : Z) (data : list (sale V))
    (country : string) : outcome (list ma_row) :=
  let country_sales :=
    (λ r, (Date r, Sales r)) <$> filter (λ r, Country r = country) data in
  let country_sales_sorted := sort_values_date fst country_sales in
  let aggregated_country_sales := groupby_mean country_sales_sorted in
  match rolling_mean window (aggregated_country_sales.*2) with
  | Raised e => Raised e
  | Normal ma =>
      Normal (zip_with (λ r m, mk_ma_row r.1 r.2 m) aggregated_country_sales ma)
  end.

Fixpoint moving_average_loop (window : Z) (data : list (sale V))
    (countries : list string) (country_sales_data : gmap string (list ma_row))
  : outcome (gmap string (list ma_row)) :=
  match countries with
  | [] => Normal country_sales_data
  | country :: rest =>
      match country_moving_average window data country with
      | Raised e => Raised e
      | Normal frame =>
          moving_average_loop window data rest
            (<[country := frame]> country_sales_data)
      end
  end.

Definition moving_average_body (window : Z)
  : M TimeSeriesAnalysis (option (gmap string (list ma_row))) :=
  (let* self := get in
   let unique_countries :=
     elements (list_to_set (Country <$> input_data self) : gset string) in
   let* country_sales_data :=
     lift (moving_average_loop window (input_data self) unique_countries ∅) in
   ret (Some country_sales_data))%py.

Definition moving_average_analysis (window : Z)
  : M TimeSeriesAnalysis (option (gmap string (list ma_row))) :=
  try_except (moving_average_body window)
    [ mk_handler Exception
        (λ e, (log_error "Could not group data: " e ;;; ret None)%py);
      mk_handler FileNotFoundError
        (λ e, (log_error "Couldn't find data: " e ;;; ret None)%py) ].

End TimeSeriesAnalysis.

Arguments TimeSeriesAnalysis V : clear implicits.
Arguments ma_row V : clear implicits.
Arguments Figure V : clear implicits.
End time_series_analysis.

(** ** Prophet

    [prophet.Prophet] is library code.  Its numerical side (the fitted
    parameters and the predictive distribution) is kept abstract; the date
    handling of [fit], [make_future_dataframe] and [predict] is modelled from
    the library. *)

(** [pd.date_range(start, periods = n, freq = 'M')]: [n] consecutive
    calendar month ends, the first one being the first month end that is not
    before [start]. *)
Definition date_range_M (start : date) (n : Z) : outcome (list date) :=
  if n <? 0 then
    Raised (mk_exn ValueError "Number of periods must be non-negative")
  else Normal ((λ i, month_end (month_index start + i)) <$> seqZ 0 n).

(** The latest date of a column; [None] for an empty column. *)
Definition max_date (l : list date) : option date :=
  match l with
  | [] => None
  | d :: l' => Some (foldl (λ m d', if decide (date_lt m d') then d' else m) d l')
  end.

(** Sorted distinct dates of a column. *)
Definition sorted_unique (l : list date) : list date :=
  merge_sort date_le (remove_dups l).

Module tsa_forecasting.
Section TSAForecasting.
Context {V : Type} `{Arith V}.

(** Names of the datetime column and of the numeric column of a
    two-column frame. *)
Inductive time_name := Date_name | ds_name | other_time_name.
Inductive value_name := Sales_name | y_name | other_value_name.

Record frame := mk_frame {
  time_col : time_name;
  value_col : value_name;
  frows : list (date * V);
}.

(** [df.rename(columns = {"Date": "ds", "Sales": "y"})]. *)
Definition rename_ds_y (f : frame) : frame :=
  mk_frame (match time_col f with Date_name => ds_name | c => c end)
           (match value_col f with Sales_name => y_name | c => c end)
           (frows f).

(** What callers pass as [data]: a frame, a dict of frames (in insertion
    order), or something that is neither, such as [None]. *)
Inductive data_arg :=
| DataFrame (f : frame)
| Dict (items : list (string * frame))
| NoData.

Inductive kwarg := KBool (b : bool) | KStr (s : string) | KInt (z : Z).

Record forecast_row := mk_forecast_row {
  ds : date;
  yhat : V;
  yhat_lower : V;
  yhat_upper : V;
}.

(** The abstract numerical side of Prophet. *)
Variable theta : Type.
Variable check_kwargs : gmap string kwarg → option exn.
Variable optimize : gmap string kwarg → list (date * V) → exn + theta.
Variable predictive : theta → date → V * V * V.

Record Prophet := mk_Prophet {
  kwargs : gmap string kwarg;
  history_dates : option (list date);      (* None before fit *)
  params : option theta;                   (* None before fit *)
}.

(** The constructor [Prophet], called with keyword arguments. *)
Definition Prophet_init (kw : gmap string kwarg) : outcome Prophet :=
  match check_kwargs kw with
  | Some e => Raised e
  | None => Normal (mk_Prophet kw None None)
  end.

(** [m.fit(df)], a computation on the Prophet object: what it has stored
    by the time an exception is raised stays stored. *)
Definition Prophet_fit (df : option frame) : M Prophet unit :=
  (let* m := get in
   match history_dates m with
   | Some _ =>
       raise Exception
         "Prophet object can only be fit once. Instantiate a new object."
   | None =>
       match df with
       | None => raise TypeError "argument of type 'NoneType' is not iterable"
       | Some df =>
           match time_col df, value_col df with
           | ds_name, y_name =>
               if (length (frows df) <? 2)%nat then
                 raise ValueError "Dataframe has less than 2 non-NaN rows."
               else
                 (modify (λ m, mk_Prophet (kwargs m)
                                 (Some (sorted_unique ((frows df).*1)))
                                 (params m)) ;;;
                  match optimize (kwargs m) (frows df) with
                  | inl e => lift (Raised e)
                  | inr th =>
                      modify (λ m, mk_Prophet (kwargs m) (history_dates m)
                                     (Some th))
                  end)
           | _, _ =>
               raise ValueError
                 "Dataframe must have columns ds and y with the dates and values respectively."
           end
       end
   end)%py.

(** [m.make_future_dataframe(periods, freq = 'M')], with the history
    included. *)
Definition make_future_dataframe (m : Prophet) (periods : Z)
  : outcome (list date) :=
  match history_dates m with
  | None => Raised (mk_exn Exception "Model has not been fit.")
  | Some hd =>
      match max_date hd with
      | None => Raised (mk_exn ValueError "Neither `start` nor `end` can be NaT")
      | Some last_date =>
          match date_range_M last_date (periods + 1) with
          | Raised e => Raised e
          | Normal dates =>
              let dates := filter (λ d, date_lt last_date d) dates in
              let dates := py_slice 0 periods dates in
              Normal (hd ++ dates)
          end
      end
  end.

(** [m.predict(future)]: one row per date of [future]. *)
Definition predict (m : Prophet) (future : list date)
  : outcome (list forecast_row) :=
  match params m with
  | None => Raised (mk_exn Exception "Model has not been fit.")
  | Some th =>
      Normal ((λ d, let '(y, lo, up) := predictive th d in
                    mk_forecast_row d y lo up) <$> future)
  end.

(** *** The class TSAForecasting *)

Record TSAForecasting := mk_TSAForecasting {
  data : option (list (sale V));            (* None: constructed without data *)
  model : option Prophet;                   (* None from __init__ on; never used *)
  forecast : option (list forecast_row);
  prophet_model : option (option Prophet);  (* outer None: no such attribute yet *)
  log : list string;                        (* records written by self.log.error *)
  stdout : list string;                     (* lines written by print *)
}.

(** [__init__] creates [data], [model] and [forecast]; it does not create
    [prophet_model]. *)
Definition __init__ (input_data : option (list (sale V))) : TSAForecasting :=
  mk_TSAForecasting input_data None None None [] [].

Definition set_prophet_model (m : Prophet) : M TSAForecasting unit :=
  modify (λ s, mk_TSAForecasting (data s) (model s) (forecast s)
                 (Some (Some m)) (log s) (stdout s)).
Definition set_forecast (fc : list forecast_row) : M TSAForecasting unit :=
  modify (λ s, mk_TSAForecasting (data s) (model s) (Some fc)
                 (prophet_model s) (log s) (stdout s)).
Definition log_error (msg : string) (e : exn) : M TSAForecasting unit :=
  modify (λ s, mk_TSAForecasting (data s) (model s) (forecast s)
                 (prophet_model s) (log s ++ [msg +:+ exn_msg e]) (stdout s)).
Definition print (line : string) : M TSAForecasting unit :=
  modify (λ s, mk_TSAForecasting (data s) (model s) (forecast s)
                 (prophet_model s) (log s) (stdout s ++ [line])).

(** An [except] clause that logs and falls off the end of the method. *)
Definition log_and_return_None {A} (c : exn_class) (msg : string)
  : handler TSAForecasting (option A) :=
  mk_handler c (λ e, (log_error msg e ;;; ret None)%py).

(** [data[key]] on a dict (items have distinct keys). *)
Definition dict_getitem (items : list (string * frame)) (key : string)
  : M TSAForecasting frame :=
  match list_find (λ kv, kv.1 = key) items with
  | Some (_, kv) => ret kv.2
  | None => raise KeyError key
  end.

(** [list(data.values())[0]]. *)
Definition dict_first_value (items : list (string * frame))
  : M TSAForecasting frame :=
  match items with
  | kv :: _ => ret kv.2
  | [] => raise IndexError "list index out of range"
  end.

(** **** data_organization *)

Definition country_rows (input_data : list (sale V)) (country : string)
  : list (date * V) :=
  (λ r, (Date r, Sales r)) <$> filter (λ r, Country r = country) input_data.

Definition data_organization_body : M TSAForecasting (option (frame * frame)) :=
  (let* self := get in
   match data self with
   | None => raise TypeError "'NoneType' object is not subscriptable"
   | Some input_data =>
       let poland_data := country_rows input_data "Poland" in
       let germany_data := country_rows input_data "Germany" in
       let germany_data := groupby_sum germany_data in
       let poland_data := groupby_sum poland_data in
       ret (Some (mk_frame Date_name Sales_name poland_data,
                  mk_frame Date_name Sales_name germany_data))
   end)%py.

Definition data_organization : M TSAForecasting (option (frame * frame)) :=
  try_except data_organization_body
    [ log_and_return_None Exception "Could not organize data: ";
      log_and_return_None FileNotFoundError "Could not find file: " ].

(** **** fit_prophet_model *)

Definition default_params : gmap string kwarg :=
  {[ "yearly_seasonality" := KBool true;
     "weekly_seasonality" := KBool false;
     "daily_seasonality" := KBool false;
     "seasonality_mode" := KStr "multiplicative" ]}.

(** From [self.prophet_model = Prophet(...)] to the end of the [try]
    block.  The attribute refers to the object that [fit] mutates, so it
    holds whatever [fit] had stored when [fit] raises. *)
Definition fit_and_return (kw : gmap string kwarg) (fit_data : option frame)
  : M TSAForecasting (option Prophet) :=
  (let* m := lift (Prophet_init kw) in
   let '(r, m') := Prophet_fit fit_data m in
   set_prophet_model m' ;;;
   (let* _ := lift r in
    print "Prophet model fitted successfully!" ;;;
    print "Training data shape: (rows, 2)" ;;;
    ret (Some m')))%py.

Definition fit_prophet_model_body (data_ : data_arg)
    (data_key : option string) (prophet_params : gmap string kwarg)
  : M TSAForecasting (option Prophet) :=
  (let default_params := prophet_params ∪ default_params in
   match data_ with
   | Dict items =>
       match data_key with
       | None =>
           print "Available data groups:" ;;;
           (let* self := get in
            match data self with
            | None =>
                raise AttributeError
                  "'NoneType' object has no attribute 'keys'"
            | Some _ =>
                print "  - Country" ;;; print "  - Date" ;;;
                print "  - Sales" ;;; ret None
            end)
       | Some key =>
           let* fit_data := dict_getitem items key in
           fit_and_return default_params (Some fit_data)
       end
   | DataFrame f => fit_and_return default_params (Some f)
   | NoData => fit_and_return default_params None
   end)%py.

Definition fit_prophet_model (data_ : data_arg) (data_key : option string)
    (prophet_params : gmap string kwarg) : M TSAForecasting (option Prophet) :=
  try_except (fit_prophet_model_body data_ data_key prophet_params)
    [ log_and_return_None Exception "Could not find model: ";
      log_and_return_None FileNotFoundError "Could not find file: " ].

(** **** forecast_sales *)

(** Truthiness of [data_key]: [None] and the empty string are false. *)
Definition truthy (key : option string) : option string :=
  match key with
  | Some "" => None
  | k => k
  end.

Definition forecast_sales_body (data_ : data_arg) (horizon_months : Z)
    (data_key : option string)
  : M TSAForecasting (option (list forecast_row)) :=
  (let* self := get in
   match prophet_model self with
   | None =>
       raise AttributeError
         "'TSAForecasting' object has no attribute 'prophet_model'"
   | Some None => print "Please fit the model first!" ;;; ret None
   | Some (Some m) =>
       let* historical_data :=
         match data_ with
         | Dict items =>
             match truthy data_key with
             | Some key => dict_getitem items key
             | None => dict_first_value items
             end
         | DataFrame f => ret f
         | NoData =>
             raise AttributeError
               "'NoneType' object has no attribute 'rename'"
         end in
       let historical_data := rename_ds_y historical_data in
       let* future := lift (make_future_dataframe m horizon_months) in
       let* fc := lift (predict m future) in
       set_forecast fc ;;;
       print ("Forecast generated for " +:+ pretty horizon_months
              +:+ " months ahead!") ;;;
       ret (Some fc)
   end)%py.

Definition forecast_sales (data_ : data_arg) (horizon_months : Z)
    (data_key : option string)
  : M TSAForecasting (option (list forecast_row)) :=
  try_except (forecast_sales_body data_ horizon_months data_key)
    [ log_and_return_None Exception "Could not forecast: ";
      log_and_return_None FileNotFoundError "Could not find file: " ].

(** **** get_forecast_summary *)

Record summary := mk_summary {
  Total_Forecast_Sales : V;
  Average_Monthly_Sales : option V;   (* None: NaN, for an empty selection *)
  Min_Expected_Sales : option V;
  Max_Expected_Sales : option V;
  Sales_Growth_Rate : V;
}.

(** [Series.min()] and [Series.max()]. *)
Definition vmin (l : list V) : option V :=
  match l with
  | [] => None
  | x :: l' => Some (foldl (λ m y, if vltb y m then y else m) x l')
  end.
Definition vmax (l : list V) : option V :=
  match l with
  | [] => None
  | x :: l' => Some (foldl (λ m y, if vltb m y then y else m) x l')
  end.

(** [series.iloc[-1]]. *)
Definition iloc_last {A} (l : list A) : M TSAForecasting A :=
  match last l with
  | Some a => ret a
  | None => raise IndexError "single positional indexer is out-of-bounds"
  end.

Definition get_forecast_summary_body (data_ : data_arg) (perioDate : Z)
  : M TSAForecasting (option (summary * list forecast_row)) :=
  (let* self := get in
   match forecast self with
   | None => print "Please generate forecast first!" ;;; ret None
   | Some fc =>
       let* historical_data :=
         match data_ with
         | Dict items => dict_first_value items
         | DataFrame f => ret f
         | NoData => raise TypeError "object of type 'NoneType' has no len()"
         end in
       let n_historical := Z.of_nat (length (frows historical_data)) in
       let future_forecast :=
         py_slice n_historical (n_historical + perioDate) fc in
       let total := vsum (yhat <$> future_forecast) in
       let average := vmean (yhat <$> future_forecast) in
       let min_expected := vmin (yhat_lower <$> future_forecast) in
       let max_expected := vmax (yhat_upper <$> future_forecast) in
       let* last_yhat := iloc_last (yhat <$> future_forecast) in
       let* y :=
         match value_col historical_data with
         | y_name => ret ((frows historical_data).*2)
         | _ => raise KeyError "y"
         end in
       let* last_y := iloc_last y in
       let growth :=
         vmul (vsub (vdiv last_yhat last_y) (vofZ 1)) (vofZ 100) in
       let summary_ :=
         mk_summary total average min_expected max_expected growth in
       print "=== FORECAST SUMMARY ===" ;;;
       print "Total Forecast Sales" ;;;
       print "Average Monthly Sales" ;;;
       print "Min Expected Sales" ;;;
       print "Max Expected Sales" ;;;
       print "Sales Growth Rate" ;;;
       ret (Some (summary_, future_forecast))
   end)%py.

Definition get_forecast_summary (data_ : data_arg) (perioDate : Z)
  : M TSAForecasting (option (summary * list forecast_row)) :=
  try_except (get_forecast_summary_body data_ perioDate)
    [ log_and_return_None FileNotFoundError "Could not find file: ";
      log_and_return_None Exception "Could not summarize forecast: " ].

End TSAForecasting.

Arguments frame V : clear implicits.
Arguments data_arg V : clear implicits.
Arguments forecast_row V : clear implicits.
Arguments summary V : clear implicits.
Arguments Prophet theta : clear implicits.
Arguments TSAForecasting V theta : clear implicits.
Arguments kwargs {theta} p.
Arguments history_dates {theta} p.
Arguments params {theta} p.
Arguments mk_Prophet {theta} kwargs history_dates params.
Arguments data {V theta} t.
Arguments model {V theta} t.
Arguments forecast {V theta} t.
Arguments prophet_model {V theta} t.
Arguments log {V theta} t.
Arguments stdout {V theta} t.
Arguments mk_TSAForecasting {V theta} data model forecast prophet_model log stdout.
Arguments __init__ {V theta} input_data.
Arguments set_prophet_model {V theta} m _.
Arguments set_forecast {V theta} fc _.
Arguments log_error {V theta} msg e _.
Arguments print {V theta} line _.
Arguments log_and_return_None {V theta A} c msg.
Arguments dict_getitem {V theta} items key _.
Arguments dict_first_value {V theta} items _.
Arguments iloc_last {V theta A} l _.
Arguments fit_and_return {V theta} check_kwargs optimize kw fit_data _.
Arguments make_future_dataframe {theta} m periods.
Arguments predict {V theta} predictive m future.
Arguments Prophet_init {theta} check_kwargs kw.
Arguments Prophet_fit {V theta} optimize df _.
Arguments data_organization {V _ theta} _.
Arguments data_organization_body {V _ theta} _.
Arguments fit_prophet_model {V theta} check_kwargs optimize data_ data_key prophet_params _.
Arguments fit_prophet_model_body {V theta} check_kwargs optimize data_ data_key prophet_params _.
Arguments forecast_sales {V theta} predictive data_ horizon_months data_key _.
Arguments forecast_sales_body {V theta} predictive data_ horizon_months data_key _.
Arguments get_forecast_summary {V _ theta} data_ perioDate _.
Arguments get_forecast_summary_body {V _ theta} data_ perioDate _.
End tsa_forecasting.

(** ** Notions used in the statements *)

(** The members recorded for key [k] in a list of groups. *)
Fixpoint members {K R} `{EqDecision K} (k : K) (gs : list (K * list R))
  : list R :=
  match gs with
  | [] => []
  | (k', ms) :: gs' => if decide (k = k') then ms else members k gs'
  end.

(** The rows of a dataset that match a country and a date. *)
Definition matching {V} (country : string) (d : date) (rows : list (sale V))
  : list (sale V) :=
  filter (λ r, Country r = country ∧ Date r = d) rows.

(** [series] has one row per date on which [country] has rows, and its value
    aggregates the [Sales] of exactly those rows. *)
Definition aggregates {V} (agg : list V → V) (country : string)
    (rows : list (sale V)) (series : list (date * V)) : Prop :=
  NoDup series.*1 ∧
  ∀ d v, (d, v) ∈ series ↔
         matching country d rows ≠ [] ∧
         v = agg (Sales <$> matching country d rows).

(** Five monthly totals of one country: 10, 20, 30, 40, 50. *)
Definition example_series : time_series_analysis.TimeSeriesAnalysis Qc :=
  time_series_analysis.mk_TimeSeriesAnalysis
    [ mk_sale "Germany" (mk_date 2020 1 1) (Qc_of_Z 10);
      mk_sale "Germany" (mk_date 2020 2 1) (Qc_of_Z 20);
      mk_sale "Germany" (mk_date 2020 3 1) (Qc_of_Z 30);
      mk_sale "Germany" (mk_date 2020 4 1) (Qc_of_Z 40);
      mk_sale "Germany" (mk_date 2020 5 1) (Qc_of_Z 50) ] [].

(** Two transactions of one country in the same month. *)
Definition two_sales_one_month : time_series_analysis.TimeSeriesAnalysis Qc :=
  time_series_analysis.mk_TimeSeriesAnalysis
    [ mk_sale "Poland" (mk_date 2018 1 1) (Qc_of_Z 10);
      mk_sale "Poland" (mk_date 2018 1 1) (Qc_of_Z 30) ] [].

(** The number of distinct dates of a dataset: the length of its per-date
    aggregated series. *)
Definition n_dates {V} (rows : list (sale V)) : nat :=
  length (remove_dups (Date <$> rows)).

(** Ten monthly totals. *)
Definition ten_months : time_series_analysis.TimeSeriesAnalysis Qc :=
  time_series_analysis.mk_TimeSeriesAnalysis
    ((λ m, mk_sale "Germany" (mk_date 2020 m 1) (Qc_of_Z (100 + m))) <$>
       seqZ 1 10) [].

(** A series all of whose values are positive: what the multiplicative
    decomposition accepts. *)
Definition positive (l : list Qc) : Prop := Forall (λ v, (0 < v)%Qc) l.

(** The per-date totals that [decompose_revenue] hands to
    [seasonal_decompose]. *)
Definition revenue_series {V} `{Arith V} (rows : list (sale V)) : list V :=
  (groupby_sum ((λ r, (Date r, Sales r)) <$> sort_values_date Date rows)).*2.

(** Twenty-four monthly totals, January 2019 to December 2020. *)
Definition two_years : time_series_analysis.TimeSeriesAnalysis Qc :=
  time_series_analysis.mk_TimeSeriesAnalysis
    ((λ k, mk_sale "Germany" (mk_date (2019 + k / 12) (k mod 12 + 1) 1)
             (Qc_of_Z (100 + k mod 5))) <$> seqZ 0 24) [].

(** The month in which the forecast horizon starts: the month of the last
    historical date if that date is not yet the month's last day, the month
    after it otherwise. *)
Definition first_future_month (last : date) : Z :=
  if decide (day last = days_in_month (year last) (month last))
  then month_index last + 1
  else month_index last.

(** The frame that [get_forecast_summary] takes as the history: [data]
    itself, or the first value of a dict. *)
Definition historical_of {V} (data_ : tsa_forecasting.data_arg V)
  : option (tsa_forecasting.frame V) :=
  match data_ with
  | tsa_forecasting.DataFrame f => Some f
  | tsa_forecasting.Dict (kv :: _) => Some kv.2
  | _ => None
  end.

(** The frame that [forecast_sales] takes as the history. *)
Definition forecast_input {V} (data_ : tsa_forecasting.data_arg V)
    (data_key : option string) : option (tsa_forecasting.frame V) :=
  match data_ with
  | tsa_forecasting.DataFrame f => Some f
  | tsa_forecasting.Dict items =>
      match tsa_forecasting.truthy data_key with
      | Some key => snd <$> (snd <$> list_find (λ kv, kv.1 = key) items)
      | None => snd <$> head items
      end
  | tsa_forecasting.NoData => None
  end.

(** No model has been fitted in the session: the attribute [prophet_model]
    does not exist, is [None], or refers to a Prophet object without fitted
    parameters. *)
Definition unfitted {V theta} (s : tsa_forecasting.TSAForecasting V theta)
  : Prop :=
  match tsa_forecasting.prophet_model s with
  | Some (Some m) => tsa_forecasting.params m = None
  | _ => True
  end.

(** A forecasting session over binary64 values, with a Prophet stand-in
    that accepts everything and forecasts 120 (bounds 110 and 130) for every
    date; the history ends on 2020-12-01 with the value 100. *)
Module example_session.
Import tsa_forecasting.

Definition check_kwargs : gmap string kwarg → option exn := λ _, None.
Definition optimize
  : gmap string kwarg → list (date * float) → exn + unit := λ _ _, inr tt.
Definition predictive : unit → date → float * float * float :=
  λ _ _, (120, 110, 130)%float.

Definition history : frame float :=
  mk_frame ds_name y_name
    [ (mk_date 2020 10 1, 90%float);
      (mk_date 2020 11 1, 95%float);
      (mk_date 2020 12 1, 100%float) ].

Definition fresh : TSAForecasting float unit := __init__ (Some []).

Definition fitted : TSAForecasting float unit :=
  (fit_prophet_model check_kwargs optimize (DataFrame history) None ∅
     fresh).2.

Definition forecasted : TSAForecasting float unit :=
  (forecast_sales predictive (DataFrame history) 3 None fitted).2.
End example_session.

(** The [W] values of a series that end at position [i], inclusive. *)
Definition trailing_window {A} (W i : nat) (values : list A) : list A :=
  take W (drop (i + 1 - W) values).

(** The per-date means of one country: the [Date] index and the [Sales]
    column of the frame that [moving_average_analysis] builds for it. *)
Definition country_means {V} `{Arith V} (rows : list (sale V)) (c : string)
  : list (date * V) :=
  groupby_mean
    (sort_values_date fst
       ((λ r, (Date r, Sales r)) <$> filter (λ r, Country r = c) rows)).

#[global] Instance valid_date_dec (d : date) : Decision (valid_date d).
Proof. unfold valid_date. apply _. Defined.

(** ** TSAForecasting.plot_forecast (tsa_forecasting.py) *)

Module tsa_forecasting_plot.
Import tsa_forecasting.
Section plot_forecast.
Context {V : Type} {theta : Type}.

(** A [go.Scatter] trace: its legend name, if it has one, and its
    points. *)
Record Scatter := mk_Scatter {
  scatter_name : option string;
  scatter_x : list date;
  scatter_y : list V;
}.

Record Figure := mk_Figure {
  traces : list Scatter;      (* in the order of the add_trace calls *)
  title : string;
}.

(** [historical_data['ds']] and [historical_data['y']]. *)
Definition getitem_ds (f : frame V) : M (TSAForecasting V theta) (list date) :=
  match time_col f with
  | ds_name => ret (frows f).*1
  | _ => raise KeyError "ds"
  end.

Definition getitem_y (f : frame V) : M (TSAForecasting V theta) (list V) :=
  match value_col f with
  | y_name => ret (frows f).*2
  | _ => raise KeyError "y"
  end.

Definition plot_forecast_body (historical_data : option (frame V))
    (country_name : string) : M (TSAForecasting V theta) (option Figure) :=
  (let* self := get in
   match forecast self with
   | None => print "Please generate forecast first!" ;;; ret None
   | Some fc =>
       let* fig :=
         match historical_data with
         | Some h =>
             let* x := getitem_ds h in
             let* y := getitem_y h in
             ret [mk_Scatter (Some "Historical Sales") x y]
         | None => ret []
         end in
       let fig :=
         fig ++ [mk_Scatter (Some "Prophet Forecast") (ds <$> fc) (yhat <$> fc)] in
       let fig :=
         fig ++ [mk_Scatter None (ds <$> fc) (yhat_upper <$> fc)] in
       let fig :=
         fig ++ [mk_Scatter (Some "Confidence Interval") (ds <$> fc)
                   (yhat_lower <$> fc)] in
       ret (Some (mk_Figure fig
                    (if decide (country_name = "")
                     then "Prophet Sales Forecast"
                     else "Prophet Forecast for " +:+ country_name)))
   end)%py.

(** The method handles plotly's errors and [FileNotFoundError] only. *)
Definition plot_forecast (historical_data : option (frame V))
    (country_name : string) : M (TSAForecasting V theta) (option Figure) :=
  try_except (plot_forecast_body historical_data country_name)
    [ log_and_return_None PlotlyError "Couldn't plot data: ";
      log_and_return_None FileNotFoundError "Could not find file: " ].

End plot_forecast.

Arguments Scatter V : clear implicits.
Arguments Figure V : clear implicits.
End tsa_forecasting_plot.

(** ** The charts of TimeSeriesAnalysis (time_series_analysis.py) *)

(** A chart of plotly express: its title, if it has one, and its points,
    each with its x value, the value that selects its colour, and its y
    value. *)
Record point (X C Y : Type) := mk_point { px_x : X; px_color : C; px_y : Y }.
Arguments mk_point {X C Y} px_x px_color px_y.
Arguments px_x {X C Y} p.
Arguments px_color {X C Y} p.
Arguments px_y {X C Y} p.

Record chart (X C Y : Type) := mk_chart {
  chart_title : option string;
  chart_points : list (point X C Y);
}.
Arguments mk_chart {X C Y} chart_title chart_points.
Arguments chart_title {X C Y} c.
Arguments chart_points {X C Y} c.

(** The order of Python strings (by code point). *)
Definition str_lt (a b : string) : Prop := String.ltb a b = true.
Definition str_le (a b : string) : Prop := String.leb a b = true.

#[global] Instance str_lt_dec : RelDecision str_lt.
Proof. intros a b. unfold str_lt. apply _. Defined.
#[global] Instance str_le_dec : RelDecision str_le.
Proof. intros a b. unfold str_le. apply _. Defined.

(** The order of tuples: by the first component, then by the second. *)
Definition lex {A B} (ltA : relation A) (RB : relation B) : relation (A * B) :=
  λ p q, ltA p.1 q.1 ∨ (p.1 = q.1 ∧ RB p.2 q.2).

#[global] Instance lex_dec {A B} `{EqDecision A} (ltA : relation A)
  (RB : relation B) `{!RelDecision ltA} `{!RelDecision RB} :
  RelDecision (lex ltA RB).
Proof. intros p q. unfold lex. apply _. Defined.

(** [df.groupby(keys)]: one group per distinct key, the keys ascending. *)
Definition groupby_keys {K R} `{EqDecision K} (le : relation K)
    `{!RelDecision le} (key : R → K) (rows : list R) : list (K * list R) :=
  @merge_sort _ (λ g1 g2, le g1.1 g2.1) (λ g1 g2, decide_rel le g1.1 g2.1)
    (factorize key rows).

(** The columns of the cleaned dataset that the charts read besides
    Country, Date and Sales. *)
Record cleaned_row (V : Type) := mk_cleaned_row {
  to_sale : sale V;
  Year : Z;
  Channel : string;
  Sub_channel : string;
  Product_Class : string;
  Sales_Team : string;
  Customer_Name : option string;      (* None: a missing value *)
}.
Arguments mk_cleaned_row {V} to_sale Year Channel Sub_channel Product_Class
  Sales_Team Customer_Name.
Arguments to_sale {V} c.
Arguments Year {V} c.
Arguments Channel {V} c.
Arguments Sub_channel {V} c.
Arguments Product_Class {V} c.
Arguments Sales_Team {V} c.
Arguments Customer_Name {V} c.

(** A value of an index level: a year or a label. *)
Inductive level_value := LInt (z : Z) | LStr (s : string).

Module time_series_charts.
Section charts.
Context {V : Type} `{Arith V}.

(** [sale_trend] reads Date and Sales only. *)
Definition sale_trend_body
  : M (time_series_analysis.TimeSeriesAnalysis V) (option (chart date unit V)) :=
  (let* self := get in
   let data_sorted :=
     sort_values_date Date (time_series_analysis.input_data self) in
   let grouped := groupby_sum ((λ r, (Date r, Sales r)) <$> data_sorted) in
   ret (Some (mk_chart (Some "Overall Channel Sale in Four Years")
                ((λ r, mk_point r.1 tt r.2) <$> grouped))))%py.

Definition sale_trend
  : M (time_series_analysis.TimeSeriesAnalysis V) (option (chart date unit V)) :=
  try_except sale_trend_body
    [ mk_handler PlotlyError
        (λ e, (time_series_analysis.log_error "Couldn't plot data: " e ;;;
               ret None)%py) ].

(** The object, with all the columns the other charts read. *)
Record TimeSeriesAnalysis := mk_TimeSeriesAnalysis {
  input_data : list (cleaned_row V);
  log : list string;
}.

Definition log_error (msg : string) (e : exn) : M TimeSeriesAnalysis unit :=
  modify (λ s, mk_TimeSeriesAnalysis (input_data s)
                 (log s ++ [msg +:+ exn_msg e])).

Definition except_PlotlyError {A} : list (handler TimeSeriesAnalysis (option A)) :=
  [ mk_handler PlotlyError
      (λ e, (log_error "Couldn't plot data: " e ;;; ret None)%py) ].

Definition sort_values_Date (rows : list (cleaned_row V)) : list (cleaned_row V) :=
  merge_sort (λ r1 r2, date_le (Date (to_sale r1)) (Date (to_sale r2))) rows.

Definition sort_values_Year (rows : list (cleaned_row V)) : list (cleaned_row V) :=
  @merge_sort _ (λ r1 r2, Year r1 ≤ Year r2)
    (λ r1 r2, decide (Year r1 ≤ Year r2)) rows.

(** The mean of Sales over the rows of a group. *)
Definition mean_Sales (g : list (cleaned_row V)) : V :=
  vavg ((λ r, Sales (to_sale r)) <$> g).

Definition monthly_sales_trend_product
  : M TimeSeriesAnalysis (option (chart date string V)) :=
  try_except
    (let* self := get in
     let data_sorted := sort_values_Date (input_data self) in
     let grouped :=
       groupby_keys (lex date_lt str_le)
         (λ r, (Date (to_sale r), Product_Class r)) data_sorted in
     ret (Some (mk_chart (Some "Overall Channel Sale in Four Years")
                  ((λ g, mk_point g.1.1 g.1.2 (mean_Sales g.2)) <$> grouped))))%py
    except_PlotlyError.

(** The index of the frame that [growth_rate_analysis] plots: Year,
    Sub-channel, Channel, Product Class. *)
Definition growth_key : Type := Z * string * string * string.

Definition growth_key_le : relation growth_key :=
  lex (lex (lex Z.lt str_lt) str_lt) str_le.

(** [index.get_level_values(level)]. *)
Definition get_level_values (level : string) (index : list growth_key)
  : outcome (list level_value) :=
  if decide (level = "Year") then Normal ((λ k, LInt k.1.1.1) <$> index)
  else if decide (level = "Sub-channel") then
    Normal ((λ k, LStr k.1.1.2) <$> index)
  else if decide (level = "Channel") then Normal ((λ k, LStr k.1.2) <$> index)
  else if decide (level = "Product Class") then
    Normal ((λ k, LStr k.2) <$> index)
  else Raised (mk_exn KeyError ("Level " +:+ level +:+ " not found")).

Definition growth_rate_analysis_body (category : string)
  : M TimeSeriesAnalysis (option (chart level_value level_value V)) :=
  (let* self := get in
   let sorted_data := sort_values_Year (input_data self) in
   let grouped :=
     groupby_keys growth_key_le
       (λ r, (Year r, Sub_channel r, Channel r, Product_Class r))
       sorted_data in
   let grouped := (λ g, (g.1, mean_Sales g.2)) <$> grouped in
   let* x := lift (get_level_values "Year" grouped.*1) in
   let* color := lift (get_level_values category grouped.*1) in
   ret (Some (mk_chart None
                (zip_with (λ xc y, mk_point xc.1 xc.2 y) (zip x color)
                   grouped.*2))))%py.

Definition growth_rate_analysis (category : string)
  : M TimeSeriesAnalysis (option (chart level_value level_value V)) :=
  try_except (growth_rate_analysis_body category) except_PlotlyError.

Definition sales_team_yearly_growth
  : M TimeSeriesAnalysis (option (chart Z string V)) :=
  try_except
    (let* self := get in
     let data := sort_values_Year (input_data self) in
     let grouped :=
       groupby_keys (lex Z.lt str_le) (λ r, (Year r, Sales_Team r)) data in
     ret (Some (mk_chart (Some "Yearly Sales Growth of Sales Teams")
                  ((λ g, mk_point g.1.1 g.1.2 (mean_Sales g.2)) <$> grouped))))%py
    except_PlotlyError.

(** [count()]: the number of values that are not missing. *)
Definition count_Customer_Name (g : list (cleaned_row V)) : Z :=
  Z.of_nat (length (omap Customer_Name g)).

Definition customer_trend
  : M TimeSeriesAnalysis (option (chart date string Z)) :=
  try_except
    (let* self := get in
     let data :=
       groupby_keys (lex date_lt str_le)
         (λ r, (Date (to_sale r), Country (to_sale r))) (input_data self) in
     ret (Some (mk_chart (Some "Customer Behaviour Trend")
                  ((λ g, mk_point g.1.1 g.1.2 (count_Customer_Name g.2))
                     <$> data))))%py
    except_PlotlyError.

End charts.

Arguments TimeSeriesAnalysis V : clear implicits.
End time_series_charts.

(** Three transactions of two sales teams in one year. *)
Definition three_transactions : time_series_charts.TimeSeriesAnalysis Qc :=
  time_series_charts.mk_TimeSeriesAnalysis
    [ mk_cleaned_row (mk_sale "Germany" (mk_date 2018 1 1) (Qc_of_Z 10))
        2018 "Hospital" "Private" "Antibiotics" "Alpha" (Some "Koch Ltd");
      mk_cleaned_row (mk_sale "Germany" (mk_date 2018 1 1) (Qc_of_Z 30))
        2018 "Hospital" "Private" "Antibiotics" "Delta" None;
      mk_cleaned_row (mk_sale "Poland" (mk_date 2018 2 1) (Qc_of_Z 20))
        2018 "Pharmacy" "Retail" "Analgesics" "Alpha" (Some "Nowak SA") ] [].

(** ** The moving-average tab of the dashboard (app.py) *)

Module app.
Import time_series_analysis.
Section moving_average_tab.
Context {V : Type} `{Arith V}.

(** The table kept per country in [all_ma_results]: the Date index, the
    Sales column and the moving-average columns in insertion order. *)
Record ma_table := mk_ma_table {
  index : list date;
  sales : list V;
  columns : list (string * list (option V));
}.

(** The column name [f"Moving_Average{window}"]. *)
Definition column_name (window : Z) : string :=
  "Moving_Average" +:+ pretty window.

(** [df.rename(columns = {"Moving_Average": f"Moving_Average{window}"})]. *)
Definition rename_Moving_Average (window : Z) (df : list (ma_row V))
  : ma_table :=
  mk_ma_table (ma_date <$> df) (ma_sales <$> df)
    [(column_name window, ma_moving_average <$> df)].

(** Alignment of a series on an index (both without repeated labels): a
    label that the series does not have gets NaN. *)
Definition reindex (idx : list date) (series : list (date * option V))
  : list (option V) :=
  (λ d, match list_find (λ p, p.1 = d) series with
        | Some (_, p) => p.2
        | None => None
        end) <$> idx.

(** [table[name] = series]: an existing column is replaced in place, a
    new one is appended. *)
Definition setitem (table : ma_table) (name : string)
    (series : list (date * option V)) : ma_table :=
  let values := reindex (index table) series in
  mk_ma_table (index table) (sales table)
    (if decide (name ∈ (columns table).*1)
     then (λ c, if decide (c.1 = name) then (name, values) else c)
            <$> columns table
     else columns table ++ [(name, values)]).

(** The body of [for country, df in ma_result.items()]. *)
Definition merge_country (window : Z) (all_ma_results : gmap string ma_table)
    (item : string * list (ma_row V)) : gmap string ma_table :=
  let country := item.1 in
  let df := rename_Moving_Average window item.2 in
  match all_ma_results !! country with
  | None => <[country := df]> all_ma_results
  | Some table =>
      <[country :=
          setitem table (column_name window)
            (zip (index df) (ma_moving_average <$> item.2))]> all_ma_results
  end.

(** The loop [for window in lag_by], calling the analysis on the object of
    the dashboard. *)
Fixpoint merge_windows (windows : list Z) (all_ma_results : gmap string ma_table)
  : M (TimeSeriesAnalysis V) (gmap string ma_table) :=
  match windows with
  | [] => ret all_ma_results
  | window :: rest =>
      (let* ma_result := moving_average_analysis window in
       match ma_result with
       | None =>
           raise AttributeError "'NoneType' object has no attribute 'items'"
       | Some ma_result =>
           merge_windows rest
             (foldl (merge_country window) all_ma_results
                (map_to_list ma_result))
       end)%py
  end.

Definition lag_by : list Z := [2; 5; 10].

Definition all_ma_results : M (TimeSeriesAnalysis V) (gmap string ma_table) :=
  merge_windows lag_by ∅.

End moving_average_tab.

Arguments ma_table V : clear implicits.
End app.

(** ** DataHandler.load_data (data_handler.py) *)

(** The separators of posixpath: [sep = '/'] and [extsep = '.']. *)
Definition sep : Ascii.ascii := Ascii.ascii_of_nat 47.
Definition extsep : Ascii.ascii := Ascii.ascii_of_nat 46.

(** [p.rfind(c)]: the index of the last occurrence of [c], or -1. *)
Fixpoint rfind_from (c : Ascii.ascii) (p : string) (i found : Z) : Z :=
  match p with
  | EmptyString => found
  | String a p' => rfind_from c p' (i + 1) (if decide (a = c) then i else found)
  end.

Definition rfind (c : Ascii.ascii) (p : string) : Z := rfind_from c p 0 (-1).

(** The slices [p[:n]] and [p[n:]]. *)
Fixpoint str_take (n : nat) (p : string) : string :=
  match n, p with
  | S n', String a p' => String a (str_take n' p')
  | _, _ => EmptyString
  end.

Fixpoint str_drop (n : nat) (p : string) : string :=
  match n, p with
  | S n', String _ p' => str_drop n' p'
  | _, _ => p
  end.

(** The loop of [genericpath._splitext] that skips the leading dots of the
    file name: [n] characters are left to look at before [dotIndex]. *)
Fixpoint skip_leading_dots (p : string) (filenameIndex n dotIndex : nat)
  : string * string :=
  match n with
  | O => (p, EmptyString)
  | S n' =>
      if decide (String.get filenameIndex p = Some extsep)
      then skip_leading_dots p (S filenameIndex) n' dotIndex
      else (str_take dotIndex p, str_drop dotIndex p)
  end.

(** [os.path.splitext(p)] of posixpath. *)
Definition splitext (p : string) : string * string :=
  let sepIndex := rfind sep p in
  let dotIndex := rfind extsep p in
  if decide (sepIndex < dotIndex) then
    let filenameIndex := Z.to_nat (sepIndex + 1) in
    skip_leading_dots p filenameIndex (Z.to_nat dotIndex - filenameIndex)
      (Z.to_nat dotIndex)
  else (p, EmptyString).

(** [str.lower()] on the letters A to Z, which is all that a comparison
    with a lower-case ASCII literal can tell apart. *)
Definition ascii_lower (a : Ascii.ascii) : Ascii.ascii :=
  let n := Ascii.nat_of_ascii a in
  if decide (65 ≤ n ≤ 90)%nat then Ascii.ascii_of_nat (n + 32) else a.

Fixpoint lower (s : string) : string :=
  match s with
  | EmptyString => EmptyString
  | String a s' => String (ascii_lower a) (lower s')
  end.

(** A [str] never equals a [list]. *)
Definition str_eq_list (s : string) (l : list string) : bool := false.

Module data_handler.
Section DataHandler.

(** What callers pass as [input_data]: a path, an uploaded file (an object
    with a [name]), or something that is neither, such as the default
    [None]. *)
Inductive input_arg :=
| Str (path : string)
| UploadedFile (name : string)
| Unsupported.

(** pandas' readers are library code: they return a dataset or raise. *)
Variable DataFrame : Type.
Variable read_csv : input_arg → outcome DataFrame.
Variable read_excel : input_arg → outcome DataFrame.

Inductive level := WARNING | ERROR.

Record DataHandler := mk_DataHandler {
  log : list (level * string);
}.

Definition log_record (l : level) (msg : string) : M DataHandler unit :=
  modify (λ s, mk_DataHandler (log s ++ [(l, msg)])).

Definition load_data_body (input_data : input_arg)
  : M DataHandler (option DataFrame) :=
  (let* filename :=
     match input_data with
     | UploadedFile name => ret name
     | Str path => ret path
     | Unsupported => raise TypeError "Unsupported input type for `input_data`"
     end in
   let extension := lower (splitext filename).2 in
   if decide (extension = ".csv") then
     let* data := lift (read_csv input_data) in
     ret (Some data)
   else if str_eq_list extension [".xlx"; ".xlsx"] then
     let* data := lift (read_excel input_data) in
     ret (Some data)
   else
     log_record WARNING
       "File not found. Please load file with extension: 'csv', 'xls', 'xlsx'." ;;;
     ret None)%py.

Definition load_data (input_data : input_arg)
  : M DataHandler (option DataFrame) :=
  try_except (load_data_body input_data)
    [ mk_handler FileNotFoundError
        (λ e, (log_record ERROR
                 ("Unable to find the document you're trying to load. "
                  +:+ exn_msg e) ;;; ret None)%py) ].

End DataHandler.
End data_handler.

(** ** Preprocessor (preprocessor.py)

    A data frame is an object that several names can refer to: some
    methods change the frame they are given, others build a new one.  Frames
    live in a heap and are passed around by reference.  Column names are
    distinct, as in the dataset, and a series that is assigned to a column
    carries the index of the frame it was taken from. *)

Module preprocessor.

Inductive cell :=
| CStr (s : string)
| CInt (z : Z)
| CNum (q : Qc)         (* the value of a float *)
| CDate (d : date)
| CNull.                (* NaN, None, NaT *)

#[global] Instance cell_eq_dec : EqDecision cell.
Proof. solve_decision. Defined.

Record DataFrame := mk_DataFrame {
  columns : list string;
  rows : list (list cell);
}.

Inductive level := INFO | ERROR.

Record Preprocessor := mk_Preprocessor {
  input_data : option nat;          (* a reference into the heap, or None *)
  log : list (level * string);      (* records written through self.log *)
}.

Record world := mk_world {
  heap : list DataFrame;
  self : Preprocessor;
}.

(** [df[name]]. *)
Definition getitem (df : DataFrame) (name : string) : outcome (list cell) :=
  match list_find (λ c, c = name) (columns df) with
  | Some (i, _) => Normal ((λ r, default CNull (r !! i)) <$> rows df)
  | None => Raised (mk_exn KeyError name)
  end.

(** [df[name] = values]: the column is replaced where it stands, or added
    as the last one. *)
Definition setitem (df : DataFrame) (name : string) (values : list cell)
  : DataFrame :=
  match list_find (λ c, c = name) (columns df) with
  | Some (i, _) =>
      mk_DataFrame (columns df) (zip_with (λ r v, <[i := v]> r) (rows df) values)
  | None =>
      mk_DataFrame (columns df ++ [name])
        (zip_with (λ r v, r ++ [v]) (rows df) values)
  end.

(** [series.replace({original: replace})] with a string for [original]. *)
Definition replace_str (original replace_ : string) (c : cell) : cell :=
  if decide (c = CStr original) then CStr replace_ else c.

(** [df.duplicated()]: a row is marked when an equal row stands before
    it. *)
Fixpoint duplicated_from (seen rest : list (list cell)) : list bool :=
  match rest with
  | [] => []
  | r :: rest' => bool_decide (r ∈ seen) :: duplicated_from (seen ++ [r]) rest'
  end.

Definition duplicated (rs : list (list cell)) : list bool := duplicated_from [] rs.

(** [df.drop_duplicates()]: the rows that are not marked. *)
Definition drop_duplicates (rs : list (list cell)) : list (list cell) :=
  zip rs (duplicated rs) ≫= (λ rd : list cell * bool, if rd.2 then [] else [rd.1]).

(** [df.rename(columns = {original: renamed})]. *)
Definition rename (original renamed : string) (df : DataFrame) : DataFrame :=
  mk_DataFrame ((λ c, if decide (c = original) then renamed else c) <$> columns df)
    (rows df).

(** [df.drop(column, axis = 1)]. *)
Definition drop (column : string) (df : DataFrame) : outcome DataFrame :=
  match list_find (λ c, c = column) (columns df) with
  | Some (i, _) => Normal (mk_DataFrame (delete i (columns df)) (delete i <$> rows df))
  | None => Raised (mk_exn KeyError ("['" +:+ column +:+ "'] not found in axis"))
  end.

Definition month_replace : list (string * Z) :=
  [ ("January", 1); ("February", 2); ("March", 3); ("April", 4); ("May", 5);
    ("June", 6); ("July", 7); ("August", 8); ("September", 9);
    ("October", 10); ("November", 11); ("December", 12) ]%string.

(** [series.replace(month_replace)]. *)
Definition replace_month (c : cell) : cell :=
  match c with
  | CStr s =>
      match list_find (λ kv, kv.1 = s) month_replace with
      | Some (_, kv) => CInt kv.2
      | None => c
      end
  | _ => c
  end.

(** A Year cell and a Month cell whose text, year-month-01, is a date that
    pandas parses as such: an integer year that a timestamp can hold and an
    integer month of the calendar. *)
Definition first_of_month (ym : cell * cell) : option date :=
  match ym with
  | (CInt y, CInt m) =>
      if decide (1678 ≤ y ≤ 2261 ∧ 1 ≤ m ≤ 12) then Some (mk_date y m 1) else None
  | _ => None
  end.

Section Preprocessor.

(** What [pd.to_datetime] makes of a column in which some text is not of
    that form is left to pandas. *)
Variable to_datetime_other : list (cell * cell) → outcome (list cell).

Definition to_datetime (year_month : list (cell * cell)) : outcome (list cell) :=
  match mapM first_of_month year_month with
  | Some dates => Normal (CDate <$> dates)
  | None => to_datetime_other year_month
  end.

Definition log_record (l : level) (msg : string) : M world unit :=
  modify (λ w, mk_world (heap w)
                 (mk_Preprocessor (input_data (self w))
                    (log (self w) ++ [(l, msg)]))).

(** The two [except] clauses that every method ends with. *)
Definition except_clauses {A} : list (handler world (option A)) :=
  [ mk_handler FileNotFoundError
      (λ e, (log_record ERROR ("File not found " +:+ exn_msg e +:+ ".") ;;;
             ret None)%py);
    mk_handler Exception
      (λ e, (log_record ERROR ("File is empty " +:+ exn_msg e +:+ ".") ;;;
             ret None)%py) ].

(** The frame that [self.input_data] refers to, for a method call
    [self.input_data.attr(...)]. *)
Definition frame (attr : string) : M world (nat * DataFrame) :=
  (let* w := get in
   match input_data (self w) with
   | None =>
       raise AttributeError
         ("'NoneType' object has no attribute '" +:+ attr +:+ "'")
   | Some l =>
       match heap w !! l with
       | Some df => ret (l, df)
       | None => raise RuntimeError "no such object"   (* does not arise *)
       end
   end)%py.

(** A new frame object. *)
Definition alloc (df : DataFrame) : M world nat :=
  (let* w := get in
   modify (λ w, mk_world (heap w ++ [df]) (self w)) ;;;
   ret (length (heap w)))%py.

(** A change of the frame object at [l], seen through every reference. *)
Definition store (l : nat) (df : DataFrame) : M world unit :=
  modify (λ w, mk_world (<[l := df]> (heap w)) (self w)).

(** [self.input_data = l]. *)
Definition set_input_data (l : nat) : M world unit :=
  modify (λ w, mk_world (heap w) (mk_Preprocessor (Some l) (log (self w)))).

Definition data_size : M world (option (nat * nat)) :=
  try_except
    (log_record INFO "Size of the dataset..." ;;;
     let* ldf := frame "shape" in
     ret (Some (length (rows ldf.2), length (columns ldf.2))))%py
    except_clauses.

Definition check_duplicates : M world (option nat) :=
  try_except
    (log_record INFO "Checking for duplicate rows..." ;;;
     let* ldf := frame "duplicated" in
     ret (Some (length (filter (λ b, b = true) (duplicated (rows ldf.2))))))%py
    except_clauses.

(** The result is a new frame; [self.input_data] keeps referring to the
    old one. *)
Definition remove_duplicate_rows : M world (option nat) :=
  try_except
    (log_record INFO "Removing duplicate rows..." ;;;
     let* ldf := frame "drop_duplicates" in
     let* l' := alloc (mk_DataFrame (columns ldf.2) (drop_duplicates (rows ldf.2))) in
     ret (Some l'))%py
    except_clauses.

(** The column is assigned to the frame that [self.input_data] refers
    to. *)
Definition correct_spelling (original column replace_ : string)
  : M world (option nat) :=
  try_except
    (let* w := get in
     match input_data (self w) with
     | None => raise TypeError "'NoneType' object is not subscriptable"
     | Some _ =>
         let* ldf := frame "__getitem__" in
         let* values := lift (getitem ldf.2 column) in
         store ldf.1 (setitem ldf.2 column (replace_str original replace_ <$> values)) ;;;
         ret (Some ldf.1)
     end)%py
    except_clauses.

(** [self.input_data] is bound to the new frame that [rename] returns. *)
Definition rename_columns (original renamed : string) : M world (option nat) :=
  try_except
    (let* ldf := frame "rename" in
     let* l' := alloc (rename original renamed ldf.2) in
     set_input_data l' ;;;
     ret (Some l'))%py
    except_clauses.

Definition drop_columns (column : string) : M world (option nat) :=
  try_except
    (let* ldf := frame "drop" in
     let* data := lift (drop column ldf.2) in
     let* l' := alloc data in
     set_input_data l' ;;;
     ret (Some l'))%py
    except_clauses.

(** The months are replaced in a copy; only the Date column is assigned to
    the frame that [self.input_data] refers to. *)
Definition add_date : M world (option nat) :=
  try_except
    (let* ldf := frame "copy" in
     let data := ldf.2 in
     let* month := lift (getitem data "Month") in
     let data := setitem data "Month" (replace_month <$> month) in
     let* year := lift (getitem data "Year") in
     let* month := lift (getitem data "Month") in
     let* dates := lift (to_datetime (zip year month)) in
     store ldf.1 (setitem ldf.2 "Date" dates) ;;;
     ret (Some ldf.1))%py
    except_clauses.

(** [Preprocessor(input_data = data)]. *)
Definition __init__ (data : option nat) : M world unit :=
  modify (λ w, mk_world (heap w) (mk_Preprocessor data [])).

End Preprocessor.
End preprocessor.

(** ** The preparation of the uploaded data (app.py) *)

Module app_main_contents.
Import preprocessor.
Section main_contents.
Variable to_datetime_other : list (cell * cell) → outcome (list cell).

(** From [self.original = Preprocessor(input_data = data)] to
    [processed_data = self.original.add_date()]. *)
Definition processed_data (data : option nat) : M world (option nat) :=
  (__init__ data ;;;
   let* processed_data := remove_duplicate_rows in
   let* processed_data := correct_spelling "Alfa" "Sales Team" "Alpha" in
   let* processed_data :=
     correct_spelling "Antipiretics" "Product Class" "Antipyretics" in
   let* processed_data := rename_columns "Name of Sales Rep" "Sales Representative" in
   let* processed_data := rename_columns "Manager" "Sales Manager" in
   let* processed_data := add_date to_datetime_other in
   ret processed_data)%py.

End main_contents.
End app_main_contents.

(** An uploaded frame of three rows, the first two equal. *)
Definition uploaded_example : preprocessor.world :=
  preprocessor.mk_world
    [ preprocessor.mk_DataFrame
        [ "Sales Team"; "Product Class"; "Name of Sales Rep"; "Manager";
          "Month"; "Year" ]%string
        [ [ preprocessor.CStr "Alfa"; preprocessor.CStr "Antibiotics";
            preprocessor.CStr "Anne Wu"; preprocessor.CStr "Tracy Banks";
            preprocessor.CStr "January"; preprocessor.CInt 2018 ];
          [ preprocessor.CStr "Alfa"; preprocessor.CStr "Antibiotics";
            preprocessor.CStr "Anne Wu"; preprocessor.CStr "Tracy Banks";
            preprocessor.CStr "January"; preprocessor.CInt 2018 ];
          [ preprocessor.CStr "Delta"; preprocessor.CStr "Antipiretics";
            preprocessor.CStr "Mary Gerrard"; preprocessor.CStr "Britanny Bold";
            preprocessor.CStr "October"; preprocessor.CInt 2019 ] ] ]
    (preprocessor.mk_Preprocessor (Some 0%nat) []).

(** * Properties *)

(** ** Grouping *)

Section groupby_facts.
Context {K R : Type} `{EqDecision K} (key : R → K).
Implicit Types (r : R) (k : K) (gs : list (K * list R)).

Lemma members_add_to_group r k gs :
  members k (add_to_group key r gs) =
  members k gs ++ (if decide (key r = k) then [r] else []).
Proof.
  induction gs as [|[k' ms] gs IH]; simpl.
  - destruct (decide (k = key r)) as [->|Hne].
    + by rewrite decide_True.
    + by rewrite decide_False.
  - destruct (decide (key r = k')) as [<-|Hne]; simpl.
    + destruct (decide (k = key r)) as [->|Hne].
      * by rewrite decide_True.
      * rewrite decide_False by done. by rewrite app_nil_r.
    + destruct (decide (k = k')) as [->|Hne'].
      * rewrite decide_False by done. by rewrite app_nil_r.
      * apply IH.
Qed.

Lemma keys_add_to_group r k gs :
  k ∈ (add_to_group key r gs).*1 ↔ k = key r ∨ k ∈ gs.*1.
Proof.
  induction gs as [|[k' ms] gs IH]; simpl.
  - rewrite list_elem_of_singleton. split; [auto|].
    by intros [?|?%elem_of_nil].
  - destruct (decide (key r = k')) as [<-|Hne]; simpl;
      rewrite !elem_of_cons, ?IH; naive_solver.
Qed.

Lemma NoDup_add_to_group r gs :
  NoDup gs.*1 → NoDup (add_to_group key r gs).*1.
Proof.
  induction gs as [|[k' ms] gs IH]; simpl; intros Hnd.
  - apply NoDup_singleton.
  - apply NoDup_cons in Hnd as [Hk' Hnd].
    destruct (decide (key r = k')) as [<-|Hne]; simpl.
    + by apply NoDup_cons.
    + apply NoDup_cons. split; [|by apply IH].
      rewrite keys_add_to_group. intros [?|?]; [congruence|done].
Qed.

Lemma nonempty_add_to_group r gs :
  Forall (λ g, g.2 ≠ []) gs → Forall (λ g, g.2 ≠ []) (add_to_group key r gs).
Proof.
  induction gs as [|[k' ms] gs IH]; simpl; intros Hne.
  - by repeat constructor.
  - apply Forall_cons in Hne as [Hms Hne].
    destruct (decide (key r = k')); constructor; simpl; auto.
    by destruct ms.
Qed.

(** The state of the grouping after any prefix of the rows. *)
Lemma factorize_invariant (rows : list R) :
  let gs := factorize key rows in
  NoDup gs.*1 ∧ Forall (λ g, g.2 ≠ []) gs ∧
  ∀ k, members k gs = filter (λ r, key r = k) rows.
Proof.
  unfold factorize.
  induction rows as [|r rows IH] using rev_ind; simpl.
  - split_and!; [constructor|constructor|done].
  - rewrite foldl_app. simpl. destruct IH as (Hnd & Hne & Hm).
    split_and!.
    + by apply NoDup_add_to_group.
    + by apply nonempty_add_to_group.
    + intros k. by rewrite members_add_to_group, Hm, filter_app.
Qed.

Lemma elem_of_groups k (ms : list R) gs :
  NoDup gs.*1 → Forall (λ g, g.2 ≠ []) gs →
  (k, ms) ∈ gs ↔ members k gs = ms ∧ ms ≠ [].
Proof.
  induction gs as [|[k' ms'] gs IH]; simpl; intros Hnd Hne.
  - split; [by intros ?%elem_of_nil | by intros [<- ?]].
  - apply NoDup_cons in Hnd as [Hk' Hnd].
    apply Forall_cons in Hne as [Hms Hne]. simpl in Hms.
    rewrite elem_of_cons, (IH Hnd Hne).
    destruct (decide (k = k')) as [->|Hkk].
    + split.
      * intros [[= <-]|[Hm Hn]]; [done|].
        exfalso. apply Hk'.
        assert ((k', ms) ∈ gs) as Hin by (by apply IH).
        apply (list_elem_of_fmap_2 fst) in Hin. done.
      * intros [<- ?]. by left.
    + split.
      * intros [[= ? ?]|?]; [done|done].
      * intros ?. by right.
Qed.

(** A group of the factorisation is a date that occurs, with exactly the
    rows that carry it, in row order. *)
Lemma elem_of_factorize k (ms : list R) (rows : list R) :
  (k, ms) ∈ factorize key rows ↔
  ms = filter (λ r, key r = k) rows ∧ ms ≠ [].
Proof.
  destruct (factorize_invariant rows) as (Hnd & Hne & Hm).
  rewrite elem_of_groups by done. rewrite Hm. naive_solver.
Qed.

End groupby_facts.

Section groupby_date_facts.
Context {R : Type} (Date : R → date).

Lemma elem_of_groupby_date d (ms : list R) rows :
  (d, ms) ∈ groupby_date Date rows ↔
  ms = filter (λ r, Date r = d) rows ∧ ms ≠ [].
Proof.
  unfold groupby_date. rewrite merge_sort_Permutation.
  apply elem_of_factorize.
Qed.

Lemma NoDup_groupby_date rows : NoDup (groupby_date Date rows).*1.
Proof.
  unfold groupby_date. rewrite merge_sort_Permutation.
  apply factorize_invariant.
Qed.
End groupby_date_facts.

(** Aggregating the groups: every date that occurs gets one output row, whose
    value aggregates exactly the rows of that date. *)
Lemma elem_of_groupby_agg {V} (agg : list V → V) (rows : list (date * V)) d v :
  (d, v) ∈ ((λ g, (g.1, agg (g.2.*2))) <$> groupby_date fst rows) ↔
  filter (λ r, r.1 = d) rows ≠ [] ∧ v = agg (filter (λ r, r.1 = d) rows).*2.
Proof.
  rewrite list_elem_of_fmap. split.
  - intros ([d' ms] & [= -> ->] & Hin).
    apply elem_of_groupby_date in Hin as [-> ?]. done.
  - intros [Hne ->]. eexists (d, _). split; [done|].
    by apply elem_of_groupby_date.
Qed.

Lemma NoDup_groupby_agg {V} (agg : list V → V) (rows : list (date * V)) :
  NoDup ((λ g, (g.1, agg (g.2.*2))) <$> groupby_date fst rows).*1.
Proof.
  rewrite <-list_fmap_compose. apply NoDup_groupby_date.
Qed.

(** ** Sums and means of exact rationals *)

Ltac qc := cbn [vadd vsub vmul vdiv vzero vofZ vltb Arith_Qc] in *.

Lemma foldl_Qcplus (a : Qc) (l : list Qc) :
  foldl Qcplus a l = (a + foldl Qcplus 0 l)%Qc.
Proof.
  revert a. induction l as [|x l IH]; intros a; simpl.
  - ring.
  - rewrite (IH (a + x)%Qc), (IH (0 + x)%Qc). ring.
Qed.

Lemma vsum_cons (x : Qc) (l : list Qc) : vsum (x :: l) = (x + vsum l)%Qc.
Proof.
  unfold vsum. qc. simpl. rewrite foldl_Qcplus. ring.
Qed.

Lemma vsum_snoc {V} `{Arith V} (l : list V) (x : V) :
  vsum (l ++ [x]) = vadd (vsum l) x.
Proof. unfold vsum. by rewrite foldl_app. Qed.

Lemma vsum_Permutation (l l' : list Qc) : l ≡ₚ l' → vsum l = vsum l'.
Proof.
  induction 1 as [|x l l' _ IH|x y l|l l' l'' _ IH1 _ IH2].
  - done.
  - by rewrite !vsum_cons, IH.
  - rewrite !vsum_cons. ring.
  - congruence.
Qed.

Lemma vavg_Permutation (l l' : list Qc) : l ≡ₚ l' → vavg l = vavg l'.
Proof.
  intros Hp. unfold vavg. by rewrite (vsum_Permutation _ _ Hp), Hp.
Qed.

Lemma vavg_singleton (x : Qc) : vavg [x] = x.
Proof.
  unfold vavg, vsum. qc. simpl.
  rewrite Qcplus_0_l. apply Qcdiv_right_id.
Qed.

(** ** Rolling windows *)

Lemma drop_cons_inv {A} (l : list A) i x rest :
  drop i l = x :: rest → l !! i = Some x ∧ drop (S i) l = rest.
Proof.
  intros Hd. assert (l !! i = Some x) as Hl.
  { rewrite <-(Nat.add_0_r i), <-lookup_drop, Hd. done. }
  split; [done|]. rewrite (drop_S _ _ _ Hl) in Hd. by simplify_eq.
Qed.

Lemma vsum_take_S (values : list Qc) a n x :
  values !! (a + n)%nat = Some x →
  vsum (take (S n) (drop a values)) = (vsum (take n (drop a values)) + x)%Qc.
Proof.
  intros Hl. rewrite (take_S_r _ _ x) by (by rewrite lookup_drop).
  by rewrite vsum_snoc.
Qed.

Lemma vsum_drop_S (values : list Qc) a n old :
  values !! a = Some old →
  vsum (take (S n) (drop a values)) = (old + vsum (take n (drop (S a) values)))%Qc.
Proof.
  intros Hl. rewrite (drop_S _ _ _ Hl). simpl. by rewrite vsum_cons.
Qed.

Lemma roll_mean_lookup (W : nat) (values : list Qc) :
  (0 < W)%nat →
  ∀ rest i nobs sum_x,
    drop i values = rest →
    nobs = (i `min` W)%nat →
    sum_x = vsum (take nobs (drop (i - nobs) values)) →
    ∀ j, (j < length rest)%nat →
      roll_mean W values i nobs sum_x rest !! j =
      Some (if decide (W ≤ i + j + 1)%nat
            then Some (vavg (trailing_window W (i + j) values)) else None).
Proof.
  intros HW rest. induction rest as [|x rest IH]; intros i nobs sum_x Hd -> -> j Hj.
  { simpl in Hj. lia. }
  apply drop_cons_inv in Hd as [Hx Hd].
  assert (i < length values)%nat as Hi by (by eapply lookup_lt_Some).
  cbn [roll_mean].
  destruct (decide (W ≤ i)%nat) as [HWi|HWi].
  - destruct (lookup_lt_is_Some_2 values (i - W)) as [old Hold]; [lia|].
    rewrite Hold. replace (i `min` W)%nat with W by lia.
    set (sum2 := vadd (vsub _ old) x).
    assert (sum2 = vsum (take W (drop (S i - W) values))) as Hsum2.
    { unfold sum2. destruct W as [|W']; [lia|].
      rewrite (vsum_drop_S _ _ _ old) by done.
      replace (S i - S W')%nat with (S (i - S W')) by lia.
      rewrite (vsum_take_S _ _ W' x); [qc; ring|].
      rewrite <-Hx. f_equal. lia. }
    clearbody sum2. subst sum2.
    replace (S (pred W)) with W by lia.
    destruct j as [|j]; simpl.
    + unfold calc_mean. rewrite decide_True by lia. rewrite decide_True by lia.
      do 2 f_equal. unfold vavg, trailing_window.
      replace (i + 0 + 1 - W)%nat with (S i - W)%nat by lia.
      rewrite length_take_le; [done|]. rewrite length_drop. lia.
    + rewrite (IH (S i) W (vsum (take W (drop (S i - W) values)))).
      * replace (S i + j + 1)%nat with (i + S j + 1)%nat by lia.
        replace (S i + j)%nat with (i + S j)%nat by lia. done.
      * done.
      * lia.
      * replace (S i - W)%nat with (S i - W)%nat by lia. done.
      * simpl in Hj. lia.
  - replace (i `min` W)%nat with i by lia. rewrite Nat.sub_diag. simpl drop.
    assert (vadd (vsum (take i values)) x = vsum (take (S i) values)) as Hsum2.
    { rewrite (take_S_r _ _ x) by done. by rewrite vsum_snoc. }
    change (drop 0 values) with values. rewrite Hsum2.
    destruct j as [|j]; simpl.
    + unfold calc_mean. destruct (decide (W ≤ i + 0 + 1)%nat).
      * rewrite decide_True by lia. do 2 f_equal.
        unfold vavg, trailing_window.
        replace (i + 0 + 1 - W)%nat with 0%nat by lia.
        change (drop 0 values) with values.
        assert (W = S i) as -> by lia.
        rewrite length_take_le by lia. done.
      * rewrite decide_False by lia. done.
    + rewrite (IH (S i) (S i) (vsum (take (S i) values))).
      * replace (S i + j + 1)%nat with (i + S j + 1)%nat by lia.
        replace (S i + j)%nat with (i + S j)%nat by lia. done.
      * done.
      * lia.
      * rewrite Nat.sub_diag. done.
      * simpl in Hj. lia.
Qed.

Lemma length_roll_mean {V} `{Arith V} W (values : list V) rest i nobs sum_x :
  length (roll_mean W values i nobs sum_x rest) = length rest.
Proof.
  revert i nobs sum_x. induction rest as [|x rest IH]; intros i nobs sum_x.
  - done.
  - cbn [roll_mean].
    destruct (if decide (W ≤ i)%nat then values !! (i - W)%nat else None);
      simpl; by rewrite IH.
Qed.

(** What [rolling(window = W).mean()] computes, for a window of at least one
    row: nothing before a full window is available, and then the mean of
    the trailing [W] values. *)
Lemma rolling_mean_lookup (W : Z) (values : list Qc) :
  1 ≤ W →
  ∃ ma, rolling_mean W values = Normal ma ∧ length ma = length values ∧
    ∀ i : nat, (i < length values)%nat →
      ma !! i =
      Some (if decide (W ≤ Z.of_nat i + 1)
            then Some (vavg (trailing_window (Z.to_nat W) i values))
            else None).
Proof.
  intros HW. eexists. unfold rolling_mean.
  rewrite (proj2 (Z.ltb_ge _ _)) by lia.
  rewrite (proj2 (Z.eqb_neq _ _)) by lia.
  split_and!; [done|apply length_roll_mean|].
  intros i Hi.
  rewrite (roll_mean_lookup (Z.to_nat W) values) by (done || lia).
  simpl. f_equal. repeat case_decide; (done || lia).
Qed.

(** ** moving_average_analysis *)

Section moving_average_facts.
Import time_series_analysis.

(** The frame that the loop body builds for one country. *)
Lemma country_moving_average_Normal (W : Z) (rows : list (sale Qc)) c :
  0 ≤ W →
  ∃ f, country_moving_average W rows c = Normal f ∧
    let agg := groupby_mean
                 (sort_values_date fst
                    ((λ r, (Date r, Sales r)) <$>
                       filter (λ r, Country r = c) rows)) in
    (λ r, (ma_date r, ma_sales r)) <$> f = agg ∧
    rolling_mean W (agg.*2) = Normal (ma_moving_average <$> f).
Proof.
  intros HW. unfold country_moving_average. cbv zeta.
  generalize (groupby_mean
                (sort_values_date fst
                   ((λ r : sale Qc, (Date r, Sales r)) <$>
                      filter (λ r, Country r = c) rows))).
  intros agg.
  assert (∃ ma, rolling_mean W (agg.*2) = Normal ma ∧
                length ma = length agg) as (ma & Hma & Hlen).
  { unfold rolling_mean. rewrite (proj2 (Z.ltb_ge _ _)) by lia.
    destruct (W =? 0); eexists; (split; [done|]).
    - by rewrite !length_fmap.
    - by rewrite length_roll_mean, length_fmap. }
  rewrite Hma. eexists. split; [done|].
  enough ((λ r, (ma_date r, ma_sales r)) <$>
            zip_with (λ r m, mk_ma_row r.1 r.2 m) agg ma = agg ∧
          ma_moving_average <$>
            zip_with (λ r m, mk_ma_row r.1 r.2 m) agg ma = ma)
    as [-> ->] by done.
  clear Hma. revert ma Hlen.
  induction agg as [|[d v] agg IH]; intros [|m ma] Hlen;
    simplify_eq/=; [done|].
  destruct (IH ma) as [-> ->]; done.
Qed.

Lemma moving_average_loop_lookup (W : Z) (rows : list (sale Qc)) cs acc :
  0 ≤ W →
  ∃ res, moving_average_loop W rows cs acc = Normal res ∧
    ∀ c f, res !! c = Some f →
      (c ∈ cs ∧ country_moving_average W rows c = Normal f) ∨
      acc !! c = Some f.
Proof.
  intros HW. revert acc. induction cs as [|c0 cs IH]; intros acc; simpl.
  - eexists. split; [done|]. auto.
  - destruct (country_moving_average_Normal W rows c0 HW) as (f0 & Hf0 & _).
    rewrite Hf0. destruct (IH (<[c0:=f0]> acc)) as (res & -> & Hres).
    eexists. split; [done|]. intros c f Hc.
    destruct (Hres c f Hc) as [[? ?]|Hins].
    + left. split; [by apply elem_of_cons; right|done].
    + destruct (decide (c = c0)) as [->|Hne].
      * rewrite lookup_insert_eq in Hins. simplify_eq.
        left. split; [by apply elem_of_cons; left|done].
      * rewrite lookup_insert_ne in Hins by done. by right.
Qed.

(** With a non-negative window the method returns a dict, logs nothing,
    and every frame in the dict was built by the loop body for a country
    of the dataset. *)
Lemma moving_average_analysis_frames (self : TimeSeriesAnalysis Qc) (W : Z) :
  0 ≤ W →
  ∃ res, moving_average_analysis W self = (Normal (Some res), self) ∧
    ∀ c f, res !! c = Some f →
      c ∈ Country <$> input_data self ∧
      country_moving_average W (input_data self) c = Normal f.
Proof.
  intros HW.
  unfold moving_average_analysis, try_except, moving_average_body,
    bind, get, lift, ret.
  destruct (moving_average_loop_lookup W (input_data self)
              (elements (list_to_set (Country <$> input_data self)
                           : gset string)) ∅ HW)
    as (res & -> & Hres).
  exists res. split; [done|]. intros c f Hc.
  destruct (Hres c f Hc) as [[Hin ?]|Habs].
  - split; [|done]. by apply elem_of_elements, elem_of_list_to_set in Hin.
  - by rewrite lookup_empty in Habs.
Qed.

Lemma ma_sales_column (f : list (ma_row Qc)) agg :
  (λ r, (ma_date r, ma_sales r)) <$> f = agg → ma_sales <$> f = agg.*2.
Proof. intros <-. by rewrite <-list_fmap_compose. Qed.

(** The [Moving_Average] column of every frame the method returns, in
    terms of the frame's own [Sales] column. *)
Lemma moving_average_column (self : TimeSeriesAnalysis Qc) (W : Z) :
  1 ≤ W →
  ∃ res, moving_average_analysis W self = (Normal (Some res), self) ∧
    ∀ c f, res !! c = Some f →
      ∀ i : nat, (i < length f)%nat →
        (ma_moving_average <$> f) !! i =
        Some (if decide (W ≤ Z.of_nat i + 1)
              then Some (vavg (trailing_window (Z.to_nat W) i
                                 (ma_sales <$> f)))
              else None).
Proof.
  intros HW.
  destruct (moving_average_analysis_frames self W) as (res & Hres & Hfr);
    [lia|].
  exists res. split; [done|]. intros c f Hc i Hi.
  destruct (Hfr c f Hc) as [_ Hcma].
  destruct (country_moving_average_Normal W (input_data self) c)
    as (f' & Hf' & Hcols & Hroll); [lia|].
  rewrite Hcma in Hf'. simplify_eq.
  apply ma_sales_column in Hcols. rewrite <-Hcols in Hroll.
  destruct (rolling_mean_lookup W (ma_sales <$> f') HW)
    as (ma & Hma & _ & Hlook).
  rewrite Hroll in Hma. simplify_eq.
  apply Hlook. by rewrite length_fmap.
Qed.

End moving_average_facts.


Section moving_average_claims.
Import time_series_analysis.

(** C4.  For every dataset and every window [W ≥ 1],
    [moving_average_analysis] returns, per country, a frame whose
    [Moving_Average] column is undefined at the first [W - 1] positions
    and, from position [W - 1] on, is the arithmetic mean of the trailing
    [W] values of the frame's [Sales] column, the current position
    included.  For monthly values 10, 20, 30, 40, 50 and window 2 the
    column is: undefined, 15, 25, 35, 45. *)
Theorem moving_average_boundary :
  (∀ (self : TimeSeriesAnalysis Qc) (W : Z),
     1 ≤ W →
     ∃ res, moving_average_analysis W self = (Normal (Some res), self) ∧
       ∀ c f, res !! c = Some f →
         ∀ i : nat, (i < length f)%nat →
           (Z.of_nat i < W - 1 → (ma_moving_average <$> f) !! i = Some None) ∧
           (W - 1 ≤ Z.of_nat i →
            (ma_moving_average <$> f) !! i =
            Some (Some (vavg (trailing_window (Z.to_nat W) i
                                (ma_sales <$> f)))))) ∧
  (∃ res f,
     moving_average_analysis 2 example_series =
       (Normal (Some res), example_series) ∧
     res !! "Germany" = Some f ∧
     ma_sales <$> f = Qc_of_Z <$> [10; 20; 30; 40; 50] ∧
     ma_moving_average <$> f =
       [None; Some (Qc_of_Z 15); Some (Qc_of_Z 25); Some (Qc_of_Z 35);
        Some (Qc_of_Z 45)]).
Proof.
  split.
  - intros self W HW.
    destruct (moving_average_column self W HW) as (res & Hres & Hcol).
    exists res. split; [done|]. intros c f Hc i Hi.
    rewrite (Hcol c f Hc i Hi).
    split; intros Hlt; [rewrite decide_False by lia|rewrite decide_True by lia];
      done.
  - destruct (moving_average_column example_series 2) as (res & Hres & _);
      [lia|].
    vm_compute in Hres. injection Hres as <-.
    do 2 eexists. split; [vm_compute; reflexivity|].
    split; [vm_compute; reflexivity|].
    split; apply (bool_decide_unpack _); vm_compute; exact I.
Qed.

Lemma moving_average_boundary_witness :
  ∃ res, moving_average_analysis 2 example_series =
           (Normal (Some res), example_series) ∧
    ∀ c f, res !! c = Some f →
      ∀ i : nat, (i < length f)%nat →
        (Z.of_nat i < 2 - 1 → (ma_moving_average <$> f) !! i = Some None) ∧
        (2 - 1 ≤ Z.of_nat i →
         (ma_moving_average <$> f) !! i =
         Some (Some (vavg (trailing_window (Z.to_nat 2) i (ma_sales <$> f))))).
Proof. apply (proj1 moving_average_boundary example_series 2). lia. Defined.

End moving_average_claims.

(** ** Aggregation per country and date *)

Lemma country_rows_matching {V} (rows : list (sale V)) (c : string) (d : date) :
  filter (λ r : date * V, r.1 = d)
    ((λ r, (Date r, Sales r)) <$> filter (λ r, Country r = c) rows) =
  (λ r, (Date r, Sales r)) <$> matching c d rows.
Proof.
  unfold matching. induction rows as [|r rows IH]; [done|].
  rewrite !filter_cons.
  destruct (decide (Country r = c)) as [Hc|Hc].
  - rewrite fmap_cons, filter_cons. simpl.
    destruct (decide (Date r = d)) as [Hd|Hd].
    + rewrite decide_True by done. by rewrite fmap_cons, IH.
    + rewrite decide_False by (by intros [_ ?]). done.
  - rewrite decide_False by (by intros [? _]). done.
Qed.

Lemma aggregates_groupby {V} (agg : list V → V) (c : string)
    (rows : list (sale V)) :
  aggregates agg c rows
    ((λ g, (g.1, agg (g.2.*2))) <$>
       groupby_date fst
         ((λ r, (Date r, Sales r)) <$> filter (λ r, Country r = c) rows)).
Proof.
  split; [apply NoDup_groupby_agg|].
  intros d v. rewrite elem_of_groupby_agg, country_rows_matching.
  rewrite <-list_fmap_compose.
  split; intros [Hne ->]; (split; [|done]).
  - intros Hnil. by rewrite Hnil in Hne.
  - intros Hnil. by apply fmap_nil_inv in Hnil.
Qed.

Lemma aggregates_groupby_sorted (c : string) (rows : list (sale Qc)) :
  aggregates vavg c rows
    (groupby_mean
       (sort_values_date fst
          ((λ r, (Date r, Sales r)) <$> filter (λ r, Country r = c) rows))).
Proof.
  split; [apply NoDup_groupby_agg|].
  intros d v. unfold groupby_mean. rewrite elem_of_groupby_agg.
  assert (filter (λ r : date * Qc, r.1 = d)
            (sort_values_date fst
               ((λ r, (Date r, Sales r)) <$> filter (λ r, Country r = c) rows))
          ≡ₚ (λ r, (Date r, Sales r)) <$> matching c d rows) as Hp.
  { unfold sort_values_date. rewrite merge_sort_Permutation.
    by rewrite country_rows_matching. }
  assert ((filter (λ r : date * Qc, r.1 = d)
            (sort_values_date fst
               ((λ r, (Date r, Sales r)) <$> filter (λ r, Country r = c) rows))).*2
          ≡ₚ Sales <$> matching c d rows) as Hp2.
  { rewrite Hp. by rewrite <-list_fmap_compose. }
  rewrite (vavg_Permutation _ _ Hp2).
  split; intros [Hne ->]; (split; [|done]).
  - intros Hnil. rewrite Hnil in Hp. by apply Permutation_nil_r in Hp.
  - intros Hnil. rewrite Hnil in Hp. apply Permutation_nil_l in Hp.
    symmetry in Hp. by apply fmap_nil_inv in Hp.
Qed.

Section aggregation_claims.
Import time_series_analysis.

(** The forecasting input: per-date sums for Poland and for Germany. *)
Lemma data_organization_sums {V} `{Arith V} {theta}
    (self : tsa_forecasting.TSAForecasting V theta) rows :
  tsa_forecasting.data self = Some rows →
  ∃ poland germany,
    tsa_forecasting.data_organization self =
      (Normal (Some (poland, germany)), self) ∧
    aggregates vsum "Poland" rows (tsa_forecasting.frows poland) ∧
    aggregates vsum "Germany" rows (tsa_forecasting.frows germany).
Proof.
  intros Hdata.
  unfold tsa_forecasting.data_organization, try_except,
    tsa_forecasting.data_organization_body, bind, get, ret.
  rewrite Hdata. do 2 eexists. split; [done|].
  split; apply aggregates_groupby.
Qed.

(** The per-country frames of the moving-average analysis: per-date means. *)
Lemma moving_average_means (self : TimeSeriesAnalysis Qc) (W : Z) :
  0 ≤ W →
  ∃ res, moving_average_analysis W self = (Normal (Some res), self) ∧
    ∀ c f, res !! c = Some f →
      aggregates vavg c (input_data self)
        ((λ r, (ma_date r, ma_sales r)) <$> f).
Proof.
  intros HW.
  destruct (moving_average_analysis_frames self W HW) as (res & Hres & Hfr).
  exists res. split; [done|]. intros c f Hc.
  destruct (Hfr c f Hc) as [_ Hcma].
  destruct (country_moving_average_Normal W (input_data self) c HW)
    as (f' & Hf' & Hcols & _).
  rewrite Hcma in Hf'. simplify_eq. rewrite Hcols.
  apply aggregates_groupby_sorted.
Qed.

(** C3, as the code has it.  The series that [data_organization] builds
    for Poland and for Germany hold, for every date on which the country
    has rows, the sum of [Sales] over exactly the rows of that country and
    date, and one row per such date.  The per-country series that
    [moving_average_analysis] builds hold the arithmetic mean of [Sales]
    over exactly those rows instead. *)
Theorem aggregation_sum_and_mean :
  (∀ V (A : Arith V) theta (self : tsa_forecasting.TSAForecasting V theta) rows,
     tsa_forecasting.data self = Some rows →
     ∃ poland germany,
       tsa_forecasting.data_organization self =
         (Normal (Some (poland, germany)), self) ∧
       aggregates vsum "Poland" rows (tsa_forecasting.frows poland) ∧
       aggregates vsum "Germany" rows (tsa_forecasting.frows germany)) ∧
  (∀ (self : TimeSeriesAnalysis Qc) (W : Z),
     0 ≤ W →
     ∃ res, moving_average_analysis W self = (Normal (Some res), self) ∧
       ∀ c f, res !! c = Some f →
         aggregates vavg c (input_data self)
           ((λ r, (ma_date r, ma_sales r)) <$> f)).
Proof.
  split.
  - intros V A theta self rows. apply data_organization_sums.
  - apply moving_average_means.
Qed.

Lemma aggregation_sum_and_mean_witness :
  (∃ poland germany,
     tsa_forecasting.data_organization
       (tsa_forecasting.__init__ (theta := unit)
          (Some (input_data two_sales_one_month))) =
       (Normal (Some (poland, germany)),
        tsa_forecasting.__init__ (Some (input_data two_sales_one_month))) ∧
     aggregates vsum "Poland" (input_data two_sales_one_month)
       (tsa_forecasting.frows poland) ∧
     aggregates vsum "Germany" (input_data two_sales_one_month)
       (tsa_forecasting.frows germany)) ∧
  (∃ res, moving_average_analysis 1 two_sales_one_month =
            (Normal (Some res), two_sales_one_month) ∧
     ∀ c f, res !! c = Some f →
       aggregates vavg c (input_data two_sales_one_month)
         ((λ r, (ma_date r, ma_sales r)) <$> f)).
Proof.
  split.
  - apply (proj1 aggregation_sum_and_mean Qc _ unit). reflexivity.
  - apply (proj2 aggregation_sum_and_mean two_sales_one_month 1). lia.
Defined.

(** C3 as stated fails on the moving-average path: two sales of 10 and 30
    in the same month give that month the value 20, not the sum 40. *)
Lemma aggregation_sum_counterexample :
  ∃ res f,
    moving_average_analysis 1 two_sales_one_month =
      (Normal (Some res), two_sales_one_month) ∧
    res !! "Poland" = Some f ∧
    (λ r, (ma_date r, ma_sales r)) <$> f = [(mk_date 2018 1 1, Qc_of_Z 20)] ∧
    ¬ aggregates vsum "Poland" (input_data two_sales_one_month)
        ((λ r, (ma_date r, ma_sales r)) <$> f).
Proof.
  destruct (moving_average_means two_sales_one_month 1) as (res & Hres & _);
    [lia|].
  vm_compute in Hres. injection Hres as <-.
  do 2 eexists. split; [vm_compute; reflexivity|].
  split; [vm_compute; reflexivity|].
  assert ((λ r : ma_row Qc, (ma_date r, ma_sales r)) <$>
            [mk_ma_row (mk_date 2018 1 1) (vavg [Qc_of_Z 10; Qc_of_Z 30])
               (Some (vavg [vavg [Qc_of_Z 10; Qc_of_Z 30]]))] =
          [(mk_date 2018 1 1, Qc_of_Z 20)]) as Heq.
  { apply (bool_decide_unpack _). vm_compute. exact I. }
  split; [exact Heq|].
  intros [_ Hagg].
  destruct (Hagg (mk_date 2018 1 1) (Qc_of_Z 20)) as [Hsum _].
  destruct Hsum as [_ Hsum].
  { refine (eq_ind_r (λ l, (mk_date 2018 1 1, Qc_of_Z 20) ∈ l) _ Heq).
    by apply list_elem_of_singleton. }
  vm_compute in Hsum. discriminate Hsum.
Qed.

End aggregation_claims.

(** ** decompose_revenue on short series *)

Lemma length_groupby_date {R} (Date : R → date) (rows : list R) ks :
  (∀ d, d ∈ Date <$> rows ↔ d ∈ ks) →
  length (groupby_date Date rows) = length (remove_dups ks).
Proof.
  intros Hks. rewrite <-(length_fmap fst).
  apply Permutation_length, NoDup_Permutation.
  - apply NoDup_groupby_date.
  - apply NoDup_remove_dups.
  - intros d. rewrite elem_of_remove_dups, <-Hks, !list_elem_of_fmap. split.
    + intros ([d' ms] & -> & Hin). simpl.
      apply elem_of_groupby_date in Hin as [-> Hne].
      destruct (filter (λ r, Date r = d') rows) as [|r ms] eqn:Hf; [done|].
      assert (r ∈ filter (λ r, Date r = d') rows) as Hr
        by (rewrite Hf; apply elem_of_cons; by left).
      apply list_elem_of_filter in Hr as [<- Hr]. eauto.
    + intros (r & -> & Hr).
      exists (Date r, filter (λ r', Date r' = Date r) rows). split; [done|].
      apply elem_of_groupby_date. split; [done|].
      intros Hnil. eapply (filter_nil_not_elem_of _ _ r) in Hnil; done.
Qed.

Section decompose_short.
Import time_series_analysis.
Context {V : Type} `{Arith V}.

(** The series handed to [seasonal_decompose] has one value per distinct
    date of the dataset. *)
Lemma length_decompose_input (rows : list (sale V)) :
  length
    ((groupby_sum ((λ r, (Date r, Sales r)) <$> sort_values_date Date rows)).*2)
  = n_dates rows.
Proof.
  unfold groupby_sum, n_dates. rewrite !length_fmap.
  apply length_groupby_date. intros d.
  rewrite <-list_fmap_compose. unfold sort_values_date.
  by rewrite merge_sort_Permutation.
Qed.

Lemma seasonal_decompose_short (x : list V) :
  (length x < 24)%nat →
  ∃ e, seasonal_decompose x "multiplication" 12 = Raised e ∧
       exn_cls e = ValueError.
Proof.
  intros Hlen. unfold seasonal_decompose, check_decompose_input.
  change (String.prefix "m" "multiplication") with true. cbv zeta.
  destruct (true && existsb _ x); [by eexists|].
  rewrite (proj2 (Nat.ltb_lt _ _)) by (simpl; lia). by eexists.
Qed.

Lemma decompose_revenue_short (self : TimeSeriesAnalysis V) :
  (n_dates (input_data self) < 24)%nat →
  ∃ e, decompose_revenue self = (Raised e, self) ∧ exn_cls e = ValueError.
Proof.
  intros Hn.
  unfold decompose_revenue, try_except, decompose_revenue_body,
    bind, get, lift.
  destruct (seasonal_decompose_short
              ((groupby_sum ((λ r, (Date r, Sales r)) <$>
                   sort_values_date Date (input_data self))).*2))
    as (e & -> & He).
  { by rewrite length_decompose_input. }
  exists e. split; [|done].
  unfold isinstance. simpl. rewrite He. done.
Qed.
End decompose_short.

Section decompose_short_claim.
Import time_series_analysis.

(** C2, as the code has it.  For every dataset whose per-date aggregated
    series has fewer than 2 x 12 = 24 points, [decompose_revenue] returns
    no result: the [ValueError] that [seasonal_decompose] raises leaves the
    method, whose only handler is for plotly errors.  Ten monthly points
    raise that [ValueError]. *)
Theorem decompose_revenue_insufficient_data :
  (∀ V (A : Arith V) (self : TimeSeriesAnalysis V),
     (n_dates (input_data self) < 2 * 12)%nat →
     ∃ e, decompose_revenue self = (Raised e, self) ∧
          exn_cls e = ValueError) ∧
  n_dates (input_data ten_months) = 10%nat ∧
  decompose_revenue ten_months =
    (Raised (mk_exn ValueError
       "x must have 2 complete cycles requires 24 observations. x only has 10 observation(s)"),
     ten_months).
Proof.
  split; [|split].
  - intros V A self. apply decompose_revenue_short.
  - reflexivity.
  - vm_compute. reflexivity.
Qed.

Lemma decompose_revenue_insufficient_data_witness :
  ∃ e, decompose_revenue ten_months = (Raised e, ten_months) ∧
       exn_cls e = ValueError.
Proof.
  apply (proj1 decompose_revenue_insufficient_data Qc _ ten_months).
  vm_compute. lia.
Defined.

(** C2 as stated fails: on ten monthly points the exception that reaches
    the caller is a [ValueError], not an [InsufficientDataError]. *)
Lemma decompose_revenue_not_InsufficientDataError :
  n_dates (input_data ten_months) = 10%nat ∧
  ∃ e, decompose_revenue ten_months = (Raised e, ten_months) ∧
       exn_cls e = ValueError ∧ exn_cls e ≠ InsufficientDataError.
Proof.
  split; [reflexivity|]. eexists. split; [vm_compute; reflexivity|].
  split; [reflexivity|discriminate].
Qed.
End decompose_short_claim.

(** ** Seasonal decomposition of a positive series *)

Section decomposition_facts.
Local Open Scope Qc_scope.
Implicit Types (x : list Qc) (l : list Qc).

Lemma vsum_nonneg l : positive l → 0 ≤ vsum l.
Proof.
  induction 1 as [|v l Hv _ IH]; [done|].
  rewrite vsum_cons. apply Qcplus_nonneg_nonneg; [by apply Qclt_le_weak|done].
Qed.

Lemma vsum_pos l : l ≠ [] → positive l → 0 < vsum l.
Proof.
  intros Hne Hpos. destruct Hpos as [|v l Hv Hl]; [done|].
  rewrite vsum_cons. apply Qcplus_pos_nonneg; [done|by apply vsum_nonneg].
Qed.

Lemma Qc_of_nat_pos (n : nat) : (0 < n)%nat → 0 < Qc_of_Z (Z.of_nat n).
Proof.
  intros Hn. rewrite <-Z2Qc_inj_0. apply (proj1 (Z2Qc_inj_lt _ _)). lia.
Qed.

Lemma Qcdiv_pos (a b : Qc) : 0 < a → 0 < b → 0 < a / b.
Proof. intros Ha Hb. apply Qcmult_pos_pos; [done|by apply Qcinv_pos]. Qed.

Lemma vavg_pos l : l ≠ [] → positive l → 0 < vavg l.
Proof.
  intros Hne Hpos. unfold vavg. qc. apply Qcdiv_pos.
  - by apply vsum_pos.
  - apply Qc_of_nat_pos. destruct l; [done|simpl; lia].
Qed.

Lemma positive_zip_with_mul l k :
  positive l → positive k → positive (zip_with vmul l k).
Proof.
  intros Hl. revert k. induction Hl as [|a l Ha _ IH]; intros k Hk; [constructor|].
  destruct Hk as [|b k Hb Hk]; [constructor|].
  simpl. constructor; [by apply Qcmult_pos_pos|by apply IH].
Qed.

Lemma positive_filter : positive (decompose_filter 12).
Proof. apply (bool_decide_unpack _). vm_compute. exact I. Qed.

Lemma positive_existsb x :
  positive x → existsb (λ v, negb (vltb vzero v)) x = false.
Proof.
  induction 1 as [|v l Hv _ IH]; [done|]. cbn [existsb]. rewrite IH. qc.
  by rewrite bool_decide_eq_true_2.
Qed.

Lemma length_filter_12 : length (decompose_filter (V := Qc) 12) = 13%nat.
Proof. reflexivity. Qed.

(** The centred moving-average trend: defined, and positive, exactly from
    half a period after the start to half a period before the end. *)
Lemma convolution_filter_lookup x (filt : list Qc) (j : nat) :
  length filt = 13%nat → positive filt →
  positive x → (j < length x)%nat →
  ∃ t, convolution_filter x filt !! j = Some t ∧
    (∀ v, t = Some v → 0 < v) ∧
    ((6 ≤ j ∧ j + 6 < length x)%nat → is_Some t).
Proof.
  intros Hlen Hfilt Hpos Hj. unfold convolution_filter.
  destruct (lookup_lt_is_Some_2 x j Hj) as [xj Hxj].
  rewrite list_lookup_imap, Hxj, Hlen. cbn [fmap option_fmap option_map].
  change (Nat.div2 14 - 1)%nat with 6%nat.
  change (Nat.div2 14 - 13 `mod` 2)%nat with 6%nat.
  eexists. split; [done|].
  destruct (decide (6 ≤ j ∧ j + 6 < length x)%nat) as [Hin|Hout].
  - split; [|by eexists]. intros v [= <-].
    apply vsum_pos.
    + intros Hnil. apply (f_equal length) in Hnil.
      rewrite length_zip_with, length_reverse, length_take, length_drop,
        Hlen in Hnil.
      cbn [length] in Hnil. lia.
    + apply positive_zip_with_mul; [done|].
      unfold positive. rewrite Forall_reverse.
      by apply Forall_take, Forall_drop.
  - split; [done|]. intros ?. done.
Qed.

(** The detrended series [x / trend]. *)
Lemma detrended_lookup x (filt : list Qc) :
  length filt = 13%nat → positive filt → positive x →
  let detrended :=
    zip_with (λ v t, vdiv v <$> t) x (convolution_filter x filt) in
  (∀ j v, detrended !! j = Some (Some v) → 0 < v) ∧
  (∀ j, (6 ≤ j ∧ j + 6 < length x)%nat →
        ∃ v, detrended !! j = Some (Some v)).
Proof.
  intros Hlen Hfilt Hpos detrended. unfold detrended. split.
  - intros j v Hd. apply lookup_zip_with_Some in Hd
      as (xj & t & Hv & Hxj & Ht).
    destruct (convolution_filter_lookup x filt j Hlen Hfilt Hpos)
      as (t' & Ht' & Htpos & _); [by eapply lookup_lt_Some|].
    rewrite Ht in Ht'. simplify_eq. destruct t' as [t'|]; simplify_eq/=.
    apply Qcdiv_pos; [|by apply Htpos].
    by eapply (Forall_lookup_1 _ _ _ _ Hpos).
  - intros j Hj.
    destruct (lookup_lt_is_Some_2 x j) as [xj Hxj]; [lia|].
    destruct (convolution_filter_lookup x filt j Hlen Hfilt Hpos)
      as (t & Ht & _ & Hdef); [lia|].
    destruct (Hdef Hj) as [tv ->].
    exists (vdiv xj tv). rewrite lookup_zip_with, Hxj. simpl.
    by rewrite Ht.
Qed.

(** The per-position mean of the detrended values. *)
Lemma nanmean_stride_pos (detrended : list (option Qc)) (i : nat) :
  (24 ≤ length detrended)%nat →
  (∀ j v, detrended !! j = Some (Some v) → 0 < v) →
  (∀ j, (6 ≤ j ∧ j + 6 < length detrended)%nat →
        ∃ v, detrended !! j = Some (Some v)) →
  (i < 12)%nat →
  ∃ a, nanmean (stride i 12 detrended) = Some a ∧ 0 < a.
Proof.
  intros Hlen Hpos Hdef Hi. unfold nanmean, vmean.
  set (D := omap id (stride i 12 detrended)).
  assert (positive D) as HD.
  { apply Forall_forall. intros y Hy.
    apply list_elem_of_omap in Hy as (o & Ho & Hid).
    unfold id in Hid. subst o.
    apply list_elem_of_omap in Ho as (k & _ & Hk). by eapply Hpos. }
  assert (D ≠ []) as Hne.
  { set (k := if decide (i < 6)%nat then 1%nat else 0%nat).
    destruct (Hdef (i + k * 12)%nat) as [v Hv].
    { unfold k. case_decide; lia. }
    assert (v ∈ D) as Hin.
    { apply list_elem_of_omap. exists (Some v). split; [|done].
      apply list_elem_of_omap. exists k. split; [|done].
      apply elem_of_seq. unfold k. case_decide; lia. }
    intros Hnil. rewrite Hnil in Hin. by apply elem_of_nil in Hin. }
  destruct D as [|y D'] eqn:HeqD; [done|].
  eexists. split; [done|]. by apply vavg_pos.
Qed.

Lemma vsum_fmap_div l (m : Qc) :
  m ≠ 0 → vsum ((λ a, a / m) <$> l) = vsum l / m.
Proof.
  intros Hm. induction l as [|a l IH].
  - unfold vsum. simpl. qc. field. done.
  - rewrite fmap_cons, !vsum_cons, IH. field. done.
Qed.

(** Dividing figures by their mean gives figures of mean one. *)
Lemma vavg_normalised l :
  l ≠ [] → 0 < vavg l → vavg ((λ a, a / vavg l) <$> l) = 1.
Proof.
  intros Hne Hm.
  assert (vavg l ≠ 0) as Hm0 by (by apply not_eq_sym, Qclt_not_eq).
  assert (0 < Qc_of_Z (Z.of_nat (length l))) as HN.
  { apply Qc_of_nat_pos. destruct l; [done|simpl; lia]. }
  assert (Qc_of_Z (Z.of_nat (length l)) ≠ 0) as HN0
    by (by apply not_eq_sym, Qclt_not_eq).
  unfold vavg at 1. rewrite length_fmap, vsum_fmap_div by done.
  unfold vavg in *. qc.
  assert (vsum l ≠ 0) as HS0.
  { intros HS. apply Hm0. rewrite HS. field. done. }
  field. done.
Qed.

(** The seasonal figures of a positive series with at least two full
    periods: twelve numbers whose mean is one. *)
Lemma seasonal_indices_mean_one (detrended : list (option Qc)) :
  (24 ≤ length detrended)%nat →
  (∀ j v, detrended !! j = Some (Some v) → 0 < v) →
  (∀ j, (6 ≤ j ∧ j + 6 < length detrended)%nat →
        ∃ v, detrended !! j = Some (Some v)) →
  ∃ idx, seasonal_indices true detrended 12 = Some <$> idx ∧
         length idx = 12%nat ∧ vavg idx = 1.
Proof.
  intros Hlen Hpos Hdef. unfold seasonal_indices, seasonal_mean.
  set (avg := λ i : nat, nanmean (stride i 12 detrended)).
  set (av := (λ i, default 0 (avg i)) <$> seq 0 12).
  assert (avg <$> seq 0 12 = Some <$> av) as Hav.
  { unfold av. rewrite <-list_fmap_compose. apply list_fmap_ext.
    intros k i Hk. apply lookup_seq in Hk as [-> Hk]. simpl.
    destruct (nanmean_stride_pos detrended k Hlen Hpos Hdef Hk)
      as (a & Ha & _).
    unfold avg. by rewrite Ha. }
  assert (positive av) as Hposav.
  { unfold av, positive. rewrite Forall_fmap. apply Forall_seq.
    intros i Hi. simpl.
    destruct (nanmean_stride_pos detrended i Hlen Hpos Hdef)
      as (a & Ha & Hapos); [lia|].
    unfold avg. by rewrite Ha. }
  assert (length av = 12%nat) as Hlenav by done.
  assert (av ≠ []) as Hne by (by intros Hnil; rewrite Hnil in Hlenav).
  rewrite Hav.
  assert (np_mean (Some <$> av) = Some (vavg av)) as ->.
  { unfold np_mean. rewrite mapM_fmap_Some by done. simpl.
    unfold vmean. by destruct av. }
  exists ((λ a, a / vavg av) <$> av). split_and!.
  - rewrite <-!list_fmap_compose. by apply list_fmap_ext.
  - by rewrite length_fmap.
  - apply vavg_normalised; [done|by apply vavg_pos].
Qed.

(** [np.tile]: position [j] of the repeated list holds entry
    [j mod p] of the list. *)
Lemma lookup_tile {A} (l : list A) (k j : nat) :
  l ≠ [] → (j < k * length l)%nat →
  mjoin (replicate k l) !! j = l !! (j `mod` length l)%nat.
Proof.
  intros Hne. assert (0 < length l)%nat as Hp by (destruct l; [done|simpl; lia]).
  revert j. induction k as [|k IH]; intros j Hj; [lia|].
  cbn [replicate mjoin list_join].
  destruct (decide (j < length l)%nat) as [Hlt|Hge].
  - rewrite lookup_app_l by done. by rewrite Nat.mod_small.
  - rewrite lookup_app_r by lia. rewrite IH by lia. f_equal.
    replace j with ((j - length l) + 1 * length l)%nat at 2 by lia.
    by rewrite Nat.Div0.mod_add.
Qed.

Lemma seasonal_decompose_positive x :
  positive x → (24 ≤ length x)%nat →
  ∃ r idx,
    seasonal_decompose x "multiplication" 12 = Normal r ∧
    observed r = x ∧
    length idx = 12%nat ∧
    (∀ j : nat, (j < length x)%nat →
       seasonal r !! j = Some (idx !! (j `mod` 12)%nat)) ∧
    vavg idx = 1.
Proof.
  intros Hpos Hlen. unfold seasonal_decompose, check_decompose_input, decompose.
  change (String.prefix "m" "multiplication") with true.
  cbv zeta. cbn [andb]. rewrite positive_existsb by done.
  rewrite (proj2 (Nat.ltb_ge _ _)) by lia.
  set (detrended :=
         zip_with (λ v t, vdiv v <$> t) x
           (convolution_filter x (decompose_filter 12))).
  assert (length detrended = length x) as Hld.
  { unfold detrended, convolution_filter.
    rewrite length_zip_with, length_imap. lia. }
  destruct (detrended_lookup x (decompose_filter 12) length_filter_12
              positive_filter Hpos) as [Hdpos Hddef].
  fold detrended in Hdpos, Hddef.
  destruct (seasonal_indices_mean_one detrended) as (idx & Hidx & Hl & Hm).
  { lia. } { done. } { rewrite Hld. done. }
  rewrite Hidx. do 2 eexists. split; [done|]. cbn [observed seasonal].
  split_and!; [done|done| |done].
  intros j Hj. rewrite lookup_take_lt by done.
  assert (Some <$> idx ≠ []) as Hne by (by destruct idx).
  rewrite lookup_tile; [|done|].
  - rewrite length_fmap, Hl, list_lookup_fmap.
    destruct (lookup_lt_is_Some_2 idx (j `mod` 12)%nat) as [v ->]; [|done].
    rewrite Hl. apply Nat.mod_upper_bound. lia.
  - rewrite length_fmap, Hl.
    pose proof (Nat.div_mod_eq (length x) 12) as Hdm.
    pose proof (Nat.mod_upper_bound (length x) 12). lia.
Qed.

End decomposition_facts.

Section decomposition_claim.
Import time_series_analysis.

(** C9.  For every dataset whose per-date revenue series is positive and
    has at least two full periods (24 dates), [decompose_revenue] returns
    a figure whose seasonal component repeats twelve seasonal indices, one
    per position in the period, and the mean of these twelve indices is 1
    (exactly, in exact arithmetic).  The same holds of
    [seasonal_decompose] on any positive series of at least 24 values. *)
Theorem seasonal_indices_normalised :
  (∀ x : list Qc,
     positive x → (24 ≤ length x)%nat →
     ∃ r idx,
       seasonal_decompose x "multiplication" 12 = Normal r ∧
       observed r = x ∧
       length idx = 12%nat ∧
       (∀ j : nat, (j < length x)%nat →
          seasonal r !! j = Some (idx !! (j `mod` 12)%nat)) ∧
       vavg idx = 1%Qc) ∧
  (∀ self : TimeSeriesAnalysis Qc,
     positive (revenue_series (input_data self)) →
     (24 ≤ n_dates (input_data self))%nat →
     ∃ fig seasonal_ idx,
       decompose_revenue self = (Normal (Some fig), self) ∧
       traces fig !! 2%nat = Some ("Seasonal"%string, seasonal_) ∧
       length idx = 12%nat ∧
       (∀ j : nat, (j < n_dates (input_data self))%nat →
          seasonal_ !! j = Some (idx !! (j `mod` 12)%nat)) ∧
       vavg idx = 1%Qc).
Proof.
  split; [apply seasonal_decompose_positive|].
  intros self Hpos Hn.
  pose proof (length_decompose_input (input_data self)) as Hlen.
  fold (revenue_series (input_data self)) in Hlen.
  destruct (seasonal_decompose_positive (revenue_series (input_data self)))
    as (r & idx & Hr & _ & Hl & Hs & Hm); [done|lia|].
  unfold decompose_revenue, try_except, decompose_revenue_body,
    bind, get, lift, ret.
  fold (revenue_series (input_data self)). rewrite Hr.
  do 3 eexists. split; [done|]. split; [done|].
  split_and!; [done| |done].
  intros j Hj. apply Hs. lia.
Qed.

Lemma seasonal_indices_normalised_witness :
  (∃ r idx,
     seasonal_decompose (revenue_series (input_data two_years))
       "multiplication" 12 = Normal r ∧
     observed r = revenue_series (input_data two_years) ∧
     length idx = 12%nat ∧
     (∀ j : nat, (j < length (revenue_series (input_data two_years)))%nat →
        seasonal r !! j = Some (idx !! (j `mod` 12)%nat)) ∧
     vavg idx = 1%Qc) ∧
  ∃ fig seasonal_ idx,
    decompose_revenue two_years = (Normal (Some fig), two_years) ∧
    traces fig !! 2%nat = Some ("Seasonal"%string, seasonal_) ∧
    length idx = 12%nat ∧
    (∀ j : nat, (j < n_dates (input_data two_years))%nat →
       seasonal_ !! j = Some (idx !! (j `mod` 12)%nat)) ∧
    vavg idx = 1%Qc.
Proof.
  split.
  - apply (proj1 seasonal_indices_normalised
             (revenue_series (input_data two_years))).
    + apply (bool_decide_unpack _). vm_compute. exact I.
    + vm_compute. lia.
  - apply (proj2 seasonal_indices_normalised two_years).
    + apply (bool_decide_unpack _). vm_compute. exact I.
    + vm_compute. lia.
Defined.
End decomposition_claim.

(** ** TSAForecasting: exceptions never leave the three methods *)

Section forecasting_facts.
Import tsa_forecasting.
Context {V : Type} `{Arith V} {theta : Type}.
Variable check_kwargs : gmap string kwarg → option exn.
Variable optimize : gmap string kwarg → list (date * V) → exn + theta.
Variable predictive : theta → date → V * V * V.
Implicit Types (s : TSAForecasting V theta) (e : exn).

(** [except Exception] first: every exception is logged under the first
    message. *)
Lemma try_except_Exception {A} (body : M (TSAForecasting V theta) (option A))
    msg1 msg2 s :
  try_except body
    [ log_and_return_None Exception msg1;
      log_and_return_None FileNotFoundError msg2 ] s =
  match body s with
  | (Normal a, s') => (Normal a, s')
  | (Raised e, s') =>
      (Normal None,
       mk_TSAForecasting (data s') (model s') (forecast s')
         (prophet_model s') (log s' ++ [msg1 +:+ exn_msg e]) (stdout s'))
  end.
Proof. unfold try_except. by destruct (body s) as [[a|e] s']. Qed.

(** [except FileNotFoundError] first, [except Exception] second. *)
Lemma try_except_FileNotFound {A}
    (body : M (TSAForecasting V theta) (option A)) msg1 msg2 s :
  try_except body
    [ log_and_return_None FileNotFoundError msg1;
      log_and_return_None Exception msg2 ] s =
  match body s with
  | (Normal a, s') => (Normal a, s')
  | (Raised e, s') =>
      (Normal None,
       mk_TSAForecasting (data s') (model s') (forecast s')
         (prophet_model s')
         (log s' ++ [(if decide (exn_cls e = FileNotFoundError)
                      then msg1 else msg2) +:+ exn_msg e])
         (stdout s'))
  end.
Proof.
  unfold try_except. destruct (body s) as [[a|e] s']; [done|].
  simpl. unfold isinstance. simpl.
  destruct (decide (exn_cls e = FileNotFoundError)) as [He|He].
  - by rewrite bool_decide_eq_true_2.
  - by rewrite bool_decide_eq_false_2.
Qed.

Lemma fit_prophet_model_caught data_ key kw s :
  ∃ r s', fit_prophet_model check_kwargs optimize data_ key kw s
            = (Normal r, s') ∧
    ∀ e s1, fit_prophet_model_body check_kwargs optimize data_ key kw s
              = (Raised e, s1) →
      r = None ∧ log s' = log s1 ++ ["Could not find model: " +:+ exn_msg e].
Proof.
  unfold fit_prophet_model. rewrite try_except_Exception.
  destruct (fit_prophet_model_body _ _ _ _ _ s) as [[a|e] s'];
    do 2 eexists; (split; [done|]); intros e' s1 [=]; by subst.
Qed.

Lemma forecast_sales_caught data_ horizon key s :
  ∃ r s', forecast_sales predictive data_ horizon key s = (Normal r, s') ∧
    ∀ e s1, forecast_sales_body predictive data_ horizon key s
              = (Raised e, s1) →
      r = None ∧ log s' = log s1 ++ ["Could not forecast: " +:+ exn_msg e].
Proof.
  unfold forecast_sales. rewrite try_except_Exception.
  destruct (forecast_sales_body _ _ _ _ s) as [[a|e] s'];
    do 2 eexists; (split; [done|]); intros e' s1 [=]; by subst.
Qed.

Lemma get_forecast_summary_caught data_ perioDate s :
  ∃ r s', get_forecast_summary data_ perioDate s = (Normal r, s') ∧
    ∀ e s1, get_forecast_summary_body data_ perioDate s = (Raised e, s1) →
      r = None ∧
      ∃ msg, log s' = log s1 ++ [msg +:+ exn_msg e] ∧
             (exn_cls e ≠ FileNotFoundError →
              msg = "Could not summarize forecast: "%string).
Proof.
  unfold get_forecast_summary. rewrite try_except_FileNotFound.
  destruct (get_forecast_summary_body _ _ s) as [[a|e] s'];
    do 2 eexists; (split; [done|]); intros e' s1 [=]; subst.
  split; [done|]. eexists. split; [done|].
  intros Hne. by rewrite decide_False.
Qed.

(** *** Calls out of sequence *)

Lemma forecast_sales_unfitted data_ horizon key s :
  unfitted s →
  ∃ s', forecast_sales predictive data_ horizon key s = (Normal None, s') ∧
        forecast s' = forecast s ∧ prophet_model s' = prophet_model s ∧
        data s' = data s.
Proof.
  unfold unfitted. intros Hs.
  unfold forecast_sales. rewrite try_except_Exception.
  unfold forecast_sales_body, bind, get.
  destruct (prophet_model s) as [[m|]|] eqn:Hm.
  - assert (∀ fut, predict predictive m fut
                   = Raised (mk_exn Exception "Model has not been fit."))
      as Hpredict by (intros fut; unfold predict; by rewrite Hs).
    unfold lift.
    destruct (match data_ with
              | DataFrame f => ret f
              | Dict items =>
                  match truthy key with
                  | Some key0 => dict_getitem items key0
                  | None => dict_first_value items
                  end
              | NoData => raise AttributeError
                            "'NoneType' object has no attribute 'rename'"
              end s) as [[f|e] s1] eqn:Hdata.
    + assert (s1 = s) as ->.
      { destruct data_ as [f0|items|]; simpl in Hdata.
        - by injection Hdata.
        - destruct (truthy key); unfold dict_getitem, dict_first_value in Hdata.
          + destruct (list_find _ items) as [[? ?]|]; by injection Hdata.
          + destruct items; by injection Hdata.
        - done. }
      destruct (make_future_dataframe m horizon) as [fut|e].
      * rewrite Hpredict. eexists. split; [reflexivity|]. simpl. split_and!; done.
      * eexists. split; [reflexivity|]. simpl. split_and!; done.
    + assert (s1 = s) as ->.
      { destruct data_ as [f0|items|]; simpl in Hdata.
        - done.
        - destruct (truthy key); unfold dict_getitem, dict_first_value in Hdata.
          + destruct (list_find _ items) as [[? ?]|]; by injection Hdata.
          + destruct items; by injection Hdata.
        - by injection Hdata. }
      eexists. split; [reflexivity|]. simpl. split_and!; done.
  - eexists. split; [reflexivity|]. simpl. split_and!; done.
  - eexists. split; [reflexivity|]. simpl. split_and!; done.
Qed.

Lemma get_forecast_summary_no_forecast data_ perioDate s :
  forecast s = None →
  get_forecast_summary data_ perioDate s =
    (Normal None,
     mk_TSAForecasting (data s) (model s) (forecast s) (prophet_model s)
       (log s) (stdout s ++ ["Please generate forecast first!"])).
Proof.
  intros Hf. unfold get_forecast_summary. rewrite try_except_FileNotFound.
  unfold get_forecast_summary_body, bind, get.
  destruct s; simpl in *; subst. reflexivity.
Qed.

End forecasting_facts.

Section state_machine_claims.
Import tsa_forecasting example_session.

(** C1, as the code has it.  In every session in which no model has been
    fitted, [forecast_sales] raises nothing: it returns [None] and leaves
    the session's forecast, model and data as they were.  In every session
    without a forecast, [get_forecast_summary] raises nothing: it prints
    its notice and returns [None].  Neither call returns partial
    results. *)
Theorem out_of_sequence_returns_None :
  (∀ V theta (predictive : theta → date → V * V * V)
     (s : TSAForecasting V theta) data_ horizon key,
     unfitted s →
     ∃ s', forecast_sales predictive data_ horizon key s = (Normal None, s') ∧
           forecast s' = forecast s ∧ prophet_model s' = prophet_model s ∧
           data s' = data s) ∧
  (∀ V (A : Arith V) theta (s : TSAForecasting V theta) data_ perioDate,
     forecast s = None →
     get_forecast_summary data_ perioDate s =
       (Normal None,
        mk_TSAForecasting (data s) (model s) (forecast s) (prophet_model s)
          (log s) (stdout s ++ ["Please generate forecast first!"]))).
Proof.
  split.
  - intros V theta predictive s data_ horizon key.
    apply forecast_sales_unfitted.
  - intros V A theta s data_ perioDate.
    apply get_forecast_summary_no_forecast.
Qed.

Lemma out_of_sequence_returns_None_witness :
  (∃ s', forecast_sales predictive (DataFrame history) 12 None fresh
           = (Normal None, s') ∧
         forecast s' = forecast fresh ∧
         prophet_model s' = prophet_model fresh ∧ data s' = data fresh) ∧
  get_forecast_summary (DataFrame history) 12 fitted =
    (Normal None,
     mk_TSAForecasting (data fitted) (model fitted) (forecast fitted)
       (prophet_model fitted) (log fitted)
       (stdout fitted ++ ["Please generate forecast first!"])).
Proof.
  split.
  - apply (proj1 out_of_sequence_returns_None float unit predictive fresh).
    exact I.
  - apply (proj2 out_of_sequence_returns_None float _ unit fitted).
    reflexivity.
Defined.

(** C1 as stated fails: before any fit [forecast_sales] returns [None]
    instead of raising, and before any forecast [get_forecast_summary]
    returns [None] instead of raising. *)
Lemma out_of_sequence_counterexample :
  (forecast_sales predictive (DataFrame history) 12 None fresh).1
    = Normal None ∧
  (¬ ∃ e, (forecast_sales predictive (DataFrame history) 12 None fresh).1
            = Raised e) ∧
  (get_forecast_summary (DataFrame history) 12 fitted).1 = Normal None ∧
  (¬ ∃ e, (get_forecast_summary (DataFrame history) 12 fitted).1 = Raised e).
Proof.
  split_and!; try (vm_compute; reflexivity);
    intros [e He]; vm_compute in He; discriminate He.
Qed.

End state_machine_claims.

(** ** The forecast summary *)

Lemma py_slice_empty {A} (a b : Z) (l : list A) :
  0 ≤ a → 0 ≤ b → b ≤ a → py_slice a b l = [].
Proof.
  intros Ha Hb Hba. unfold py_slice, py_clip.
  rewrite !(proj2 (Z.ltb_ge _ _)) by lia.
  replace (Z.to_nat _) with 0%nat by lia. done.
Qed.

Section summary_facts.
Import tsa_forecasting.
Context {V : Type} `{Arith V} {theta : Type}.
Implicit Types (s : TSAForecasting V theta).

(** The first step of the summary: which frame is the history. *)
Lemma summary_history data_ hist s :
  historical_of data_ = Some hist →
  match data_ with
  | Dict items => dict_first_value items
  | DataFrame f => ret f
  | NoData => raise TypeError "object of type 'NoneType' has no len()"
  end s = (Normal hist, s).
Proof.
  destruct data_ as [f|[|kv items]|]; simpl; intros [=]; by subst.
Qed.

Lemma get_forecast_summary_empty_slice data_ hist perioDate fc s :
  forecast s = Some fc →
  historical_of data_ = Some hist →
  perioDate ≤ 0 →
  0 ≤ Z.of_nat (length (frows hist)) + perioDate →
  get_forecast_summary data_ perioDate s =
    (Normal None,
     mk_TSAForecasting (data s) (model s) (Some fc) (prophet_model s)
       (log s ++ ["Could not summarize forecast: single positional indexer is out-of-bounds"])
       (stdout s)).
Proof.
  intros Hf Hh Hp Hn.
  unfold get_forecast_summary. rewrite try_except_FileNotFound.
  unfold get_forecast_summary_body, bind, get. rewrite Hf.
  rewrite (summary_history _ _ _ Hh).
  rewrite py_slice_empty by lia.
  destruct s; simpl in *; subst. reflexivity.
Qed.

Lemma get_forecast_summary_growth data_ hist perioDate fc s r yl :
  forecast s = Some fc →
  historical_of data_ = Some hist →
  value_col hist = y_name →
  last (py_slice (Z.of_nat (length (frows hist)))
          (Z.of_nat (length (frows hist)) + perioDate) fc) = Some r →
  last ((frows hist).*2) = Some yl →
  ∃ sm s',
    get_forecast_summary data_ perioDate s =
      (Normal (Some (sm, py_slice (Z.of_nat (length (frows hist)))
                           (Z.of_nat (length (frows hist)) + perioDate) fc)),
       s') ∧
    forecast s' = Some fc ∧ log s' = log s ∧
    Sales_Growth_Rate sm =
      vmul (vsub (vdiv (yhat r) yl) (vofZ 1)) (vofZ 100).
Proof.
  intros Hf Hh Hy Hr Hyl.
  unfold get_forecast_summary. rewrite try_except_FileNotFound.
  unfold get_forecast_summary_body, bind, get. rewrite Hf.
  rewrite (summary_history _ _ _ Hh).
  unfold iloc_last. rewrite fmap_last, Hr. simpl.
  rewrite Hy. simpl. rewrite Hyl. simpl.
  do 2 eexists. split; [reflexivity|]. simpl. by rewrite Hf.
Qed.

End summary_facts.

Section summary_claims.
Import tsa_forecasting example_session.

(** C8, as the code has it.  In every session with a forecast, a call of
    [get_forecast_summary] with a horizon [perioDate ≤ 0] that does not
    reach back beyond the history ([-n ≤ perioDate], [n] the number of
    historical rows) selects no forecast row; the [IndexError] of the
    empty selection is caught and logged, and the method returns [None]:
    no summary metrics, no exception, the session otherwise unchanged. *)
Theorem summary_nonpositive_horizon
    V (A : Arith V) theta (s : TSAForecasting V theta)
    data_ hist perioDate fc :
  forecast s = Some fc →
  historical_of data_ = Some hist →
  perioDate ≤ 0 →
  0 ≤ Z.of_nat (length (frows hist)) + perioDate →
  get_forecast_summary data_ perioDate s =
    (Normal None,
     mk_TSAForecasting (data s) (model s) (Some fc) (prophet_model s)
       (log s ++ ["Could not summarize forecast: single positional indexer is out-of-bounds"])
       (stdout s)).
Proof. apply get_forecast_summary_empty_slice. Qed.

Lemma summary_nonpositive_horizon_witness :
  ∃ fc, forecast forecasted = Some fc ∧
    get_forecast_summary (DataFrame history) 0 forecasted =
      (Normal None,
       mk_TSAForecasting (data forecasted) (model forecasted) (Some fc)
         (prophet_model forecasted)
         (log forecasted ++ ["Could not summarize forecast: single positional indexer is out-of-bounds"])
         (stdout forecasted)).
Proof.
  eexists. split; [vm_compute; reflexivity|].
  apply (summary_nonpositive_horizon float _ unit forecasted
           (DataFrame history) history 0).
  - vm_compute. reflexivity.
  - reflexivity.
  - lia.
  - simpl. lia.
Defined.

(** C8 as stated fails: with horizon 0 the method returns [None] and
    raises nothing, and with horizon -5 (three historical rows, six
    forecast rows) the slice wraps around and a summary is returned. *)
Lemma summary_nonpositive_horizon_counterexample :
  (get_forecast_summary (DataFrame history) 0 forecasted).1 = Normal None ∧
  (¬ ∃ e, (get_forecast_summary (DataFrame history) 0 forecasted).1
            = Raised e) ∧
  (∃ sm rows,
     (get_forecast_summary (DataFrame history) (-5) forecasted).1
       = Normal (Some (sm, rows)) ∧ length rows = 1%nat).
Proof.
  split_and!.
  - vm_compute. reflexivity.
  - intros [e He]. vm_compute in He. discriminate He.
  - do 2 eexists. split; vm_compute; reflexivity.
Qed.

(** C6, as the code has it.  Whenever the summarised slice of the
    forecast and the history are not empty, the summary's
    [Sales_Growth_Rate] is [(yhat / y - 1) * 100] for the last [yhat] of
    the slice and the last historical [y], computed in the arithmetic of
    the values.  For 100 and 120 this is 20 in exact arithmetic; in
    binary64 it is 19.999999999999996, which is 20.0 to within 1e-9 but
    does not compare equal to 20.0. *)
Theorem growth_rate_formula :
  (∀ V (A : Arith V) theta (s : TSAForecasting V theta)
     data_ hist perioDate fc r yl,
     forecast s = Some fc →
     historical_of data_ = Some hist →
     value_col hist = y_name →
     last (py_slice (Z.of_nat (length (frows hist)))
             (Z.of_nat (length (frows hist)) + perioDate) fc) = Some r →
     last ((frows hist).*2) = Some yl →
     ∃ sm s',
       get_forecast_summary data_ perioDate s =
         (Normal (Some (sm, py_slice (Z.of_nat (length (frows hist)))
                              (Z.of_nat (length (frows hist)) + perioDate)
                              fc)), s') ∧
       forecast s' = Some fc ∧ log s' = log s ∧
       Sales_Growth_Rate sm =
         vmul (vsub (vdiv (yhat r) yl) (vofZ 1)) (vofZ 100)) ∧
  vmul (vsub (vdiv (Qc_of_Z 120) (Qc_of_Z 100)) (vofZ 1)) (vofZ 100)
    = Qc_of_Z 20 ∧
  (let g := vmul (vsub (vdiv 120 100) (vofZ 1)) (vofZ 100) in
   g = 0x1.3ffffffffffffp+4 ∧
   PrimFloat.ltb (PrimFloat.abs (g - 20)) 0x1p-30 = true)%float.
Proof.
  split_and!.
  - intros V A theta s data_ hist perioDate fc r yl.
    apply get_forecast_summary_growth.
  - apply (bool_decide_unpack _). vm_compute. exact I.
  - cbv zeta. split; vm_compute; reflexivity.
Qed.

Lemma growth_rate_formula_witness :
  ∃ fc r sm s',
    forecast forecasted = Some fc ∧
    last (py_slice 3 (3 + 3) fc) = Some r ∧
    yhat r = 120%float ∧
    get_forecast_summary (DataFrame history) 3 forecasted =
      (Normal (Some (sm, py_slice 3 (3 + 3) fc)), s') ∧
    forecast s' = Some fc ∧ log s' = log forecasted ∧
    Sales_Growth_Rate sm =
      vmul (vsub (vdiv (yhat r) 100%float) (vofZ 1)) (vofZ 100).
Proof.
  eexists. eexists.
  destruct (proj1 growth_rate_formula float _ unit forecasted
              (DataFrame history) history 3
              (default [] (forecast forecasted))
              (mk_forecast_row (mk_date 2021 2 28) 120%float 110%float 130%float)
              100%float)
    as (sm & s' & Hsm);
    [vm_compute; reflexivity|reflexivity|reflexivity
    |vm_compute; reflexivity|vm_compute; reflexivity|].
  exists sm, s'. split; [vm_compute; reflexivity|].
  split; [vm_compute; reflexivity|]. split; [reflexivity|].
  exact Hsm.
Defined.

(** C6 as stated fails in its example: with a history ending at 100 and a
    forecast ending at 120, the reported growth rate is
    19.999999999999996, and Python's [== 20.0] is false for it. *)
Lemma growth_rate_counterexample :
  ∃ sm rows r,
    (get_forecast_summary (DataFrame history) 3 forecasted).1
      = Normal (Some (sm, rows)) ∧
    last ((frows history).*2) = Some 100%float ∧
    last rows = Some r ∧ yhat r = 120%float ∧
    Sales_Growth_Rate sm = 0x1.3ffffffffffffp+4%float ∧
    PrimFloat.eqb (Sales_Growth_Rate sm) 20 = false.
Proof.
  do 3 eexists. split_and!; vm_compute; reflexivity.
Qed.

(** C10.  Whatever the arguments, the session and the behaviour of
    Prophet, none of [fit_prophet_model], [forecast_sales] and
    [get_forecast_summary] ends in an exception: each returns normally,
    and whenever its body raised, the exception was logged and the value
    returned is [None].  [None] is also what the methods return when
    nothing went wrong but there is nothing to return, so the caller
    cannot tell the two apart from the value. *)
Theorem exceptions_never_propagate :
  (∀ V (A : Arith V) theta check_kwargs optimize
     (predictive : theta → date → V * V * V)
     (s : TSAForecasting V theta) data_ key kw horizon perioDate,
     (∃ r s', fit_prophet_model check_kwargs optimize data_ key kw s
                = (Normal r, s') ∧
        ∀ e s1, fit_prophet_model_body check_kwargs optimize data_ key kw s
                  = (Raised e, s1) →
          r = None ∧
          log s' = log s1 ++ ["Could not find model: " +:+ exn_msg e]) ∧
     (∃ r s', forecast_sales predictive data_ horizon key s
                = (Normal r, s') ∧
        ∀ e s1, forecast_sales_body predictive data_ horizon key s
                  = (Raised e, s1) →
          r = None ∧
          log s' = log s1 ++ ["Could not forecast: " +:+ exn_msg e]) ∧
     (∃ r s', get_forecast_summary data_ perioDate s = (Normal r, s') ∧
        ∀ e s1, get_forecast_summary_body data_ perioDate s
                  = (Raised e, s1) →
          r = None ∧
          ∃ msg, log s' = log s1 ++ [msg +:+ exn_msg e] ∧
                 (exn_cls e ≠ FileNotFoundError →
                  msg = "Could not summarize forecast: "%string))) ∧
  ((fit_prophet_model check_kwargs optimize NoData None ∅ fresh).1
     = Normal None ∧
   (fit_prophet_model check_kwargs optimize
      (Dict [("Germany"%string, history)]) None ∅ fresh).1 = Normal None ∧
   (forecast_sales predictive NoData 12 None fitted).1 = Normal None ∧
   (get_forecast_summary NoData 12 forecasted).1 = Normal None ∧
   (get_forecast_summary (DataFrame history) 12 fitted).1 = Normal None).
Proof.
  split.
  - intros V A theta check_kwargs optimize predictive s data_ key kw
      horizon perioDate.
    split_and!.
    + apply fit_prophet_model_caught.
    + apply forecast_sales_caught.
    + apply get_forecast_summary_caught.
  - split_and!; vm_compute; reflexivity.
Qed.

End summary_claims.

(** ** The forecast horizon *)

Lemma month_index_month_end (k : Z) : month_index (month_end k) = k.
Proof. unfold month_index, month_end. simpl. Z.to_euclidean_division_equations. lia. Qed.

Lemma date_lt_month_end (last : date) (k : Z) :
  valid_date last → month_index last < k → date_lt last (month_end k).
Proof.
  intros [Hm _]. unfold month_index, date_lt, month_end. simpl.
  Z.to_euclidean_division_equations. lia.
Qed.

Lemma month_end_of_last_day (last : date) :
  valid_date last → day last = days_in_month (year last) (month last) →
  month_end (month_index last) = last.
Proof.
  intros [Hm _] Hd. destruct last as [y m d]. simpl in *.
  unfold month_end, month_index. simpl.
  assert ((y * 12 + (m - 1)) / 12 = y) as -> by (Z.to_euclidean_division_equations; lia).
  assert ((y * 12 + (m - 1)) mod 12 + 1 = m) as -> by (Z.to_euclidean_division_equations; lia).
  by rewrite Hd.
Qed.

Lemma date_lt_own_month_end (last : date) :
  valid_date last → day last ≠ days_in_month (year last) (month last) →
  date_lt last (month_end (month_index last)).
Proof.
  intros [Hm Hd] Hne. destruct last as [y m d]. simpl in *.
  unfold month_end, month_index, date_lt. simpl.
  assert ((y * 12 + (m - 1)) / 12 = y) as -> by (Z.to_euclidean_division_equations; lia).
  assert ((y * 12 + (m - 1)) mod 12 + 1 = m) as -> by (Z.to_euclidean_division_equations; lia).
  right. split; [done|]. right. split; [done|]. lia.
Qed.

Lemma date_lt_irrefl (d : date) : ¬ date_lt d d.
Proof. unfold date_lt. lia. Qed.

Lemma filter_Forall_id {A} (P : A → Prop) `{∀ x, Decision (P x)} (l : list A) :
  Forall P l → filter P l = l.
Proof.
  induction 1 as [|x l Hx _ IH]; [done|].
  by rewrite filter_cons_True, IH.
Qed.

Lemma py_slice_take {A} (n : Z) (l : list A) :
  0 ≤ n → py_slice 0 n l = take (Z.to_nat n) l.
Proof.
  intros Hn. unfold py_slice, py_clip. simpl.
  rewrite (proj2 (Z.ltb_ge _ _)) by lia.
  replace (Z.min 0 (Z.of_nat (length l))) with 0 by lia. simpl.
  rewrite Z.sub_0_r.
  destruct (decide (n ≤ Z.of_nat (length l))).
  - by rewrite Z.min_l.
  - rewrite Z.min_r by lia. rewrite Nat2Z.id.
    rewrite !take_ge; (done || lia).
Qed.

(** The future dates of [make_future_dataframe]: the [H] consecutive month
    ends from [first_future_month] on. *)
Lemma future_dates (last : date) (H : Z) :
  valid_date last → 0 ≤ H →
  py_slice 0 H
    (filter (λ d, date_lt last d)
       ((λ i, month_end (month_index last + i)) <$> seqZ 0 (H + 1))) =
  (λ i, month_end (first_future_month last + i)) <$> seqZ 0 H.
Proof.
  intros Hv HH. rewrite py_slice_take by done.
  unfold first_future_month.
  destruct (decide (day last = days_in_month (year last) (month last)))
    as [Hend|Hend].
  - rewrite seqZ_cons by lia. rewrite fmap_cons, filter_cons_False.
    2:{ rewrite Z.add_0_r, month_end_of_last_day by done.
        apply date_lt_irrefl. }
    replace (Z.succ 0) with (1 + 0) by lia.
    replace (Z.pred (H + 1)) with H by lia.
    rewrite <-fmap_add_seqZ, <-list_fmap_compose.
    rewrite filter_Forall_id.
    + rewrite take_ge by (rewrite length_fmap, length_seqZ; lia).
      apply list_fmap_ext. intros _ i _. simpl. f_equal. lia.
    + apply Forall_fmap, Forall_seqZ. intros i Hi. simpl.
      apply date_lt_month_end; [done|lia].
  - rewrite filter_Forall_id.
    + rewrite seqZ_app by lia. rewrite fmap_app, take_app_length'; [done|].
      by rewrite length_fmap, length_seqZ.
    + apply Forall_fmap, Forall_seqZ. intros i Hi. simpl.
      destruct (decide (i = 0)) as [->|Hi0].
      * rewrite Z.add_0_r. by apply date_lt_own_month_end.
      * apply date_lt_month_end; [done|lia].
Qed.

Section horizon_facts.
Import tsa_forecasting.
Context {V : Type} {theta : Type}.
Variable predictive : theta → date → V * V * V.
Implicit Types (s : TSAForecasting V theta) (m : Prophet theta).

Lemma make_future_dataframe_dates m hd last (H : Z) :
  history_dates m = Some hd → max_date hd = Some last →
  valid_date last → 0 ≤ H →
  make_future_dataframe m H =
    Normal (hd ++ ((λ i, month_end (first_future_month last + i)) <$>
                      seqZ 0 H)).
Proof.
  intros Hhd Hlast Hv HH. unfold make_future_dataframe, date_range_M.
  rewrite Hhd, Hlast. rewrite (proj2 (Z.ltb_ge _ _)) by lia.
  by rewrite future_dates.
Qed.

Lemma ds_predict m th (dates : list date) :
  params m = Some th →
  ∃ fc, predict predictive m dates = Normal fc ∧ ds <$> fc = dates.
Proof.
  intros Hth. unfold predict. rewrite Hth. eexists. split; [done|].
  rewrite <-list_fmap_compose. rewrite <-(list_fmap_id dates) at 2.
  apply list_fmap_ext. intros _ d _. simpl.
  by destruct (predictive th d) as [[y lo] up].
Qed.

Lemma forecast_input_resolved (data_ : data_arg V) key hist s :
  forecast_input data_ key = Some hist →
  match data_ with
  | Dict items =>
      match truthy key with
      | Some key0 => dict_getitem items key0
      | None => dict_first_value items
      end
  | DataFrame f => ret f
  | NoData => raise AttributeError
                "'NoneType' object has no attribute 'rename'"
  end s = (Normal hist, s).
Proof.
  unfold forecast_input. destruct data_ as [f|items|]; [by intros [= ->]| |done].
  destruct (truthy key) as [k|].
  - unfold dict_getitem. destruct (list_find _ items) as [[i kv]|]; [|done].
    simpl. by intros [= ->].
  - unfold dict_first_value. destruct items as [|kv items]; [done|].
    simpl. by intros [= ->].
Qed.

Lemma forecast_sales_fitted s m hd th last data_ key hist (H : Z) :
  prophet_model s = Some (Some m) →
  history_dates m = Some hd → params m = Some th →
  max_date hd = Some last → valid_date last →
  forecast_input data_ key = Some hist →
  0 ≤ H →
  ∃ fc s',
    forecast_sales predictive data_ H key s = (Normal (Some fc), s') ∧
    forecast s' = Some fc ∧
    ds <$> fc =
      hd ++ ((λ i, month_end (first_future_month last + i)) <$> seqZ 0 H).
Proof.
  intros Hm Hhd Hth Hlast Hv Hin HH.
  unfold forecast_sales. rewrite try_except_Exception.
  unfold forecast_sales_body, bind, get. rewrite Hm.
  rewrite (forecast_input_resolved _ _ _ _ Hin).
  unfold lift. rewrite (make_future_dataframe_dates m hd last H) by done.
  destruct (ds_predict m th
              (hd ++ ((λ i, month_end (first_future_month last + i)) <$>
                         seqZ 0 H)) Hth) as (fc & -> & Hds).
  do 2 eexists. split; [reflexivity|]. split; [done|]. done.
Qed.

End horizon_facts.

(** ** What a successful fit leaves in the session *)

Lemma max_date_elem (l : list date) (d : date) : max_date l = Some d → d ∈ l.
Proof.
  destruct l as [|d0 l]; [done|]. simpl. intros [= <-].
  assert (∀ acc, foldl (λ m d', if decide (date_lt m d') then d' else m) acc l
                 ∈ acc :: l) as Hin.
  { induction l as [|x l IH]; intros acc; simpl.
    - by apply list_elem_of_singleton.
    - specialize (IH (if decide (date_lt acc x) then x else acc)).
      apply elem_of_cons in IH as [->|IH].
      + case_decide; [apply elem_of_cons; right|]; apply elem_of_cons; by left.
      + by do 2 (apply elem_of_cons; right). }
  apply Hin.
Qed.

Section fit_facts.
Import tsa_forecasting.
Context {V : Type} {theta : Type}.
Variable check_kwargs : gmap string kwarg → option exn.
Variable optimize : gmap string kwarg → list (date * V) → exn + theta.

(** A fit on a frame with columns [ds] and [y] and at least two rows, with
    keyword arguments that Prophet accepts and an optimisation that
    succeeds, stores a fitted model: its history dates are the distinct
    dates of the frame, and the latest of them is a date of the frame. *)
Lemma fit_prophet_model_fitted (s : TSAForecasting V theta) df key kw th :
  time_col df = ds_name → value_col df = y_name →
  (2 ≤ length (frows df))%nat →
  check_kwargs (kw ∪ default_params) = None →
  optimize (kw ∪ default_params) (frows df) = inr th →
  ∃ m s' last,
    fit_prophet_model check_kwargs optimize (DataFrame df) key kw s
      = (Normal (Some m), s') ∧
    prophet_model s' = Some (Some m) ∧ forecast s' = forecast s ∧
    history_dates m = Some (sorted_unique ((frows df).*1)) ∧
    params m = Some th ∧
    max_date (sorted_unique ((frows df).*1)) = Some last ∧
    last ∈ (frows df).*1.
Proof.
  intros Ht Hv Hlen Hck Hopt.
  destruct (max_date (sorted_unique (frows df).*1)) as [last|] eqn:Hlast.
  2:{ exfalso. unfold max_date in Hlast.
      destruct (sorted_unique (frows df).*1) as [|d l] eqn:Hs; [|done].
      unfold sorted_unique in Hs.
      assert (remove_dups (frows df).*1 ≡ₚ []) as Hp
        by (by rewrite <-Hs, merge_sort_Permutation).
      apply Permutation_nil_r in Hp.
      destruct (frows df) as [|[d0 v0] rows]; [simpl in Hlen; lia|].
      assert (d0 ∈ remove_dups ((d0, v0) :: rows).*1) as Hin
        by (apply elem_of_remove_dups, elem_of_cons; by left).
      rewrite Hp in Hin. by apply elem_of_nil in Hin. }
  unfold fit_prophet_model. rewrite try_except_Exception.
  unfold fit_prophet_model_body, fit_and_return, Prophet_init, bind, lift.
  rewrite Hck. unfold Prophet_fit, bind, get, modify. simpl.
  rewrite Ht, Hv. rewrite (proj2 (Nat.ltb_ge _ _)) by lia.
  simpl. rewrite Hopt. simpl.
  do 2 eexists. exists last. split; [reflexivity|]. simpl.
  split_and!; try done.
  apply max_date_elem in Hlast. unfold sorted_unique in Hlast.
  rewrite merge_sort_Permutation in Hlast.
  by apply elem_of_remove_dups.
Qed.

End fit_facts.

Lemma valid_month_end (k : Z) : valid_date (month_end k).
Proof.
  unfold valid_date, month_end. simpl. split.
  - Z.to_euclidean_division_equations. lia.
  - unfold days_in_month. repeat case_match; lia.
Qed.

Lemma first_future_month_bounds (last : date) :
  month_index last ≤ first_future_month last ≤ month_index last + 1.
Proof. unfold first_future_month. case_decide; lia. Qed.

Lemma date_lt_future (last : date) (i : Z) :
  valid_date last → 0 ≤ i →
  date_lt last (month_end (first_future_month last + i)).
Proof.
  intros Hv Hi. unfold first_future_month.
  destruct (decide (day last = days_in_month (year last) (month last))).
  - apply date_lt_month_end; [done|lia].
  - destruct (decide (i = 0)) as [->|].
    + rewrite Z.add_0_r. by apply date_lt_own_month_end.
    + apply date_lt_month_end; [done|lia].
Qed.

Section horizon_claim.
Import tsa_forecasting example_session.



(** On the example session: a history that ends on 2020-12-01 and a
    horizon of three months give the dates 2020-12-31, 2021-01-31 and
    2021-02-28. *)
Lemma forecast_horizon_example :
  ds <$> drop 3 (default [] (forecast forecasted)) =
    [mk_date 2020 12 31; mk_date 2021 1 31; mk_date 2021 2 28].
Proof. vm_compute. reflexivity. Qed.

End horizon_claim.

(** * Further properties of the modelled code *)

(** ** The order of dates *)

Lemma date_lt_trichotomy (a b : date) : date_lt a b ∨ a = b ∨ date_lt b a.
Proof.
  destruct a as [y m d], b as [y' m' d']. unfold date_lt. simpl.
  destruct (decide (y = y')) as [->|]; [|lia].
  destruct (decide (m = m')) as [->|]; [|lia].
  destruct (decide (d = d')) as [->|]; [|lia].
  right. by left.
Qed.

Lemma date_lt_trans (a b c : date) : date_lt a b → date_lt b c → date_lt a c.
Proof. unfold date_lt. lia. Qed.

#[global] Instance date_le_total : Total date_le.
Proof.
  intros a b. unfold date_le.
  destruct (date_lt_trichotomy a b) as [?|[->|?]]; auto.
Qed.

#[global] Instance date_le_trans : Transitive date_le.
Proof.
  intros a b c [Hab| ->] [Hbc| ->]; unfold date_le; auto.
  left. by eapply date_lt_trans.
Qed.

Lemma StronglySorted_date_lt (l : list date) :
  Sorted date_le l → NoDup l → StronglySorted date_lt l.
Proof.
  intros Hs%Sorted_StronglySorted; [|apply _]. intros Hnd.
  induction Hs as [|x l _ IH Hall]; [constructor|].
  apply NoDup_cons in Hnd as [Hx Hnd]. constructor; [by apply IH|].
  apply Forall_forall. intros y Hy.
  destruct (proj1 (Forall_forall _ _) Hall y Hy) as [?| ->]; [done|].
  done.
Qed.

(** The groups of [groupby('Date')] come in strictly ascending order of
    date. *)
Lemma groupby_date_sorted {R} (Date : R → date) (rows : list R) :
  StronglySorted date_lt (groupby_date Date rows).*1.
Proof.
  apply StronglySorted_date_lt; [|apply NoDup_groupby_date].
  unfold groupby_date.
  apply (Sorted_fmap fst (λ g1 g2 : date * list R, date_le g1.1 g2.1) date_le).
  - done.
  - apply Sorted_merge_sort. intros g1 g2. apply date_le_total.
Qed.

Lemma groupby_agg_sorted {V} (agg : list V → V) (rows : list (date * V)) :
  StronglySorted date_lt
    ((λ g, (g.1, agg (g.2.*2))) <$> groupby_date fst rows).*1.
Proof. rewrite <-list_fmap_compose. apply groupby_date_sorted. Qed.

(** ** moving_average_analysis: countries, dates and windows *)

Section moving_average_more.
Import time_series_analysis.
Context {V : Type} `{Arith V}.
Implicit Types (rows : list (sale V)) (self : TimeSeriesAnalysis V).

Lemma zip_with_ma_row (agg : list (date * V)) (ma : list (option V)) :
  length ma = length agg →
  (λ r, (ma_date r, ma_sales r)) <$>
    zip_with (λ r m, mk_ma_row r.1 r.2 m) agg ma = agg ∧
  ma_moving_average <$> zip_with (λ r m, mk_ma_row r.1 r.2 m) agg ma = ma.
Proof.
  revert ma. induction agg as [|[d v] agg IH]; intros [|m ma] Hlen;
    simplify_eq/=; [done|].
  destruct (IH ma) as [-> ->]; done.
Qed.

Lemma length_rolling_mean (W : Z) (values : list V) ma :
  rolling_mean W values = Normal ma → length ma = length values.
Proof.
  unfold rolling_mean. repeat case_match; intros [=]; subst.
  - by rewrite length_fmap.
  - by rewrite length_roll_mean.
Qed.

(** Whatever the window, a frame that the loop body returns carries the
    per-date means of the country. *)
Lemma country_moving_average_columns (W : Z) rows c f :
  country_moving_average W rows c = Normal f →
  (λ r, (ma_date r, ma_sales r)) <$> f = country_means rows c ∧
  rolling_mean W ((country_means rows c).*2) = Normal (ma_moving_average <$> f).
Proof.
  unfold country_moving_average. cbv zeta. fold (country_means rows c).
  destruct (rolling_mean W (country_means rows c).*2) as [ma|e] eqn:Hma;
    [|done].
  intros [= <-]. apply length_rolling_mean in Hma.
  rewrite length_fmap in Hma.
  destruct (zip_with_ma_row (country_means rows c) ma Hma) as [-> ->]. done.
Qed.

Lemma country_moving_average_frame (W : Z) rows c :
  0 ≤ W → ∃ f, country_moving_average W rows c = Normal f.
Proof.
  intros HW. unfold country_moving_average, rolling_mean. cbv zeta.
  rewrite (proj2 (Z.ltb_ge _ _)) by lia. destruct (W =? 0); by eexists.
Qed.

Lemma country_moving_average_negative (W : Z) rows c :
  W < 0 →
  country_moving_average W rows c =
    Raised (mk_exn ValueError "window must be an integer 0 or greater").
Proof.
  intros HW. unfold country_moving_average, rolling_mean. cbv zeta.
  by rewrite (proj2 (Z.ltb_lt _ _)) by lia.
Qed.

(** The dict that the loop returns: the entries it started from, and one
    entry per country it went through. *)
Lemma moving_average_loop_spec (W : Z) rows cs acc res :
  moving_average_loop W rows cs acc = Normal res →
  ∀ c, res !! c =
       if decide (c ∈ cs)
       then match country_moving_average W rows c with
            | Normal f => Some f
            | Raised _ => None
            end
       else acc !! c.
Proof.
  revert acc. induction cs as [|c0 cs IH]; intros acc;
    cbn [moving_average_loop].
  - intros [= <-] c. rewrite decide_False; [done|]. apply not_elem_of_nil.
  - destruct (country_moving_average W rows c0) as [f0|e] eqn:Hf0; [|done].
    intros Hres c. rewrite (IH _ Hres c).
    destruct (decide (c ∈ cs)) as [Hin|Hin].
    + rewrite decide_True; [done|]. by apply elem_of_cons; right.
    + destruct (decide (c = c0)) as [->|Hne].
      * rewrite decide_True by (by apply elem_of_cons; left).
        by rewrite lookup_insert_eq, Hf0.
      * rewrite decide_False by (rewrite elem_of_cons; naive_solver).
        by rewrite lookup_insert_ne.
Qed.

Lemma moving_average_loop_Normal (W : Z) rows cs acc :
  0 ≤ W → ∃ res, moving_average_loop W rows cs acc = Normal res.
Proof.
  intros HW. revert acc. induction cs as [|c0 cs IH]; intros acc; simpl.
  - by eexists.
  - destruct (country_moving_average_frame W rows c0 HW) as [f0 ->].
    apply IH.
Qed.

(** With a non-negative window the method returns a dict and leaves the
    object as it was; the dict maps each country of the dataset, and
    nothing else, to the frame built by the loop body. *)
Lemma moving_average_analysis_dict self (W : Z) :
  0 ≤ W →
  ∃ res, moving_average_analysis W self = (Normal (Some res), self) ∧
    ∀ c, res !! c =
         if decide (c ∈ Country <$> input_data self)
         then match country_moving_average W (input_data self) c with
              | Normal f => Some f
              | Raised _ => None
              end
         else None.
Proof.
  intros HW.
  unfold moving_average_analysis, try_except, moving_average_body,
    bind, get, lift, ret.
  destruct (moving_average_loop_Normal W (input_data self)
              (elements (list_to_set (Country <$> input_data self)
                           : gset string)) ∅ HW) as [res Hres].
  rewrite Hres. exists res. split; [done|]. intros c.
  rewrite (moving_average_loop_spec _ _ _ _ _ Hres c), lookup_empty.
  destruct (decide (c ∈ Country <$> input_data self)) as [Hin|Hin].
  - rewrite decide_True; [done|].
    by apply elem_of_elements, elem_of_list_to_set.
  - rewrite decide_False; [done|].
    by rewrite elem_of_elements, elem_of_list_to_set.
Qed.

(** X1.  For every dataset and every window [W ≥ 0],
    [moving_average_analysis] returns a dict whose keys are exactly the
    countries that occur in the dataset, and leaves the object (dataset and
    log) unchanged. *)
Theorem moving_average_keys self (W : Z) :
  0 ≤ W →
  ∃ res, moving_average_analysis W self = (Normal (Some res), self) ∧
    dom res = (list_to_set (Country <$> input_data self) : gset string).
Proof.
  intros HW. destruct (moving_average_analysis_dict self W HW) as (res & Hr & Hl).
  exists res. split; [done|]. apply set_eq. intros c.
  rewrite elem_of_dom, elem_of_list_to_set, Hl.
  destruct (decide (c ∈ Country <$> input_data self)) as [Hin|Hin].
  - destruct (country_moving_average_frame W (input_data self) c HW) as [f ->].
    split; [done|]. by eexists.
  - split; [by intros [? ?]|done].
Qed.

(** X2.  A negative window: on a dataset with at least one row the method
    returns [None] and logs pandas' refusal of the window under "Could not
    group data"; on an empty dataset the loop never runs and the result is
    the empty dict. *)
Theorem moving_average_negative_window self (W : Z) :
  W < 0 →
  moving_average_analysis W self =
    match input_data self with
    | [] => (Normal (Some ∅), self)
    | _ =>
        (Normal None,
         mk_TimeSeriesAnalysis (input_data self)
           (log self ++
              ["Could not group data: window must be an integer 0 or greater"]))
    end.
Proof.
  intros HW.
  unfold moving_average_analysis, try_except, moving_average_body,
    bind, get, lift, ret.
  destruct (input_data self) as [|r rows] eqn:Hd.
  - simpl. by rewrite elements_empty.
  - destruct (elements (list_to_set (Country <$> r :: rows) : gset string))
      as [|c cs] eqn:Hel.
    + apply elements_empty_inv in Hel.
      assert (Country r ∈ (list_to_set (Country <$> r :: rows) : gset string))
        as Hin by (apply elem_of_list_to_set, elem_of_cons; by left).
      rewrite Hel in Hin. by apply elem_of_empty in Hin.
    + simpl. rewrite country_moving_average_negative by done. simpl.
      unfold log_error, modify. simpl. by rewrite Hd.
Qed.

Lemma moving_average_frame_columns self (W : Z) res c f :
  moving_average_analysis W self = (Normal (Some res), self) →
  0 ≤ W → res !! c = Some f →
  (λ r, (ma_date r, ma_sales r)) <$> f = country_means (input_data self) c.
Proof.
  intros Hres HW Hc.
  destruct (moving_average_analysis_dict self W HW) as (res' & Hr & Hl).
  rewrite Hres in Hr. simplify_eq. rewrite Hl in Hc.
  case_decide; [|done].
  destruct (country_moving_average W (input_data self) c) as [f'|] eqn:Hf;
    simplify_eq.
  by apply country_moving_average_columns in Hf as [? _].
Qed.

Lemma country_means_sorted rows c :
  StronglySorted date_lt (country_means rows c).*1.
Proof. unfold country_means, groupby_mean. apply groupby_agg_sorted. Qed.

(** X3.  The window only affects the [Moving_Average] column.  For two
    windows [W1, W2 ≥ 0] the method returns, for every country, frames with
    the same [Date] index and the same [Sales] column, and the index is
    strictly ascending. *)
Theorem moving_average_window_independent self (W1 W2 : Z) :
  0 ≤ W1 → 0 ≤ W2 →
  ∃ res1 res2,
    moving_average_analysis W1 self = (Normal (Some res1), self) ∧
    moving_average_analysis W2 self = (Normal (Some res2), self) ∧
    ∀ c f1, res1 !! c = Some f1 →
      ∃ f2, res2 !! c = Some f2 ∧
        ma_date <$> f1 = ma_date <$> f2 ∧
        ma_sales <$> f1 = ma_sales <$> f2 ∧
        StronglySorted date_lt (ma_date <$> f1).
Proof.
  intros HW1 HW2.
  destruct (moving_average_analysis_dict self W1 HW1) as (res1 & Hr1 & Hl1).
  destruct (moving_average_analysis_dict self W2 HW2) as (res2 & Hr2 & Hl2).
  exists res1, res2. split_and!; [done|done|]. intros c f1 Hc1.
  pose proof (moving_average_frame_columns self W1 res1 c f1 Hr1 HW1 Hc1)
    as Hcols1.
  destruct (country_moving_average_frame W2 (input_data self) c HW2)
    as [f2 Hf2].
  assert (res2 !! c = Some f2) as Hc2.
  { rewrite Hl2, Hf2. rewrite Hl1 in Hc1. by case_decide. }
  pose proof (moving_average_frame_columns self W2 res2 c f2 Hr2 HW2 Hc2)
    as Hcols2.
  exists f2. split; [done|].
  assert (ma_date <$> f1 = (country_means (input_data self) c).*1) as Hd1.
  { rewrite <-Hcols1. by rewrite <-list_fmap_compose. }
  split_and!.
  - rewrite Hd1, <-Hcols2. by rewrite <-list_fmap_compose.
  - transitivity ((country_means (input_data self) c).*2).
    + rewrite <-Hcols1. by rewrite <-list_fmap_compose.
    + rewrite <-Hcols2. by rewrite <-list_fmap_compose.
  - rewrite Hd1. apply country_means_sorted.
Qed.

End moving_average_more.

Lemma moving_average_keys_witness :
  ∃ res, time_series_analysis.moving_average_analysis 2 example_series
           = (Normal (Some res), example_series) ∧
         dom res =
           (list_to_set
              (Country <$> time_series_analysis.input_data example_series)
            : gset string).
Proof. apply (moving_average_keys example_series 2). lia. Defined.

Lemma moving_average_window_independent_witness :
  ∃ res1 res2,
    time_series_analysis.moving_average_analysis 2 example_series
      = (Normal (Some res1), example_series) ∧
    time_series_analysis.moving_average_analysis 5 example_series
      = (Normal (Some res2), example_series) ∧
    ∀ c f1, res1 !! c = Some f1 →
      ∃ f2, res2 !! c = Some f2 ∧
        time_series_analysis.ma_date <$> f1
          = time_series_analysis.ma_date <$> f2 ∧
        time_series_analysis.ma_sales <$> f1
          = time_series_analysis.ma_sales <$> f2 ∧
        StronglySorted date_lt (time_series_analysis.ma_date <$> f1).
Proof. apply (moving_average_window_independent example_series 2 5); lia. Defined.

Lemma moving_average_negative_window_witness :
  time_series_analysis.moving_average_analysis (-1) two_sales_one_month =
    (Normal None,
     time_series_analysis.mk_TimeSeriesAnalysis
       (time_series_analysis.input_data two_sales_one_month)
       ["Could not group data: window must be an integer 0 or greater"%string]).
Proof. apply (moving_average_negative_window two_sales_one_month (-1)). lia. Defined.

(** ** The latest date and the sorted distinct dates of a column *)

Lemma date_le_refl (d : date) : date_le d d.
Proof. by right. Qed.

Lemma date_le_not_lt (a b : date) : ¬ date_lt a b → date_le b a.
Proof.
  intros Hn. destruct (date_lt_trichotomy a b) as [?|[->|?]];
    [done|by right|by left].
Qed.

Lemma max_date_upper (l : list date) (m : date) :
  max_date l = Some m → ∀ d, d ∈ l → date_le d m.
Proof.
  destruct l as [|d0 l]; [done|]. simpl. intros [= <-].
  assert (∀ acc,
    let r := foldl (λ m d', if decide (date_lt m d') then d' else m) acc l in
    date_le acc r ∧ ∀ x, x ∈ l → date_le x r) as Hinv.
  { induction l as [|a l IH]; intros acc; simpl.
    - split; [apply date_le_refl|]. by intros x ?%elem_of_nil.
    - destruct (IH (if decide (date_lt acc a) then a else acc)) as [H1 H2].
      split.
      + destruct (decide (date_lt acc a)); [|done].
        transitivity a; [by left|done].
      + intros x [->|Hx]%elem_of_cons; [|by apply H2].
        destruct (decide (date_lt acc a)) as [Hlt|Hlt]; [done|].
        transitivity acc; [by apply date_le_not_lt|done]. }
  destruct (Hinv d0) as [H1 H2].
  intros d [->|Hd]%elem_of_cons; [done|by apply H2].
Qed.

Lemma remove_dups_NoDup {A} `{EqDecision A} (l : list A) :
  NoDup l → remove_dups l = l.
Proof.
  induction 1 as [|x l Hx _ IH]; [done|]. simpl.
  destruct (decide_rel elem_of x l); [done|by rewrite IH].
Qed.

Lemma length_sorted_unique (l : list date) :
  NoDup l → length (sorted_unique l) = length l.
Proof.
  intros Hnd. unfold sorted_unique.
  by rewrite merge_sort_Permutation, remove_dups_NoDup.
Qed.

Lemma max_date_is_Some (l : list date) : l ≠ [] → is_Some (max_date l).
Proof. destruct l; [done|]. by eexists. Qed.

Lemma sorted_unique_nil_inv (l : list date) : sorted_unique l = [] → l = [].
Proof.
  unfold sorted_unique. intros Hs.
  assert (remove_dups l ≡ₚ []) as Hp
    by (by rewrite <-Hs, merge_sort_Permutation).
  apply Permutation_nil_r in Hp. destruct l as [|d l]; [done|].
  assert (d ∈ remove_dups (d :: l)) as Hin
    by (apply elem_of_remove_dups, elem_of_cons; by left).
  rewrite Hp in Hin. by apply elem_of_nil in Hin.
Qed.

(** ** Slices *)

Lemma py_slice_fmap {A B} (f : A → B) (a b : Z) (l : list A) :
  f <$> py_slice a b l = py_slice a b (f <$> l).
Proof. unfold py_slice. by rewrite fmap_take, fmap_drop, length_fmap. Qed.

Lemma py_slice_app_r {A} (l1 l2 : list A) (n : Z) :
  0 ≤ n →
  py_slice (Z.of_nat (length l1)) (Z.of_nat (length l1) + n) (l1 ++ l2) =
  take (Z.to_nat n) l2.
Proof.
  intros Hn. unfold py_slice, py_clip. rewrite length_app.
  rewrite !(proj2 (Z.ltb_ge _ _)) by lia.
  rewrite (Z.min_l (Z.of_nat (length l1))) by lia.
  rewrite Nat2Z.id, drop_app_length.
  destruct (decide (n ≤ Z.of_nat (length l2))).
  - rewrite Z.min_l by lia. f_equal. lia.
  - rewrite Z.min_r by lia. rewrite !take_ge; [done|lia|lia].
Qed.

(** ** TSAForecasting: the frames of data_organization *)

Section organization_more.
Import tsa_forecasting.
Context {V : Type} `{Arith V} {theta : Type}.
Variable check_kwargs : gmap string kwarg → option exn.
Variable optimize : gmap string kwarg → list (date * V) → exn + theta.
Variable predictive : theta → date → V * V * V.
Implicit Types (s : TSAForecasting V theta) (m : Prophet theta).

(** What [fit] leaves in the session when it raises: the new Prophet
    object, without fitted parameters. *)
Lemma Prophet_fit_raised df kw e m' :
  Prophet_fit optimize df (mk_Prophet kw None None) = (Raised e, m') →
  params m' = None ∧ kwargs m' = kw.
Proof.
  unfold Prophet_fit, bind, get, modify, raise, lift. simpl.
  destruct df as [df|]; [|by intros [= <- <-]].
  destruct (time_col df), (value_col df); try by intros [= <- <-].
  destruct (length (frows df) <? 2)%nat; [by intros [= <- <-]|].
  simpl. destruct (optimize kw (frows df)); simpl; [|done].
  by intros [= <- <-].
Qed.

Lemma fit_prophet_model_DataFrame s df key kw :
  check_kwargs (kw ∪ default_params) = None →
  fit_prophet_model check_kwargs optimize (DataFrame df) key kw s =
    match Prophet_fit optimize (Some df)
            (mk_Prophet (kw ∪ default_params) None None) with
    | (Normal _, m') =>
        (Normal (Some m'),
         mk_TSAForecasting (data s) (model s) (forecast s) (Some (Some m'))
           (log s)
           (stdout s ++ ["Prophet model fitted successfully!"]
                     ++ ["Training data shape: (rows, 2)"]))
    | (Raised e, m') =>
        (Normal None,
         mk_TSAForecasting (data s) (model s) (forecast s) (Some (Some m'))
           (log s ++ ["Could not find model: " +:+ exn_msg e]) (stdout s))
    end.
Proof.
  intros Hck. unfold fit_prophet_model. rewrite try_except_Exception.
  unfold fit_prophet_model_body, fit_and_return, Prophet_init, bind, lift.
  rewrite Hck.
  destruct (Prophet_fit optimize (Some df) _) as [[[]|e] m']; simpl.
  - by rewrite <-app_assoc.
  - done.
Qed.

(** X4.  [data_organization] on a session that holds a dataset returns
    the Poland frame and the Germany frame, in this order, with the columns
    still named Date and Sales, one row per date in strictly ascending
    order, and leaves the session unchanged. *)
Theorem data_organization_frames s rows :
  data s = Some rows →
  ∃ poland germany,
    data_organization s = (Normal (Some (poland, germany)), s) ∧
    time_col poland = Date_name ∧ value_col poland = Sales_name ∧
    time_col germany = Date_name ∧ value_col germany = Sales_name ∧
    StronglySorted date_lt (frows poland).*1 ∧
    StronglySorted date_lt (frows germany).*1 ∧
    (∀ d, d ∈ (frows poland).*1 ↔ matching "Poland" d rows ≠ []) ∧
    (∀ d, d ∈ (frows germany).*1 ↔ matching "Germany" d rows ≠ []).
Proof.
  intros Hdata.
  unfold data_organization, try_except, data_organization_body,
    bind, get, ret.
  rewrite Hdata. do 2 eexists. split; [done|]. simpl.
  assert (∀ c d, d ∈ (groupby_sum (country_rows rows c)).*1 ↔
                 matching c d rows ≠ []) as Hdates.
  { intros c d. destruct (aggregates_groupby vsum c rows) as [_ Hagg].
    unfold groupby_sum, country_rows. rewrite list_elem_of_fmap. split.
    - intros ([d' v] & -> & Hin). by apply Hagg in Hin as [? _].
    - intros Hne. eexists (d, _). split; [done|]. apply Hagg. done. }
  split_and!; try done; try apply groupby_agg_sorted; apply Hdates.
Qed.

(** X5.  The frames of [data_organization] cannot be fitted as they
    are: whatever the dataset, fitting a frame whose columns are not named
    ds and y returns [None], logs one record and leaves an unfitted Prophet
    object in the session; the stored forecast is not touched. *)
Theorem fit_needs_ds_y s df key kw :
  check_kwargs (kw ∪ default_params) = None →
  time_col df ≠ ds_name ∨ value_col df ≠ y_name →
  ∃ e s',
    fit_prophet_model check_kwargs optimize (DataFrame df) key kw s
      = (Normal None, s') ∧
    exn_cls e = ValueError ∧
    log s' = log s ++ ["Could not find model: " +:+ exn_msg e] ∧
    prophet_model s' =
      Some (Some (mk_Prophet (kw ∪ default_params) None None)) ∧
    forecast s' = forecast s ∧ stdout s' = stdout s.
Proof.
  intros Hck Hcols. rewrite fit_prophet_model_DataFrame by done.
  unfold Prophet_fit, bind, get, raise. simpl.
  destruct (time_col df), (value_col df);
    try (eexists (mk_exn ValueError _), _; split; [reflexivity|]; simpl;
         split_and!; reflexivity).
  destruct Hcols; congruence.
Qed.

(** X6.  A fit that fails does not leave the previous model in place,
    and the previous forecast stays stored.  When [fit_prophet_model]
    returns [None] for a frame, the next [forecast_sales] returns [None] as
    well, and the session still holds the forecast it held before the fit,
    which is what [get_forecast_summary] and [plot_forecast] then read. *)
Theorem failed_fit_keeps_forecast s df key kw data_ (horizon : Z) key' :
  check_kwargs (kw ∪ default_params) = None →
  (fit_prophet_model check_kwargs optimize (DataFrame df) key kw s).1
    = Normal None →
  ∃ s1 s2,
    fit_prophet_model check_kwargs optimize (DataFrame df) key kw s
      = (Normal None, s1) ∧
    forecast_sales predictive data_ horizon key' s1 = (Normal None, s2) ∧
    unfitted s1 ∧ unfitted s2 ∧
    forecast s1 = forecast s ∧ forecast s2 = forecast s.
Proof.
  intros Hck. rewrite fit_prophet_model_DataFrame by done.
  destruct (Prophet_fit optimize (Some df) _) as [[[]|e] m'] eqn:Hfit;
    [done|]. intros _.
  apply Prophet_fit_raised in Hfit as [Hpar _].
  eexists. 
  destruct (forecast_sales_unfitted predictive data_ horizon key'
              (mk_TSAForecasting (data s) (model s) (forecast s)
                 (Some (Some m'))
                 (log s ++ ["Could not find model: " +:+ exn_msg e])
                 (stdout s)))
    as (s2 & Hfc & Hf2 & Hm2 & _); [done|].
  exists s2. split; [reflexivity|]. split; [done|].
  split_and!; [done| |done|done].
  unfold unfitted. by rewrite Hm2.
Qed.

(** X7.  [forecast_sales] does not use the rows of its [data] argument:
    for any two arguments that resolve to a frame, the call returns the same
    forecast and leaves the same session.  The forecast is always made over
    the dates the model was fitted on. *)
Theorem forecast_sales_ignores_data s data1 key1 hist1 data2 key2 hist2 (horizon : Z) :
  forecast_input data1 key1 = Some hist1 →
  forecast_input data2 key2 = Some hist2 →
  forecast_sales predictive data1 horizon key1 s =
  forecast_sales predictive data2 horizon key2 s.
Proof.
  intros H1 H2. unfold forecast_sales. rewrite !try_except_Exception.
  unfold forecast_sales_body, bind, get.
  destruct (prophet_model s) as [[m|]|]; [|done|done].
  by rewrite (forecast_input_resolved _ _ _ _ H1),
             (forecast_input_resolved _ _ _ _ H2).
Qed.

(** X8.  A horizon of 0 or of -1 month on a fitted session is accepted:
    the forecast that is returned and stored has one row per historical
    date and no future row. *)
Theorem forecast_sales_no_future s m hd th data_ key hist (horizon : Z) :
  prophet_model s = Some (Some m) →
  history_dates m = Some hd → hd ≠ [] → params m = Some th →
  forecast_input data_ key = Some hist →
  -1 ≤ horizon ≤ 0 →
  ∃ fc s',
    forecast_sales predictive data_ horizon key s = (Normal (Some fc), s') ∧
    forecast s' = Some fc ∧ ds <$> fc = hd.
Proof.
  intros Hm Hhd Hne Hth Hin HH.
  destruct (max_date_is_Some hd Hne) as [last Hlast].
  assert (make_future_dataframe m horizon = Normal hd) as Hfut.
  { unfold make_future_dataframe, date_range_M. rewrite Hhd, Hlast.
    rewrite (proj2 (Z.ltb_ge _ _)) by lia.
    assert (horizon = 0 ∨ horizon = -1) as [-> | ->] by lia.
    - rewrite py_slice_empty by lia. by rewrite app_nil_r.
    - simpl. by rewrite app_nil_r. }
  unfold forecast_sales. rewrite try_except_Exception.
  unfold forecast_sales_body, bind, get. rewrite Hm.
  rewrite (forecast_input_resolved _ _ _ _ Hin).
  unfold lift. rewrite Hfut.
  destruct (ds_predict predictive m th hd Hth) as (fc & -> & Hds).
  do 2 eexists. split; [reflexivity|]. split; [done|]. done.
Qed.

End organization_more.

(** ** TSAForecasting: from the fit to the summary *)

Lemma month_end_own_month (d : date) :
  1 ≤ month d ≤ 12 →
  month_end (month_index d) =
    mk_date (year d) (month d) (days_in_month (year d) (month d)).
Proof.
  intros Hm. destruct d as [y m d]. simpl in *.
  unfold month_end, month_index. simpl.
  assert ((y * 12 + (m - 1)) / 12 = y) as ->
    by (Z.to_euclidean_division_equations; lia).
  assert ((y * 12 + (m - 1)) mod 12 + 1 = m) as ->
    by (Z.to_euclidean_division_equations; lia).
  done.
Qed.

Lemma days_in_month_ge_28 (y m : Z) : 28 ≤ days_in_month y m.
Proof. unfold days_in_month. repeat case_match; lia. Qed.

Section summary_more.
Import tsa_forecasting.
Context {V : Type} `{Arith V} {theta : Type}.
Variable check_kwargs : gmap string kwarg → option exn.
Variable optimize : gmap string kwarg → list (date * V) → exn + theta.
Variable predictive : theta → date → V * V * V.
Implicit Types (s : TSAForecasting V theta) (m : Prophet theta).

(** The summary of a non-empty selection of forecast rows. *)
Lemma get_forecast_summary_value data_ hist perioDate fc s r yl :
  forecast s = Some fc →
  historical_of data_ = Some hist →
  value_col hist = y_name →
  last (py_slice (Z.of_nat (length (frows hist)))
          (Z.of_nat (length (frows hist)) + perioDate) fc) = Some r →
  last ((frows hist).*2) = Some yl →
  let fut := py_slice (Z.of_nat (length (frows hist)))
               (Z.of_nat (length (frows hist)) + perioDate) fc in
  ∃ s',
    get_forecast_summary data_ perioDate s =
      (Normal (Some (mk_summary (vsum (yhat <$> fut)) (vmean (yhat <$> fut))
                       (vmin (yhat_lower <$> fut)) (vmax (yhat_upper <$> fut))
                       (vmul (vsub (vdiv (yhat r) yl) (vofZ 1)) (vofZ 100)),
                     fut)), s') ∧
    data s' = data s ∧ forecast s' = forecast s ∧
    prophet_model s' = prophet_model s ∧ log s' = log s.
Proof.
  intros Hf Hh Hy Hr Hyl fut.
  unfold get_forecast_summary. rewrite try_except_FileNotFound.
  unfold get_forecast_summary_body, bind, get. rewrite Hf.
  rewrite (summary_history _ _ _ Hh). fold fut.
  unfold iloc_last. rewrite fmap_last. fold fut in Hr. rewrite Hr. simpl.
  rewrite Hy. simpl. rewrite Hyl. simpl.
  eexists. split; [reflexivity|]. simpl. by rewrite Hf.
Qed.

(** X9.  Fit, forecast and summary on one frame.  For a frame with
    columns ds and y, at least two rows and distinct valid dates, a fit that
    Prophet accepts followed by [forecast_sales] and [get_forecast_summary]
    with the same horizon [horizon ≥ 1] yields a summary over exactly the
    [horizon] future rows of the forecast: the month ends that follow the
    latest date of the frame.  The total is the sum of their point
    forecasts and the growth rate compares the last of them with the last
    value of the frame. *)
Theorem fit_forecast_summary s df kw th (horizon : Z) :
  time_col df = ds_name → value_col df = y_name →
  (2 ≤ length (frows df))%nat →
  NoDup (frows df).*1 → Forall valid_date (frows df).*1 →
  check_kwargs (kw ∪ default_params) = None →
  optimize (kw ∪ default_params) (frows df) = inr th →
  1 ≤ horizon →
  ∃ m s1 fc s2 sm fut s3 final yl r,
    fit_prophet_model check_kwargs optimize (DataFrame df) None kw s
      = (Normal (Some m), s1) ∧
    forecast_sales predictive (DataFrame df) horizon None s1
      = (Normal (Some fc), s2) ∧
    get_forecast_summary (DataFrame df) horizon s2
      = (Normal (Some (sm, fut)), s3) ∧
    final ∈ (frows df).*1 ∧ (∀ d, d ∈ (frows df).*1 → date_le d final) ∧
    fut = drop (length (frows df)) fc ∧
    ds <$> fut =
      (λ i, month_end (first_future_month final + i)) <$> seqZ 0 horizon ∧
    Total_Forecast_Sales sm = vsum (yhat <$> fut) ∧
    Average_Monthly_Sales sm = Some (vavg (yhat <$> fut)) ∧
    last fut = Some r ∧ last (frows df).*2 = Some yl ∧
    Sales_Growth_Rate sm =
      vmul (vsub (vdiv (yhat r) yl) (vofZ 1)) (vofZ 100).
Proof.
  intros Ht Hv Hlen Hnd Hvalid Hck Hopt Hh.
  destruct (fit_prophet_model_fitted check_kwargs optimize s df None kw th)
    as (m & s1 & final & Hfit & Hm1 & _ & Hhd & Hth & Hmax & Hfin); try done.
  assert (valid_date final) as Hvf
    by (by apply (proj1 (Forall_forall _ _) Hvalid)).
  destruct (forecast_sales_fitted predictive s1 m
              (sorted_unique (frows df).*1) th final (DataFrame df)
              None df horizon) as (fc & s2 & Hfc & Hf2 & Hds);
    try done; [lia|].
  set (n := Z.of_nat (length (frows df))).
  set (future := (λ i, month_end (first_future_month final + i)) <$>
                   seqZ 0 horizon) in *.
  assert (length future = Z.to_nat horizon) as Hlf
    by (unfold future; by rewrite length_fmap, length_seqZ).
  assert (length (sorted_unique (frows df).*1) = length (frows df)) as Hlhd
    by (by rewrite length_sorted_unique, length_fmap).
  assert (length fc = (length (frows df) + Z.to_nat horizon)%nat) as Hlfc.
  { rewrite <-(length_fmap ds), Hds, length_app. lia. }
  assert (py_slice n (n + horizon) fc = drop (length (frows df)) fc) as Hsl.
  { unfold py_slice, py_clip, n.
    rewrite !(proj2 (Z.ltb_ge _ _)) by lia.
    rewrite Z.min_l by lia. rewrite Z.min_l by lia.
    rewrite Nat2Z.id. apply take_ge. rewrite length_drop. lia. }
  assert (ds <$> drop (length (frows df)) fc = future) as Hdsf.
  { rewrite fmap_drop, Hds, <-Hlhd. by rewrite drop_app_length. }
  destruct (last (drop (length (frows df)) fc)) as [r|] eqn:Hr.
  2:{ apply last_None in Hr. rewrite Hr in Hdsf.
      destruct future; [simpl in Hlf; lia|done]. }
  destruct (last (frows df).*2) as [yl|] eqn:Hyl.
  2:{ apply last_None, fmap_nil_inv in Hyl. rewrite Hyl in Hlen.
      simpl in Hlen. lia. }
  destruct (get_forecast_summary_value (DataFrame df) df horizon fc s2 r yl)
    as (s3 & Hsum & _); try done.
  { fold n. by rewrite Hsl. }
  cbv zeta in Hsum. fold n in Hsum. rewrite Hsl in Hsum.
  exists m, s1, fc, s2. do 2 eexists. exists s3, final, yl, r.
  split_and!; try done.
  - intros d Hd. apply (max_date_upper _ _ Hmax).
    unfold sorted_unique. rewrite merge_sort_Permutation.
    by apply elem_of_remove_dups.
  - simpl. unfold vmean.
    destruct (yhat <$> drop (length (frows df)) fc) eqn:Hy; [|done].
    apply fmap_nil_inv in Hy. by rewrite Hy in Hr.
Qed.

(** X10.  When the latest date the model was fitted on is the first day
    of a month, the first forecast row beyond the history is dated on the
    last day of that same month: the horizon starts in the month of the
    last observation, not in the month after it. *)
Theorem forecast_starts_in_last_month s m hd th final data_ key hist
    (horizon : Z) :
  prophet_model s = Some (Some m) →
  history_dates m = Some hd → params m = Some th →
  max_date hd = Some final → valid_date final → day final = 1 →
  forecast_input data_ key = Some hist →
  1 ≤ horizon →
  ∃ fc s',
    forecast_sales predictive data_ horizon key s = (Normal (Some fc), s') ∧
    (ds <$> fc) !! length hd =
      Some (mk_date (year final) (month final)
              (days_in_month (year final) (month final))).
Proof.
  intros Hm Hhd Hth Hmax Hv Hday Hin Hh.
  destruct (forecast_sales_fitted predictive s m hd th final data_ key hist
              horizon) as (fc & s' & Hfc & _ & Hds); try done; [lia|].
  exists fc, s'. split; [done|]. rewrite Hds.
  rewrite lookup_app_r by lia. rewrite Nat.sub_diag.
  rewrite seqZ_cons by lia. simpl. f_equal.
  unfold first_future_month. rewrite decide_False.
  - rewrite Z.add_0_r. apply month_end_own_month. apply Hv.
  - pose proof (days_in_month_ge_28 (year final) (month final)). lia.
Qed.

End summary_more.

Section forecasting_witnesses.
Import tsa_forecasting example_session.

Lemma data_organization_frames_witness :
  ∃ poland germany,
    data_organization
      (__init__ (theta := unit)
         (Some (time_series_analysis.input_data example_series)))
    = (Normal (Some (poland, germany)),
       __init__ (Some (time_series_analysis.input_data example_series))) ∧
    StronglySorted date_lt (frows germany).*1.
Proof.
  destruct (data_organization_frames (theta := unit)
              (__init__ (Some (time_series_analysis.input_data example_series)))
              (time_series_analysis.input_data example_series) eq_refl)
    as (p & g & Hrun & _ & _ & _ & _ & _ & Hs & _).
  by exists p, g.
Defined.

Lemma fit_needs_ds_y_witness :
  ∃ s', fit_prophet_model check_kwargs optimize
          (DataFrame (mk_frame Date_name Sales_name (frows history))) None ∅
          fresh = (Normal None, s') ∧
        forecast s' = None.
Proof.
  destruct (fit_needs_ds_y check_kwargs optimize fresh
              (mk_frame Date_name Sales_name (frows history)) None ∅)
    as (e & s' & Hrun & _ & _ & _ & Hf & _).
  - reflexivity.
  - left. simpl. discriminate.
  - by exists s'.
Defined.

(** A frame with a single row, which Prophet refuses to fit. *)
Lemma failed_fit_keeps_forecast_witness :
  ∃ s1 s2,
    fit_prophet_model check_kwargs optimize
      (DataFrame (mk_frame ds_name y_name [(mk_date 2021 1 1, 5%float)]))
      None ∅ forecasted = (Normal None, s1) ∧
    forecast_sales predictive (DataFrame history) 3 None s1
      = (Normal None, s2) ∧
    forecast s2 = forecast forecasted.
Proof.
  destruct (failed_fit_keeps_forecast check_kwargs optimize predictive
              forecasted
              (mk_frame ds_name y_name [(mk_date 2021 1 1, 5%float)])
              None ∅ (DataFrame history) 3 None)
    as (s1 & s2 & H1 & H2 & _ & _ & _ & H3).
  - reflexivity.
  - vm_compute. reflexivity.
  - by exists s1, s2.
Defined.

Lemma forecast_sales_ignores_data_witness :
  forecast_sales predictive (DataFrame history) 3 None fitted =
  forecast_sales predictive
    (Dict [("Poland"%string, mk_frame Date_name Sales_name [])]) 3 None fitted.
Proof.
  apply (forecast_sales_ignores_data predictive fitted
           (DataFrame history) None history
           (Dict [("Poland"%string, mk_frame Date_name Sales_name [])]) None
           (mk_frame Date_name Sales_name [])); reflexivity.
Defined.

Lemma forecast_sales_no_future_witness :
  ∃ fc s',
    forecast_sales predictive (DataFrame history) 0 None fitted
      = (Normal (Some fc), s') ∧
    forecast s' = Some fc ∧
    ds <$> fc = [mk_date 2020 10 1; mk_date 2020 11 1; mk_date 2020 12 1].
Proof.
  apply (forecast_sales_no_future predictive fitted
           (mk_Prophet (∅ ∪ default_params)
              (Some [mk_date 2020 10 1; mk_date 2020 11 1; mk_date 2020 12 1])
              (Some tt))
           [mk_date 2020 10 1; mk_date 2020 11 1; mk_date 2020 12 1] tt
           (DataFrame history) None history 0).
  - vm_compute. reflexivity.
  - reflexivity.
  - done.
  - reflexivity.
  - reflexivity.
  - lia.
Defined.

Lemma fit_forecast_summary_witness :
  ∃ sm fut s3,
    get_forecast_summary (DataFrame history) 3 forecasted
      = (Normal (Some (sm, fut)), s3) ∧
    ds <$> fut =
      (λ i, month_end (first_future_month (mk_date 2020 12 1) + i)) <$>
        seqZ 0 3 ∧
    Total_Forecast_Sales sm = vsum (yhat <$> fut).
Proof.
  destruct (fit_forecast_summary check_kwargs optimize predictive fresh
              history ∅ tt 3)
    as (m & s1 & fc & s2 & sm & fut & s3 & final & yl & r &
        H1 & H2 & H3 & Hfin & Hle & _ & Hds & Htot & _).
  - reflexivity.
  - reflexivity.
  - simpl. lia.
  - apply (bool_decide_unpack _). vm_compute. exact I.
  - apply (bool_decide_unpack _). vm_compute. exact I.
  - reflexivity.
  - reflexivity.
  - lia.
  - assert (final = mk_date 2020 12 1) as ->.
    { simpl in Hfin, Hle.
      assert (date_le (mk_date 2020 12 1) final) as Hl
        by (apply Hle; set_solver).
      set_unfold in Hfin. destruct Hfin as [->|[->|[->|[]]]];
        [exfalso..|done].
      - revert Hl. unfold date_le, date_lt. simpl. intros [?|[=]]. lia.
      - revert Hl. unfold date_le, date_lt. simpl. intros [?|[=]]. lia. }
    exists sm, fut, s3. split_and!; [|done|done].
    unfold forecasted, fitted. rewrite H1. cbn [snd]. rewrite H2. cbn [snd].
    exact H3.
Defined.

Lemma forecast_starts_in_last_month_witness :
  ∃ fc s',
    forecast_sales predictive (DataFrame history) 3 None fitted
      = (Normal (Some fc), s') ∧
    (ds <$> fc) !! 3%nat = Some (mk_date 2020 12 31).
Proof.
  apply (forecast_starts_in_last_month predictive fitted
           (mk_Prophet (∅ ∪ default_params)
              (Some [mk_date 2020 10 1; mk_date 2020 11 1; mk_date 2020 12 1])
              (Some tt))
           [mk_date 2020 10 1; mk_date 2020 11 1; mk_date 2020 12 1] tt
           (mk_date 2020 12 1) (DataFrame history) None history 3).
  - vm_compute. reflexivity.
  - reflexivity.
  - reflexivity.
  - vm_compute. reflexivity.
  - apply (bool_decide_unpack _). vm_compute. exact I.
  - reflexivity.
  - reflexivity.
  - lia.
Defined.

End forecasting_witnesses.

(** ** Grouping by several columns *)

Section groupby_keys_facts.
Context {K R : Type} `{EqDecision K} (le : relation K) `{!RelDecision le}.
Context (key : R → K).

Lemma groupby_keys_Permutation (rows : list R) :
  groupby_keys le key rows ≡ₚ factorize key rows.
Proof. unfold groupby_keys. apply merge_sort_Permutation. Qed.

Lemma elem_of_groupby_keys k (ms : list R) rows :
  (k, ms) ∈ groupby_keys le key rows ↔
  ms = filter (λ r, key r = k) rows ∧ ms ≠ [].
Proof. rewrite groupby_keys_Permutation. apply elem_of_factorize. Qed.

Lemma NoDup_groupby_keys rows : NoDup (groupby_keys le key rows).*1.
Proof. rewrite groupby_keys_Permutation. apply factorize_invariant. Qed.

(** Every row is in exactly one group. *)
Lemma add_to_group_concat (r : R) (gs : list (K * list R)) :
  mjoin (add_to_group key r gs).*2 ≡ₚ r :: mjoin gs.*2.
Proof.
  induction gs as [|[k ms] gs IH]; simpl; [done|].
  destruct (decide (key r = k)); simpl.
  - rewrite <-app_assoc. simpl. by rewrite <-Permutation_middle.
  - rewrite IH. by rewrite <-Permutation_middle.
Qed.

Lemma factorize_concat (rows : list R) :
  mjoin (factorize key rows).*2 ≡ₚ rows.
Proof.
  unfold factorize. induction rows as [|r rows IH] using rev_ind; [done|].
  rewrite foldl_app. simpl. rewrite add_to_group_concat, IH.
  by rewrite Permutation_cons_append.
Qed.

Lemma groupby_keys_concat (rows : list R) :
  mjoin (groupby_keys le key rows).*2 ≡ₚ rows.
Proof. by rewrite groupby_keys_Permutation, factorize_concat. Qed.

End groupby_keys_facts.

Lemma groupby_date_concat {R} (Date : R → date) (rows : list R) :
  mjoin (groupby_date Date rows).*2 ≡ₚ rows.
Proof.
  unfold groupby_date. by rewrite merge_sort_Permutation, factorize_concat.
Qed.

Lemma vsum_app (l1 l2 : list Qc) : vsum (l1 ++ l2) = (vsum l1 + vsum l2)%Qc.
Proof.
  induction l1 as [|x l1 IH]; simpl.
  - unfold vsum at 2. qc. simpl. ring.
  - rewrite !vsum_cons, IH. ring.
Qed.

Lemma vsum_concat (ls : list (list Qc)) : vsum (mjoin ls) = vsum (vsum <$> ls).
Proof.
  induction ls as [|l ls IH]; [done|].
  change (mjoin (l :: ls)) with (l ++ mjoin ls).
  by rewrite fmap_cons, vsum_app, vsum_cons, IH.
Qed.

Lemma vsum_groups {R} (val : R → Qc) (gs : list (list R)) :
  vsum ((λ g, vsum (val <$> g)) <$> gs) = vsum (val <$> mjoin gs).
Proof.
  induction gs as [|g gs IH]; [done|].
  change (mjoin (g :: gs)) with (g ++ mjoin gs).
  by rewrite fmap_cons, vsum_cons, fmap_app, vsum_app, IH.
Qed.

Lemma filter_fmap_key {R A} `{EqDecision K} (key : R → K) (f : R → K * A)
    (k : K) (rows : list R) :
  (∀ r, (f r).1 = key r) →
  filter (λ p : K * A, p.1 = k) (f <$> rows) =
  f <$> filter (λ r, key r = k) rows.
Proof.
  intros Hf. induction rows as [|r rows IH]; [done|].
  rewrite fmap_cons, !filter_cons, Hf.
  destruct (decide (key r = k)); by rewrite ?fmap_cons, IH.
Qed.

(** ** sale_trend *)

Section sale_trend_facts.
Import time_series_analysis.

(** X11.  For every dataset, [sale_trend] returns a line chart with one
    point per distinct date of the dataset, in strictly ascending order of
    date; the value at a date is the total of Sales over all rows of that
    date, the points are the series that [decompose_revenue] decomposes,
    and their values add up to the total of Sales over the dataset.  The
    object is left unchanged. *)
Theorem sale_trend_totals (self : TimeSeriesAnalysis Qc) :
  ∃ ch, time_series_charts.sale_trend self = (Normal (Some ch), self) ∧
    StronglySorted date_lt (px_x <$> chart_points ch) ∧
    length (chart_points ch) = n_dates (input_data self) ∧
    (∀ d v, mk_point d tt v ∈ chart_points ch ↔
       filter (λ r, Date r = d) (input_data self) ≠ [] ∧
       v = vsum (Sales <$> filter (λ r, Date r = d) (input_data self))) ∧
    px_y <$> chart_points ch = revenue_series (input_data self) ∧
    vsum (px_y <$> chart_points ch) = vsum (Sales <$> input_data self).
Proof.
  unfold time_series_charts.sale_trend, try_except,
    time_series_charts.sale_trend_body, bind, get, ret.
  eexists. split; [reflexivity|]. cbn [chart_points].
  set (rows := input_data self).
  set (rows' := (λ r, (Date r, Sales r)) <$> sort_values_date Date rows).
  assert (rows' ≡ₚ (λ r, (Date r, Sales r)) <$> rows) as Hperm.
  { unfold rows', sort_values_date. by rewrite merge_sort_Permutation. }
  split_and!.
  - rewrite <-list_fmap_compose.
    replace (px_x ∘ (λ r : date * Qc, mk_point r.1 () r.2))
      with (fst : date * Qc → date) by done.
    apply groupby_agg_sorted.
  - rewrite length_fmap. fold (revenue_series rows). unfold revenue_series.
    rewrite <-(length_fmap snd). apply length_decompose_input.
  - intros d v. rewrite list_elem_of_fmap.
    assert (filter (λ r : date * Qc, r.1 = d) rows' ≡ₚ
            (λ r, (Date r, Sales r)) <$> filter (λ r, Date r = d) rows)
      as Hf.
    { rewrite Hperm. by rewrite (filter_fmap_key Date). }
    split.
    + intros ([d' v'] & [= -> ->] & Hin).
      apply elem_of_groupby_agg in Hin as [Hne ->]. split.
      * intros Hnil. rewrite Hnil in Hf. by apply Permutation_nil_r in Hf.
      * apply vsum_Permutation. rewrite Hf. by rewrite <-list_fmap_compose.
    + intros [Hne ->]. exists (d, vsum (Sales <$> filter (λ r, Date r = d) rows)).
      split; [done|]. apply elem_of_groupby_agg. split.
      * intros Hnil. rewrite Hnil in Hf. apply Permutation_nil_l in Hf.
        symmetry in Hf. by apply fmap_nil_inv in Hf.
      * apply vsum_Permutation. rewrite Hf. by rewrite <-list_fmap_compose.
  - unfold revenue_series. by rewrite <-list_fmap_compose.
  - transitivity
      (vsum ((λ g, vsum (snd <$> g)) <$> (groupby_date fst rows').*2)).
    + f_equal. unfold groupby_sum. by rewrite <-!list_fmap_compose.
    + rewrite vsum_groups. apply vsum_Permutation.
      rewrite groupby_date_concat, Hperm. by rewrite <-list_fmap_compose.
Qed.

End sale_trend_facts.

(** ** The charts over several columns *)

Section charts_facts.
Import time_series_charts.

Lemma zip_level_points {K X C Y} (fx : K → X) (fc : K → C) (l : list (K * Y)) :
  zip_with (λ (xc : X * C) y, mk_point xc.1 xc.2 y)
    (zip (fx <$> l.*1) (fc <$> l.*1)) l.*2 =
  (λ g, mk_point (fx g.1) (fc g.1) g.2) <$> l.
Proof. induction l as [|[k y] l IH]; [done|]. simpl. f_equal. apply IH. Qed.

(** The levels of the index, and no other name, can be read. *)
Lemma get_level_values_level (level : string) :
  level ∈ ["Year"; "Sub-channel"; "Channel"; "Product Class"]%string →
  ∃ fc : growth_key → level_value,
    ∀ index, get_level_values level index = Normal (fc <$> index).
Proof.
  intros Hin. unfold get_level_values.
  repeat (apply elem_of_cons in Hin as [->|Hin]); [| | | |by apply elem_of_nil in Hin].
  - eexists. intros index. by rewrite decide_True.
  - eexists. intros index. rewrite decide_False by done.
    by rewrite decide_True.
  - eexists. intros index. rewrite !decide_False by done.
    by rewrite decide_True.
  - eexists. intros index. rewrite !decide_False by done.
    by rewrite decide_True.
Qed.

Lemma get_level_values_no_level (level : string) index :
  level ∉ ["Year"; "Sub-channel"; "Channel"; "Product Class"]%string →
  ∃ e, get_level_values level index = Raised e ∧ exn_cls e = KeyError.
Proof.
  intros Hin. unfold get_level_values.
  rewrite !decide_False; [by eexists|..];
    intros ->; apply Hin; set_solver.
Qed.

Section any_values.
Context {V : Type} `{Arith V}.

(** X12.  [growth_rate_analysis] accepts as [category] the four columns
    it groups by and nothing else.  For Year, Sub-channel, Channel and
    Product Class it returns a chart; for every other name, such as Sales
    Team or Country, the [KeyError] of the index lookup is not handled: it
    reaches the caller, and nothing is logged.  The object is unchanged
    either way. *)
Theorem growth_rate_analysis_levels (self : TimeSeriesAnalysis V)
    (category : string) :
  if decide (category ∈ ["Year"; "Sub-channel"; "Channel"; "Product Class"]%string)
  then ∃ ch, growth_rate_analysis category self = (Normal (Some ch), self)
  else ∃ e, growth_rate_analysis category self = (Raised e, self) ∧
            exn_cls e = KeyError.
Proof.
  unfold growth_rate_analysis, try_except, growth_rate_analysis_body,
    bind, get, lift, ret.
  destruct (get_level_values_level "Year") as [fx ->]; [set_solver|].
  destruct (decide (category ∈ _)) as [Hin|Hin].
  - destruct (get_level_values_level category Hin) as [fc ->]. by eexists.
  - match goal with
    | |- context [get_level_values category ?idx] =>
        destruct (get_level_values_no_level category idx Hin) as (e & -> & He)
    end.
    exists e. split; [|done]. simpl. unfold isinstance. simpl.
    rewrite He. done.
Qed.

(** X15.  For every dataset, [customer_trend] returns one point per
    (Date, Country) pair that occurs; its value is the number of rows of
    that pair whose Customer Name is not missing, and the values of all
    points add up to the number of rows of the dataset with a Customer
    Name.  The object is unchanged. *)
Theorem customer_trend_counts (self : TimeSeriesAnalysis V) :
  ∃ ch, customer_trend self = (Normal (Some ch), self) ∧
    NoDup ((λ p, (px_x p, px_color p)) <$> chart_points ch) ∧
    (∀ p, p ∈ chart_points ch ↔
       ∃ d c,
         let ms := filter (λ r, (Date (to_sale r), Country (to_sale r)) = (d, c))
                     (input_data self) in
         ms ≠ [] ∧
         p = mk_point d c (Z.of_nat (length (omap Customer_Name ms)))) ∧
    foldr Z.add 0 (px_y <$> chart_points ch) =
      Z.of_nat (length (omap Customer_Name (input_data self))).
Proof.
  unfold customer_trend, try_except, bind, get, ret.
  eexists. split; [reflexivity|]. cbn [chart_points].
  set (key := λ r : cleaned_row V, (Date (to_sale r), Country (to_sale r))).
  set (gs := groupby_keys (lex date_lt str_le) key (input_data self)).
  split_and!.
  - rewrite <-list_fmap_compose.
    rewrite (list_fmap_ext _ fst gs) by (by intros i [[d c] ms] _).
    apply (NoDup_groupby_keys _ key).
  - intros p. rewrite list_elem_of_fmap. split.
    + intros ([[d c] ms] & -> & Hin).
      apply elem_of_groupby_keys in Hin as [-> Hne].
      exists d, c. done.
    + intros (d & c & Hne & ->).
      eexists ((d, c), _). split; [done|].
      apply elem_of_groupby_keys. done.
  - rewrite <-list_fmap_compose.
    transitivity (Z.of_nat (length (omap Customer_Name (mjoin gs.*2)))).
    + generalize gs. intros l. induction l as [|[k ms] l IH]; [done|].
      cbn [fmap list_fmap foldr compose snd px_y].
      change (mjoin (ms :: l.*2)) with (ms ++ mjoin l.*2).
      rewrite omap_app, length_app, Nat2Z.inj_add. unfold count_Customer_Name.
      f_equal. apply IH.
    + f_equal. apply Permutation_length.
      apply omap_Permutation. apply groupby_keys_concat.
Qed.

End any_values.

Lemma mean_Sales_Permutation (g g' : list (cleaned_row Qc)) :
  g ≡ₚ g' → mean_Sales g = mean_Sales g'.
Proof. intros Hp. unfold mean_Sales. apply vavg_Permutation. by rewrite Hp. Qed.

(** The points of a chart of group means: one per key that occurs, with
    the mean of Sales over the rows of that key. *)
Lemma elem_of_mean_points {K X C} `{EqDecision K} (le : relation K)
    `{!RelDecision le} (key : cleaned_row Qc → K) (fx : K → X) (fc : K → C)
    (rows rows' : list (cleaned_row Qc)) p :
  rows' ≡ₚ rows →
  p ∈ (λ g, mk_point (fx g.1) (fc g.1) (mean_Sales g.2)) <$>
        groupby_keys le key rows' ↔
  ∃ k, filter (λ r, key r = k) rows ≠ [] ∧
       p = mk_point (fx k) (fc k) (mean_Sales (filter (λ r, key r = k) rows)).
Proof.
  intros Hperm. rewrite list_elem_of_fmap.
  assert (∀ k, filter (λ r, key r = k) rows' ≡ₚ filter (λ r, key r = k) rows)
    as Hf by (intros k; by rewrite Hperm).
  split.
  - intros ([k ms] & -> & Hin). apply elem_of_groupby_keys in Hin as [-> Hne].
    exists k. cbn [fst snd]. split.
    + intros Hnil. specialize (Hf k). rewrite Hnil in Hf.
      by apply Permutation_nil_r in Hf.
    + f_equal. by apply mean_Sales_Permutation.
  - intros (k & Hne & ->). exists (k, filter (λ r, key r = k) rows').
    cbn [fst snd]. split.
    + f_equal. symmetry. by apply mean_Sales_Permutation.
    + apply elem_of_groupby_keys. split; [done|].
      intros Hnil. specialize (Hf k). rewrite Hnil in Hf.
      by apply Permutation_nil_l in Hf.
Qed.

Lemma sort_values_Year_Permutation {V} (rows : list (cleaned_row V)) :
  sort_values_Year rows ≡ₚ rows.
Proof. unfold sort_values_Year. apply merge_sort_Permutation. Qed.

Lemma sort_values_Date_Permutation {V} (rows : list (cleaned_row V)) :
  sort_values_Date rows ≡ₚ rows.
Proof. unfold sort_values_Date. apply merge_sort_Permutation. Qed.

(** X13.  For each of the four categories it accepts,
    [growth_rate_analysis] draws exactly one bar per combination of Year,
    Sub-channel, Channel and Product Class that occurs in the dataset: the
    bars stand in one-to-one correspondence, position by position, with a
    list of these combinations in which none is repeated and none that
    occurs is missing.  The bar of a combination stands at its year, is
    coloured by the category's value, and its height is the mean of Sales
    over the rows of that combination. *)
Theorem growth_rate_bars (self : TimeSeriesAnalysis Qc) (category : string) :
  category ∈ ["Year"; "Sub-channel"; "Channel"; "Product Class"]%string →
  ∃ ch (keys : list growth_key),
    growth_rate_analysis category self = (Normal (Some ch), self) ∧
    NoDup keys ∧
    (∀ k, k ∈ keys ↔
       filter (λ r, (Year r, Sub_channel r, Channel r, Product_Class r) = k)
         (input_data self) ≠ []) ∧
    Forall2
      (λ (k : growth_key) p,
         px_x p = LInt k.1.1.1 ∧
         get_level_values category [k] = Normal [px_color p] ∧
         px_y p =
           mean_Sales
             (filter (λ r, (Year r, Sub_channel r, Channel r, Product_Class r) = k)
                (input_data self)))
      keys (chart_points ch).
Proof.
  intros Hin.
  unfold growth_rate_analysis, try_except, growth_rate_analysis_body,
    bind, get, lift, ret.
  destruct (get_level_values_level "Year") as [fx Hfx]; [set_solver|].
  destruct (get_level_values_level category Hin) as [fc Hfc].
  rewrite Hfx, Hfc.
  set (gs := groupby_keys growth_key_le
               (λ r : cleaned_row Qc, (Year r, Sub_channel r, Channel r, Product_Class r))
               (sort_values_Year (input_data self))).
  exists (mk_chart None
            (zip_with (λ (xc : level_value * level_value) y,
                         mk_point xc.1 xc.2 y)
               (zip (fx <$> ((λ g, (g.1, mean_Sales g.2)) <$> gs).*1)
                    (fc <$> ((λ g, (g.1, mean_Sales g.2)) <$> gs).*1))
               ((λ g, (g.1, mean_Sales g.2)) <$> gs).*2)), gs.*1.
  split; [reflexivity|]. cbn [chart_points].
  assert (∀ k, filter (λ r : cleaned_row Qc, (Year r, Sub_channel r, Channel r, Product_Class r) = k) (sort_values_Year (input_data self))
               ≡ₚ filter (λ r : cleaned_row Qc, (Year r, Sub_channel r, Channel r, Product_Class r) = k) (input_data self)) as Hf
    by (intros k; by rewrite sort_values_Year_Permutation).
  assert (∀ k : growth_key, fx k = LInt k.1.1.1) as Hx.
  { intros k. specialize (Hfx [k]). unfold get_level_values in Hfx.
    rewrite decide_True in Hfx by done. by simplify_eq/=. }
  split_and!.
  - apply (NoDup_groupby_keys _ (λ r : cleaned_row Qc, (Year r, Sub_channel r, Channel r, Product_Class r))).
  - intros k. rewrite list_elem_of_fmap. split.
    + intros ([k' ms] & -> & Hg). apply elem_of_groupby_keys in Hg as [-> Hne].
      cbn [fst]. intros Hnil. specialize (Hf k'). rewrite Hnil in Hf.
      by apply Permutation_nil_r in Hf.
    + intros Hne.
      exists (k, filter (λ r : cleaned_row Qc, (Year r, Sub_channel r, Channel r, Product_Class r) = k) (sort_values_Year (input_data self))).
      split; [done|]. apply elem_of_groupby_keys. split; [done|].
      intros Hnil. specialize (Hf k). rewrite Hnil in Hf.
      by apply Permutation_nil_l in Hf.
  - rewrite zip_level_points, <-list_fmap_compose.
    apply Forall2_fmap, Forall_Forall2_diag, Forall_forall.
    intros [k ms] Hg. apply elem_of_groupby_keys in Hg as [-> Hne].
    cbn [fst snd compose px_x px_color px_y].
    split_and!; [apply Hx|by rewrite Hfc|].
    by apply mean_Sales_Permutation.
Qed.

(** X14.  [sales_team_yearly_growth] plots, for every (Year, Sales Team)
    pair that occurs in the dataset, the mean of Sales over the rows of that
    pair, and [monthly_sales_trend_product] does the same for every (Date,
    Product Class) pair; neither plots anything else, and both leave the
    object unchanged. *)
Theorem group_mean_charts (self : TimeSeriesAnalysis Qc) :
  (∃ ch, sales_team_yearly_growth self = (Normal (Some ch), self) ∧
     ∀ p, p ∈ chart_points ch ↔
       ∃ yr team,
         let ms := filter (λ r, (Year r, Sales_Team r) = (yr, team))
                     (input_data self) in
         ms ≠ [] ∧ p = mk_point yr team (mean_Sales ms)) ∧
  (∃ ch, monthly_sales_trend_product self = (Normal (Some ch), self) ∧
     ∀ p, p ∈ chart_points ch ↔
       ∃ d class,
         let ms := filter (λ r, (Date (to_sale r), Product_Class r) = (d, class))
                     (input_data self) in
         ms ≠ [] ∧ p = mk_point d class (mean_Sales ms)).
Proof.
  split.
  - unfold sales_team_yearly_growth, try_except, bind, get, ret.
    eexists. split; [reflexivity|]. cbn [chart_points]. intros p.
    pose proof (elem_of_mean_points (lex Z.lt str_le)
      (λ r, (Year r, Sales_Team r)) fst snd
      (input_data self) (sort_values_Year (input_data self)) p
      (sort_values_Year_Permutation _)) as Hp.
    etransitivity; [apply Hp|]. split.
    + intros ([yr team] & ? & ->). by exists yr, team.
    + intros (yr & team & ? & ->). by exists (yr, team).
  - unfold monthly_sales_trend_product, try_except, bind, get, ret.
    eexists. split; [reflexivity|]. cbn [chart_points]. intros p.
    pose proof (elem_of_mean_points (lex date_lt str_le)
      (λ r, (Date (to_sale r), Product_Class r)) fst snd
      (input_data self) (sort_values_Date (input_data self)) p
      (sort_values_Date_Permutation _)) as Hp.
    etransitivity; [apply Hp|]. split.
    + intros ([d c] & ? & ->). by exists d, c.
    + intros (d & c & ? & ->). by exists (d, c).
Qed.

Lemma growth_rate_bars_witness :
  ∃ ch (keys : list growth_key),
    growth_rate_analysis "Channel" three_transactions
      = (Normal (Some ch), three_transactions) ∧
    NoDup keys ∧ length keys = length (chart_points ch).
Proof.
  destruct (growth_rate_bars three_transactions "Channel")
    as (ch & keys & Hrun & Hnd & _ & Hbars).
  - set_solver.
  - exists ch, keys. split; [done|]. split; [done|].
    by apply Forall2_length in Hbars.
Defined.

End charts_facts.

(** ** plot_forecast *)

Section plot_forecast_facts.
Import tsa_forecasting tsa_forecasting_plot.
Context {V : Type} `{Arith V} {theta : Type}.
Variable check_kwargs : gmap string kwarg → option exn.
Variable optimize : gmap string kwarg → list (date * V) → exn + theta.
Variable predictive : theta → date → V * V * V.
Implicit Types (s : TSAForecasting V theta) (h : frame V).

(** The three traces drawn from the stored forecast. *)
Lemma plot_forecast_figure s fc h (country_name : string) :
  forecast s = Some fc →
  time_col h = ds_name → value_col h = y_name →
  plot_forecast (Some h) country_name s =
    (Normal (Some (mk_Figure
       [ mk_Scatter (Some "Historical Sales") (frows h).*1 (frows h).*2;
         mk_Scatter (Some "Prophet Forecast") (ds <$> fc) (yhat <$> fc);
         mk_Scatter None (ds <$> fc) (yhat_upper <$> fc);
         mk_Scatter (Some "Confidence Interval") (ds <$> fc)
           (yhat_lower <$> fc) ]
       (if decide (country_name = "") then "Prophet Sales Forecast"
        else "Prophet Forecast for " +:+ country_name))), s).
Proof.
  intros Hf Ht Hv.
  unfold plot_forecast, try_except, plot_forecast_body, bind, get, ret.
  rewrite Hf. unfold getitem_ds, getitem_y, ret. by rewrite Ht, Hv.
Qed.

(** X16.  [plot_forecast] does not handle the [KeyError] of a history
    whose columns are not named ds and y, such as a frame that
    [data_organization] returns before the caller renames it: once a
    forecast is stored, the call raises to the caller, logs nothing and
    leaves the session unchanged. *)
Theorem plot_forecast_needs_ds_y s fc h (country_name : string) :
  forecast s = Some fc →
  time_col h ≠ ds_name ∨ value_col h ≠ y_name →
  ∃ e, plot_forecast (Some h) country_name s = (Raised e, s) ∧
       exn_cls e = KeyError.
Proof.
  intros Hf Hcols.
  unfold plot_forecast, try_except, plot_forecast_body, bind, get, ret.
  rewrite Hf. unfold getitem_ds, getitem_y, ret, raise.
  destruct (time_col h) eqn:Ht; try (by eexists).
  destruct (value_col h) eqn:Hv; try (by eexists).
  destruct Hcols; congruence.
Qed.

(** X17.  The chart after a failed fit.  If the session holds a forecast
    and a later [fit_prophet_model] fails inside Prophet, then
    [forecast_sales] returns [None] and [plot_forecast], called with the
    new history and country name, returns a figure under the new title
    whose forecast traces are those of the earlier forecast. *)
Theorem failed_fit_plots_earlier_forecast s fc df key kw data_ (horizon : Z)
    key' h (country_name : string) :
  forecast s = Some fc →
  check_kwargs (kw ∪ default_params) = None →
  (fit_prophet_model check_kwargs optimize (DataFrame df) key kw s).1
    = Normal None →
  time_col h = ds_name → value_col h = y_name →
  country_name ≠ ""%string →
  ∃ s1 s2 fig,
    fit_prophet_model check_kwargs optimize (DataFrame df) key kw s
      = (Normal None, s1) ∧
    forecast_sales predictive data_ horizon key' s1 = (Normal None, s2) ∧
    plot_forecast (Some h) country_name s2 = (Normal (Some fig), s2) ∧
    title fig = "Prophet Forecast for " +:+ country_name ∧
    traces fig =
      [ mk_Scatter (Some "Historical Sales") (frows h).*1 (frows h).*2;
        mk_Scatter (Some "Prophet Forecast") (ds <$> fc) (yhat <$> fc);
        mk_Scatter None (ds <$> fc) (yhat_upper <$> fc);
        mk_Scatter (Some "Confidence Interval") (ds <$> fc)
          (yhat_lower <$> fc) ].
Proof.
  intros Hf Hck Hfit Ht Hv Hc.
  rewrite fit_prophet_model_DataFrame in Hfit |- * by done.
  destruct (Prophet_fit optimize (Some df) _) as [[[]|e] m'] eqn:HPf;
    [done|]. clear Hfit.
  apply Prophet_fit_raised in HPf as [Hpar _].
  eexists.
  destruct (forecast_sales_unfitted predictive data_ horizon key'
              (mk_TSAForecasting (data s) (model s) (forecast s)
                 (Some (Some m'))
                 (log s ++ ["Could not find model: " +:+ exn_msg e])
                 (stdout s)))
    as (s2 & Hfc & Hf2 & _); [done|].
  simpl in Hf2. rewrite Hf in Hf2.
  exists s2. eexists. split; [reflexivity|]. split; [done|].
  rewrite (plot_forecast_figure s2 fc h country_name) by done.
  split; [reflexivity|]. simpl. by rewrite decide_False.
Qed.

End plot_forecast_facts.

Section plot_forecast_witnesses.
Import tsa_forecasting tsa_forecasting_plot example_session.

Lemma plot_forecast_needs_ds_y_witness :
  ∃ e, plot_forecast (Some (mk_frame Date_name Sales_name (frows history)))
         "Germany" forecasted = (Raised e, forecasted) ∧
       exn_cls e = KeyError.
Proof.
  destruct (forecast forecasted) as [fc|] eqn:Hfc; [|by vm_compute in Hfc].
  apply (plot_forecast_needs_ds_y forecasted fc
           (mk_frame Date_name Sales_name (frows history)) "Germany").
  - done.
  - left. simpl. discriminate.
Defined.

Lemma failed_fit_plots_earlier_forecast_witness :
  ∃ (s2 : TSAForecasting float unit) fig,
    plot_forecast (Some history) "Poland" s2 = (Normal (Some fig), s2) ∧
    title fig = "Prophet Forecast for Poland"%string ∧
    scatter_x <$> traces fig =
      [ (frows history).*1;
        ds <$> default [] (forecast forecasted);
        ds <$> default [] (forecast forecasted);
        ds <$> default [] (forecast forecasted) ].
Proof.
  destruct (forecast forecasted) as [fc|] eqn:Hfc; [|by vm_compute in Hfc].
  destruct (failed_fit_plots_earlier_forecast check_kwargs optimize predictive
              forecasted fc
              (mk_frame ds_name y_name [(mk_date 2021 1 1, 5%float)])
              None ∅ (DataFrame history) 3 None history "Poland")
    as (s1 & s2 & fig & _ & _ & Hplot & Htitle & Htraces).
  - done.
  - reflexivity.
  - vm_compute. reflexivity.
  - reflexivity.
  - reflexivity.
  - done.
  - exists s2, fig. split; [done|]. split; [done|]. by rewrite Htraces.
Defined.

End plot_forecast_witnesses.

(** ** The moving-average tables of the dashboard *)

Section app_facts.
Import time_series_analysis app.
Context {V : Type} `{Arith V}.
Implicit Types (self : TimeSeriesAnalysis V) (all : gmap string (ma_table V)).

Lemma reindex_cons_ne (idx : list date) d (c : option V) series :
  d ∉ idx → reindex idx ((d, c) :: series) = reindex idx series.
Proof.
  intros Hd. unfold reindex. apply list_fmap_ext. intros i d' Hi.
  assert (d ≠ d') as Hne.
  { intros ->. apply Hd. by eapply list_elem_of_lookup_2. }
  cbn [list_find]. rewrite decide_False by done.
  by destruct (list_find _ series) as [[j p]|].
Qed.

(** Aligning a series on its own index changes nothing. *)
Lemma reindex_same (idx : list date) (col : list (option V)) :
  NoDup idx → length col = length idx → reindex idx (zip idx col) = col.
Proof.
  intros Hnd. revert col.
  induction Hnd as [|d idx Hd _ IH]; intros [|c col] Hlen;
    simplify_eq/=; [done|].
  rewrite decide_True by done. f_equal.
  fold (reindex idx ((d, c) :: zip idx col)).
  rewrite reindex_cons_ne by done. by apply IH.
Qed.

Lemma column_name_inj : Inj (=) (=) column_name.
Proof.
  intros w1 w2 Hw. unfold column_name in Hw.
  apply (inj (String.app "Moving_Average")) in Hw. by apply (inj pretty).
Qed.

(** One pass of the inner loop over the items of a result dict. *)
Lemma foldl_merge_country (w : Z) (items : list (string * list (ma_row V)))
    all c :
  NoDup items.*1 →
  (∀ df, (c, df) ∈ items →
     foldl (merge_country w) all items !! c =
       Some (match all !! c with
             | None => rename_Moving_Average w df
             | Some table =>
                 setitem table (column_name w)
                   (zip (ma_date <$> df) (ma_moving_average <$> df))
             end)) ∧
  (c ∉ items.*1 → foldl (merge_country w) all items !! c = all !! c).
Proof.
  revert all. induction items as [|[c0 df0] items IH]; intros all Hnd.
  - split; [by intros df ?%elem_of_nil|done].
  - apply NoDup_cons in Hnd as [Hc0 Hnd]. cbn [foldl].
    destruct (IH (merge_country w all (c0, df0)) Hnd) as [IH1 IH2].
    split.
    + intros df [[= -> ->]|Hin]%elem_of_cons.
      * rewrite IH2 by done. unfold merge_country. cbn [fst snd].
        destruct (all !! c0); by rewrite lookup_insert_eq.
      * assert (c ≠ c0) as Hne.
        { intros ->. apply Hc0. apply list_elem_of_fmap. by exists (c0, df). }
        rewrite (IH1 df Hin). unfold merge_country. cbn [fst snd].
        destruct (all !! c0); by rewrite lookup_insert_ne.
    + intros Hnin. rewrite fmap_cons, not_elem_of_cons in Hnin.
      destruct Hnin as [Hne Hnin]. rewrite IH2 by done.
      unfold merge_country. cbn [fst snd] in *.
      destruct (all !! c0); by rewrite lookup_insert_ne.
Qed.

Lemma NoDup_country_means (rows : list (sale V)) c :
  NoDup (country_means rows c).*1.
Proof. unfold country_means, groupby_mean. apply NoDup_groupby_agg. Qed.

(** The tables after the windows [done] have been merged. *)
Lemma merge_windows_tables self (ws done : list Z) all :
  Forall (λ w, 0 ≤ w) ws → NoDup (done ++ ws) →
  (∀ c, match all !! c with
        | Some table =>
            c ∈ Country <$> input_data self ∧ done ≠ [] ∧
            index table = (country_means (input_data self) c).*1 ∧
            sales table = (country_means (input_data self) c).*2 ∧
            Forall2 (λ w col, col.1 = column_name w ∧
                       rolling_mean w (country_means (input_data self) c).*2
                         = Normal col.2) done (columns table)
        | None => done = [] ∨ c ∉ Country <$> input_data self
        end) →
  ∃ all', merge_windows ws all self = (Normal all', self) ∧
    ∀ c, match all' !! c with
         | Some table =>
             c ∈ Country <$> input_data self ∧ done ++ ws ≠ [] ∧
             index table = (country_means (input_data self) c).*1 ∧
             sales table = (country_means (input_data self) c).*2 ∧
             Forall2 (λ w col, col.1 = column_name w ∧
                        rolling_mean w (country_means (input_data self) c).*2
                          = Normal col.2) (done ++ ws) (columns table)
         | None => done ++ ws = [] ∨ c ∉ Country <$> input_data self
         end.
Proof.
  revert done all. induction ws as [|w ws IH]; intros done all Hpos Hnd Hinv.
  - exists all. split; [done|]. by rewrite app_nil_r.
  - apply Forall_cons in Hpos as [Hw Hpos].
    cbn [merge_windows]. unfold bind.
    destruct (moving_average_analysis_dict self w Hw) as (res & -> & Hres).
    rewrite cons_middle, app_assoc in Hnd |- *.
    apply IH; [done|done|]. clear IH.
    intros c.
    destruct (foldl_merge_country w (map_to_list res) all c
                (NoDup_fst_map_to_list res)) as [Hin Hnin].
    specialize (Hinv c). specialize (Hres c).
    destruct (decide (c ∈ Country <$> input_data self)) as [Hc|Hc].
    + destruct (country_moving_average w (input_data self) c) as [f|] eqn:Hf;
        [|destruct (country_moving_average_frame w (input_data self) c Hw)
            as [f' Hf']; congruence].
      rewrite (Hin f) by (by apply elem_of_map_to_list).
      apply country_moving_average_columns in Hf as [Hcols Hroll].
      assert (ma_date <$> f = (country_means (input_data self) c).*1) as Hd
        by (rewrite <-Hcols; by rewrite <-list_fmap_compose).
      assert (ma_sales <$> f = (country_means (input_data self) c).*2) as Hs
        by (rewrite <-Hcols; by rewrite <-list_fmap_compose).
      destruct (all !! c) as [table|].
      * destruct Hinv as (_ & Hdone & Hidx & Hsales & Hall).
        split; [done|]. split; [by destruct done|].
        cbn [setitem index sales columns]. split; [done|]. split; [done|].
        assert ((columns table).*1 = column_name <$> done) as Hnames.
        { clear -Hall. induction Hall as [|w' col ws' cols [Hn _] _ IH'];
            [done|]. simpl. f_equal; [apply Hn|apply IH']. }
        rewrite decide_False.
        2:{ rewrite Hnames, list_elem_of_fmap. intros (w' & Hw' & Hin').
            apply column_name_inj in Hw' as <-.
            apply NoDup_app in Hnd as (Hnd1 & _ & _).
            apply NoDup_app in Hnd1 as (_ & Hdis & _).
            apply (Hdis w Hin'). by apply list_elem_of_singleton. }
        apply Forall2_app; [done|]. constructor; [|constructor].
        cbn [fst snd]. split; [done|].
        rewrite Hidx, <-Hd. rewrite reindex_same; [done| |].
        -- rewrite Hd. apply NoDup_country_means.
        -- by rewrite !length_fmap.
      * destruct Hinv as [->|?]; [|done].
        split; [done|]. split; [done|].
        cbn [rename_Moving_Average index sales columns].
        split; [done|]. split; [done|].
        constructor; [|constructor]. done.
    + rewrite Hnin.
      2:{ intros ([c' f] & -> & Hf)%list_elem_of_fmap.
          apply elem_of_map_to_list in Hf. simpl in Hres. congruence. }
      destruct (all !! c) as [table|]; [by destruct Hinv|]. by right.
Qed.

(** X18.  The tables that the dashboard plots.  For every dataset the
    loop over the windows 2, 5 and 10 ends normally with one table per
    country of the dataset; the table has the country's dates as index, its
    per-date mean of Sales as the Sales column, and exactly the columns
    Moving_Average2, Moving_Average5 and Moving_Average10, in this order,
    each the rolling mean of the Sales column over the window of its
    name. *)
Theorem all_ma_results_columns self :
  ∃ all, all_ma_results self = (Normal all, self) ∧
    dom all = (list_to_set (Country <$> input_data self) : gset string) ∧
    ∀ c table, all !! c = Some table →
      index table = (country_means (input_data self) c).*1 ∧
      sales table = (country_means (input_data self) c).*2 ∧
      ∃ ma2 ma5 ma10,
        columns table =
          [ ("Moving_Average2"%string, ma2); ("Moving_Average5"%string, ma5);
            ("Moving_Average10"%string, ma10) ] ∧
        rolling_mean 2 (sales table) = Normal ma2 ∧
        rolling_mean 5 (sales table) = Normal ma5 ∧
        rolling_mean 10 (sales table) = Normal ma10.
Proof.
  destruct (merge_windows_tables self lag_by [] ∅) as (all & Hrun & Hall).
  { unfold lag_by. repeat constructor; lia. }
  { unfold lag_by. simpl. apply (bool_decide_unpack _). vm_compute. exact I. }
  { intros c. rewrite lookup_empty. by left. }
  exists all. split; [done|]. split.
  - apply set_eq. intros c. rewrite elem_of_dom, elem_of_list_to_set.
    specialize (Hall c). destruct (all !! c) as [table|].
    + split; [intros _; apply Hall|by eexists].
    + split; [by intros [? ?]|]. intros Hc. by destruct Hall.
  - intros c table Hc. specialize (Hall c). rewrite Hc in Hall.
    destruct Hall as (_ & _ & Hidx & Hsales & Hcols).
    split; [done|]. split; [done|]. rewrite Hsales.
    unfold lag_by in Hcols. simpl in Hcols.
    apply Forall2_cons_inv_l in Hcols as ([n2 ma2] & cols & [Hn2 H2] & Hcols & ->).
    apply Forall2_cons_inv_l in Hcols as ([n5 ma5] & cols' & [Hn5 H5] & Hcols & ->).
    apply Forall2_cons_inv_l in Hcols as ([n10 ma10] & cols'' & [Hn10 H10] & Hcols & ->).
    apply Forall2_nil_inv_l in Hcols as ->.
    simpl in *. subst. exists ma2, ma5, ma10. done.
Qed.

End app_facts.

(** ** os.path.splitext *)

Lemma string_app_cons (a : Ascii.ascii) (p q : string) :
  String a p +:+ q = String a (p +:+ q).
Proof. done. Qed.

Lemma rfind_from_app (c : Ascii.ascii) (p q : string) (i found : Z) :
  rfind_from c (p +:+ q) i found =
  rfind_from c q (i + Z.of_nat (String.length p)) (rfind_from c p i found).
Proof.
  revert i found. induction p as [|a p IH]; intros i found; simpl.
  - by rewrite Z.add_0_r.
  - rewrite IH. f_equal. lia.
Qed.

Lemma rfind_from_absent (c : Ascii.ascii) (q : string) (i found : Z) :
  Forall (λ a, a ≠ c) (String.list_ascii_of_string q) →
  rfind_from c q i found = found.
Proof.
  revert i. induction q as [|a q IH]; intros i Hq; simpl; [done|].
  apply Forall_cons in Hq as [Ha Hq]. rewrite decide_False by done.
  by apply IH.
Qed.

Lemma rfind_from_lt (c : Ascii.ascii) (p : string) (i found : Z) :
  found < i → rfind_from c p i found < i + Z.of_nat (String.length p).
Proof.
  revert i found. induction p as [|a p IH]; intros i found Hlt; simpl.
  - lia.
  - specialize (IH (i + 1) (if decide (a = c) then i else found)).
    destruct (decide (a = c)); lia.
Qed.

Lemma get_app_length (s0 : string) (a : Ascii.ascii) (r : string) :
  String.get (String.length s0) (s0 +:+ String a r) = Some a.
Proof. induction s0 as [|b s0 IH]; simpl; [done|apply IH]. Qed.

Lemma str_take_app_length (p q : string) :
  str_take (String.length p) (p +:+ q) = p.
Proof.
  induction p as [|a p IH]; [by destruct q|].
  rewrite string_app_cons. simpl. by rewrite IH.
Qed.

Lemma str_drop_app_length (p q : string) :
  str_drop (String.length p) (p +:+ q) = q.
Proof. induction p as [|a p IH]; simpl; [by destruct q|]. apply IH. Qed.

Lemma length_app_string (p q : string) :
  String.length (p +:+ q) = (String.length p + String.length q)%nat.
Proof.
  induction p as [|a p IH]; [done|].
  rewrite string_app_cons. simpl. by rewrite IH.
Qed.

(** The loop stops at the first character of the file name that is not a
    dot. *)
Lemma skip_leading_dots_found (p : string) (n filenameIndex dotIndex j : nat) :
  (filenameIndex ≤ j < filenameIndex + n)%nat →
  String.get j p ≠ Some extsep →
  skip_leading_dots p filenameIndex n dotIndex =
    (str_take dotIndex p, str_drop dotIndex p).
Proof.
  revert filenameIndex. induction n as [|n IH]; intros fi Hj Hget; [lia|].
  simpl. destruct (decide (String.get fi p = Some extsep)) as [Hdot|]; [|done].
  apply IH; [|done].
  destruct (decide (j = fi)) as [->|]; [done|lia].
Qed.

(** A name that ends in a dot and an extension, after a stem whose last
    character is neither a dot nor a slash, splits at that dot. *)
Lemma splitext_stem_ext (s0 : string) (a : Ascii.ascii) (e : string) :
  a ≠ extsep → a ≠ sep →
  Forall (λ c, c ≠ extsep ∧ c ≠ sep) (String.list_ascii_of_string e) →
  splitext (s0 +:+ String a (String extsep e)) =
    (s0 +:+ String a EmptyString, String extsep e).
Proof.
  intros Ha1 Ha2 He.
  set (stem := s0 +:+ String a EmptyString).
  assert (s0 +:+ String a (String extsep e) = stem +:+ String extsep e) as Hp.
  { unfold stem. clear. induction s0 as [|b s0 IH]; [done|].
    by rewrite !string_app_cons, IH. }
  assert (String.length stem = S (String.length s0)) as Hlen.
  { unfold stem. rewrite length_app_string. simpl. lia. }
  assert (rfind extsep (stem +:+ String extsep e) =
          Z.of_nat (String.length stem)) as Hdot.
  { unfold rfind. rewrite rfind_from_app. cbn [rfind_from].
    rewrite decide_True by done. rewrite rfind_from_absent; [lia|].
    eapply Forall_impl; [exact He|]. by intros c [? _]. }
  assert (rfind sep (stem +:+ String extsep e) <
          Z.of_nat (String.length s0)) as Hsep.
  { unfold rfind. rewrite rfind_from_app. cbn [rfind_from].
    rewrite decide_False by (intros [=]). rewrite rfind_from_absent.
    2:{ eapply Forall_impl; [exact He|]. by intros c [_ ?]. }
    unfold stem. rewrite rfind_from_app. cbn [rfind_from].
    rewrite decide_False by done.
    pose proof (rfind_from_lt sep s0 0 (-1)). lia. }
  assert (-1 ≤ rfind sep (stem +:+ String extsep e)) as Hsep0.
  { unfold rfind. generalize (stem +:+ String extsep e). intros p.
    assert (∀ i found, -1 ≤ found → 0 ≤ i → -1 ≤ rfind_from sep p i found)
      as Hge.
    { induction p as [|b p IH]; intros i found ? ?; simpl; [done|].
      apply IH; [destruct (decide (b = sep)); lia|lia]. }
    by apply Hge. }
  rewrite Hp. unfold splitext. rewrite Hdot.
  rewrite decide_True by lia. rewrite Nat2Z.id.
  rewrite (skip_leading_dots_found _ _ _ _ (String.length s0)).
  - by rewrite str_take_app_length, str_drop_app_length.
  - lia.
  - rewrite <-Hp, get_app_length. by intros [= ->].
Qed.

(** ** load_data *)

Lemma lower_extension (e : string) :
  lower (String extsep e) = ".csv"%string ↔ lower e = "csv"%string.
Proof.
  change (lower (String extsep e)) with (String (ascii_lower extsep) (lower e)).
  change (ascii_lower extsep) with extsep.
  change ".csv"%string with (String extsep "csv").
  split; [by intros [=]|by intros ->].
Qed.

Section load_data_facts.
Import data_handler.
Context {DataFrame : Type}.
Variable read_csv : input_arg → outcome DataFrame.
Implicit Types (x : input_arg) (s : DataHandler).

(** X19.  Excel workbooks are never loaded.  The result of [load_data]
    does not depend on [pd.read_excel], and for a file name that ends in a
    dot and an extension other than csv (in any letter case), after a stem
    that does not end in a dot or a slash, [load_data] returns [None] and
    logs the warning that asks for a csv, xls or xlsx file; so it does for
    names ending in .xlsx, .xls and .xlx. *)
Theorem load_data_not_csv (read_excel read_excel' : input_arg → outcome DataFrame)
    (s0 : string) (a : Ascii.ascii) (e : string) x s :
  a ≠ extsep → a ≠ sep →
  Forall (λ c, c ≠ extsep ∧ c ≠ sep) (String.list_ascii_of_string e) →
  lower e ≠ "csv"%string →
  x = Str (s0 +:+ String a (String extsep e)) ∨
  x = UploadedFile (s0 +:+ String a (String extsep e)) →
  load_data DataFrame read_csv read_excel x s =
    (Normal None,
     mk_DataHandler
       (log s ++
          [(WARNING,
            "File not found. Please load file with extension: 'csv', 'xls', 'xlsx'."%string)])) ∧
  load_data DataFrame read_csv read_excel' x s =
    load_data DataFrame read_csv read_excel x s.
Proof.
  intros Ha1 Ha2 He Hcsv Hx.
  assert (∀ re, load_data DataFrame read_csv re x s =
    (Normal None,
     mk_DataHandler
       (log s ++
          [(WARNING,
            "File not found. Please load file with extension: 'csv', 'xls', 'xlsx'."%string)])))
    as Hre.
  { intros re. unfold load_data, try_except, load_data_body, bind, ret.
    destruct Hx as [-> | ->]; cbn [fst snd];
      rewrite splitext_stem_ext by done; cbn [snd];
      (rewrite decide_False by (by rewrite lower_extension)); done. }
  by rewrite !Hre.
Qed.

(** X20.  Files with the extension csv, in any letter case, are read by
    [pd.read_csv]: its dataset is returned; its [FileNotFoundError] is
    logged as an error and [None] is returned; any other exception of the
    reader reaches the caller.  The object is only touched by the log
    record. *)
Theorem load_data_csv (read_excel : input_arg → outcome DataFrame)
    (s0 : string) (a : Ascii.ascii) (e : string) x s :
  a ≠ extsep → a ≠ sep →
  Forall (λ c, c ≠ extsep ∧ c ≠ sep) (String.list_ascii_of_string e) →
  lower e = "csv"%string →
  x = Str (s0 +:+ String a (String extsep e)) ∨
  x = UploadedFile (s0 +:+ String a (String extsep e)) →
  load_data DataFrame read_csv read_excel x s =
    match read_csv x with
    | Normal data => (Normal (Some data), s)
    | Raised err =>
        if decide (exn_cls err = FileNotFoundError)
        then (Normal None,
              mk_DataHandler
                (log s ++
                   [(ERROR,
                     "Unable to find the document you're trying to load. "
                     +:+ exn_msg err)]))
        else (Raised err, s)
    end.
Proof.
  intros Ha1 Ha2 He Hcsv Hx.
  unfold load_data, try_except, load_data_body, bind, ret, lift.
  destruct Hx as [-> | ->]; cbn [fst snd];
    rewrite splitext_stem_ext by done; cbn [snd];
    (rewrite decide_True by (by rewrite lower_extension));
    (destruct (read_csv _) as [d|err]; [done|]);
    simpl; unfold isinstance; simpl;
    (destruct (decide (exn_cls err = FileNotFoundError)) as [Hc|Hc];
      [by rewrite bool_decide_eq_true_2|by rewrite bool_decide_eq_false_2]).
Qed.

(** X21.  The exceptions that leave [load_data].  Whenever the call
    raises, the object is unchanged and the exception is not a
    [FileNotFoundError]; it is either the [TypeError] for an argument that
    is neither a path nor an object with a name (such as the default
    [None]), or an exception raised by [pd.read_csv]. *)
Theorem load_data_raises (read_excel : input_arg → outcome DataFrame)
    x s err s' :
  load_data DataFrame read_csv read_excel x s = (Raised err, s') →
  s' = s ∧ exn_cls err ≠ FileNotFoundError ∧
  ((x = Unsupported ∧ exn_cls err = TypeError) ∨ read_csv x = Raised err).
Proof.
  unfold load_data, try_except, load_data_body, bind, ret, lift, raise.
  destruct x as [path|name|]; cbn [fst snd].
  1,2: destruct (decide _); [|done];
    (destruct (read_csv _) as [d|e0]; [done|]);
    simpl; unfold isinstance; simpl;
    (destruct (decide (exn_cls e0 = FileNotFoundError));
       [by rewrite bool_decide_eq_true_2|]);
    rewrite bool_decide_eq_false_2 by done; intros [= -> ->]; auto.
  simpl. unfold isinstance. simpl. intros [= <- <-].
  split; [done|]. split; [done|]. by left.
Qed.

End load_data_facts.

Section load_data_witnesses.
Import data_handler.

Lemma load_data_not_csv_witness :
  load_data unit (λ _, Normal tt) (λ _, Normal tt)
    (Str "data/pharma-data.xlsx") (mk_DataHandler []) =
    (Normal None,
     mk_DataHandler
       [(WARNING,
         "File not found. Please load file with extension: 'csv', 'xls', 'xlsx'."%string)]) ∧
  load_data unit (λ _, Normal tt) (λ _, Raised (mk_exn ValueError ""))
    (Str "data/pharma-data.xlsx") (mk_DataHandler []) =
  load_data unit (λ _, Normal tt) (λ _, Normal tt)
    (Str "data/pharma-data.xlsx") (mk_DataHandler []).
Proof.
  apply (load_data_not_csv (λ _, Normal tt) (λ _, Normal tt)
           (λ _, Raised (mk_exn ValueError ""))
           "data/pharma-dat" (Ascii.ascii_of_nat 97) "xlsx"
           (Str "data/pharma-data.xlsx") (mk_DataHandler [])).
  - vm_compute. discriminate.
  - vm_compute. discriminate.
  - apply (bool_decide_unpack _). vm_compute. exact I.
  - vm_compute. discriminate.
  - left. reflexivity.
Defined.

Lemma load_data_csv_witness :
  load_data unit (λ _, Normal tt) (λ _, Normal tt)
    (UploadedFile "pharma-data.CSV") (mk_DataHandler []) =
    (Normal (Some tt), mk_DataHandler []).
Proof.
  apply (load_data_csv (λ _, Normal tt) (λ _, Normal tt)
           "pharma-dat" (Ascii.ascii_of_nat 97) "CSV"
           (UploadedFile "pharma-data.CSV") (mk_DataHandler [])).
  - vm_compute. discriminate.
  - vm_compute. discriminate.
  - apply (bool_decide_unpack _). vm_compute. exact I.
  - vm_compute. reflexivity.
  - right. reflexivity.
Defined.

Lemma load_data_raises_witness :
  load_data unit (λ _, Normal tt) (λ _, Normal tt) Unsupported
    (mk_DataHandler []) =
    (Raised (mk_exn TypeError "Unsupported input type for `input_data`"),
     mk_DataHandler []) ∧
  exn_cls (mk_exn TypeError "Unsupported input type for `input_data`")
    ≠ FileNotFoundError.
Proof.
  split; [reflexivity|].
  apply (load_data_raises (DataFrame := unit) (λ _, Normal tt)
           (λ _, Normal tt) Unsupported (mk_DataHandler [])
           (mk_exn TypeError "Unsupported input type for `input_data`")
           (mk_DataHandler []) eq_refl).
Defined.

End load_data_witnesses.

(** ** The moving average with a window of one *)

Section window_one_claim.
Import time_series_analysis.

(** C5.  With [window = 1], [moving_average_analysis] returns one frame
    for every country of the dataset and for nothing else; the frame has one
    row per date on which the country has rows, in ascending order of date,
    its [Sales] value at a date is the mean of the [Sales] of exactly those
    rows (the per-date aggregated series of the input), and its
    [Moving_Average] column equals that [Sales] column at every
    position. *)
Theorem moving_average_window_one (self : TimeSeriesAnalysis Qc) :
  ∃ res, moving_average_analysis 1 self = (Normal (Some res), self) ∧
    dom res = (list_to_set (Country <$> input_data self) : gset string) ∧
    ∀ c f, res !! c = Some f →
      aggregates vavg c (input_data self)
        ((λ r, (ma_date r, ma_sales r)) <$> f) ∧
      StronglySorted date_lt (ma_date <$> f) ∧
      ma_moving_average <$> f = Some <$> (ma_sales <$> f).
Proof.
  destruct (moving_average_analysis_dict self 1) as (res & Hres & Hdict);
    [lia|].
  destruct (moving_average_means self 1) as (res1 & Hres1 & Hagg); [lia|].
  destruct (moving_average_column self 1) as (res2 & Hres2 & Hcol); [lia|].
  rewrite Hres in Hres1, Hres2.
  assert (res1 = res) as -> by congruence.
  assert (res2 = res) as -> by congruence.
  exists res. split; [done|]. split.
  - apply set_eq. intros c.
    rewrite elem_of_dom, elem_of_list_to_set, Hdict.
    destruct (decide (c ∈ Country <$> input_data self)) as [Hin|Hin].
    + destruct (country_moving_average_frame 1 (input_data self) c)
        as [f ->]; [lia|].
      split; [done|]. by eexists.
    + split; [by intros [? ?]|done].
  - intros c f Hc. split; [by apply Hagg|]. split.
    + pose proof (moving_average_frame_columns self 1 res c f Hres) as Hcols.
      assert (ma_date <$> f = (country_means (input_data self) c).*1) as ->.
      { rewrite <-Hcols by (lia || done). by rewrite <-list_fmap_compose. }
      apply country_means_sorted.
    + apply list_eq. intros i.
      destruct (decide (i < length f)%nat) as [Hi|Hi].
      * rewrite (Hcol c f Hc i Hi), decide_True by lia.
        destruct (lookup_lt_is_Some_2 (ma_sales <$> f) i) as [x Hx];
          [by rewrite length_fmap|].
        rewrite list_lookup_fmap, Hx. simpl. do 2 f_equal.
        unfold trailing_window. replace (i + 1 - Z.to_nat 1)%nat with i by lia.
        change (Z.to_nat 1) with 1%nat.
        rewrite (drop_S _ _ _ Hx). simpl. rewrite take_0.
        apply vavg_singleton.
      * rewrite !lookup_ge_None_2; [done|rewrite !length_fmap; lia
                                        |rewrite length_fmap; lia].
Qed.

End window_one_claim.

(** ** The forecast horizon does not continue the history month by month *)

Section horizon_counterexample.
Import tsa_forecasting example_session.


End horizon_counterexample.
